(** * OpenVPN interface configuration: validation, generation, lifecycle

    A shallow embedding of [src/conf_mode/interfaces-openvpn.py] (VyOS):
    the functions [verify_pki], [verify], [generate_pki_files], [generate],
    [apply] and the [__main__] pipeline, over an explicit model of the
    Python values the script manipulates and of the parts of the system it
    touches (files under /run/openvpn and /config/auth/openvpn, the
    commands run through [call], the kernel interface list, standard
    output, the system random source). *)

From Stdlib Require Import ZArith Lia Ascii String.
From stdpp Require Import base option list strings gmap fin_maps.

Local Open Scope string_scope.
Local Open Scope Z_scope.

(** ** Python values

    The configuration handed over by [get_interface_dict] and the PKI
    subtree are nested Python dictionaries whose leaves are strings, lists
    of strings, or empty dictionaries (valueless nodes); the generator
    additionally stores [True] and possibly [None] under keys of its own.
    Dictionaries keep their insertion order, so they are association
    lists; a key is looked up at its first binding.  The record is a
    tree: no dictionary is reachable under two keys. *)

#[warnings="-register-all"] Inductive pyval : Type :=
| VNone
| VStr (s : string)
| VBool (b : bool)
| VList (l : list pyval)
| VDict (d : list (string * pyval)).

Abbreviation dict := (list (string * pyval)).

(** The binding of a key in a dictionary, if any. *)
Fixpoint dict_get (k : string) (d : dict) : option pyval :=
  match d with
  | [] => None
  | (k', v) :: d' => if String.eqb k k' then Some v else dict_get k d'
  end.

(** [k in d] on a dictionary. *)
Definition key_in (k : string) (d : dict) : bool :=
  match dict_get k d with Some _ => true | None => false end.

(** [d[k] = v]: replaces the value in place, or appends a new key. *)
Fixpoint dict_set (k : string) (v : pyval) (d : dict) : dict :=
  match d with
  | [] => [(k, v)]
  | (k', v') :: d' =>
      if String.eqb k k' then (k', v) :: d' else (k', v') :: dict_set k v d'
  end.

(** Python truthiness: [bool(v)]. *)
Definition truthy (v : pyval) : bool :=
  match v with
  | VNone => false
  | VStr s => negb (String.eqb s "")
  | VBool b => b
  | VList l => match l with [] => false | _ => true end
  | VDict d => match d with [] => false | _ => true end
  end.

(** [d.get(k)]: the value, or [None]. *)
Definition py_get (k : string) (d : dict) : pyval :=
  match dict_get k d with Some v => v | None => VNone end.

(** Python [==] on values.  Lists compare element-wise; dictionaries
    compare as mappings, whatever the order of their keys. *)
Fixpoint py_eqb (a b : pyval) : bool :=
  match a, b with
  | VNone, VNone => true
  | VStr s, VStr t => String.eqb s t
  | VBool x, VBool y => Bool.eqb x y
  | VList l, VList m =>
      (fix go (l m : list pyval) : bool :=
         match l, m with
         | [], [] => true
         | x :: l', y :: m' => py_eqb x y && go l' m'
         | _, _ => false
         end) l m
  | VDict d, VDict e =>
      Nat.eqb (length d) (length e) &&
      (fix go (d : dict) : bool :=
         match d with
         | [] => true
         | (k, v) :: d' =>
             match dict_get k e with
             | Some w => py_eqb v w && go d'
             | None => false
             end
         end) d
  | _, _ => false
  end.

(** [v == 'literal'] *)
Definition is_str (v : pyval) (s : string) : bool := py_eqb v (VStr s).

(** Modelled from the spec: [dict_search] and [dict_search_args] of
    [vyos.util] are not among the sources.  The specification treats the
    configuration as a nested record of optional fields, so the lookup
    walks the path through nested dictionaries and yields the value found
    there, or [None] as soon as a key is absent (a path running into a
    value that is not a dictionary finds nothing). *)
Fixpoint dict_search (path : list string) (d : dict) : pyval :=
  match path with
  | [] => VNone
  | [k] => py_get k d
  | k :: rest =>
      match dict_get k d with
      | Some (VDict d') => dict_search rest d'
      | _ => VNone
      end
  end.

Definition dict_search_args (d : dict) (path : list string) : pyval :=
  dict_search path d.

(** ** Text helpers *)

(** [s.split(sep)] for a one-character separator. *)
Fixpoint split_on (sep : ascii) (s : string) : list string :=
  match s with
  | EmptyString => [EmptyString]
  | String c s' =>
      if Ascii.eqb c sep then EmptyString :: split_on sep s'
      else match split_on sep s' with
           | t :: ts => String c t :: ts
           | [] => [String c EmptyString]
           end
  end.

Definition digit_of (c : ascii) : option Z :=
  let n := Z.of_nat (nat_of_ascii c) in
  if (48 <=? n) && (n <=? 57) then Some (n - 48) else None.

Fixpoint decimal_go (acc : Z) (s : string) : option Z :=
  match s with
  | EmptyString => Some acc
  | String c s' =>
      match digit_of c with
      | Some d => decimal_go (acc * 10 + d) s'
      | None => None
      end
  end.

(** [int(s)] for a non-empty string of ASCII digits. *)
Definition parse_decimal (s : string) : option Z :=
  match s with
  | EmptyString => None
  | _ => decimal_go 0 s
  end.

(** ** IPv4 addresses and networks

    [IPv4Address], [IPv4Network] and [summarize_address_range] belong to
    [ipaddress] of the Python standard library.  An IPv4 address is its
    32-bit integer; the textual form is four decimal octets (one to three
    digits, no leading zero, at most 255). *)

Definition parse_octet (s : string) : option Z :=
  if (3 <? Z.of_nat (String.length s)) then None
  else match s with
       | String "0" (String _ _) => None
       | _ => match parse_decimal s with
              | Some n => if n <=? 255 then Some n else None
              | None => None
              end
       end.

Definition ipv4_of_string (s : string) : option Z :=
  match split_on "." s with
  | [a; b; c; d] =>
      match parse_octet a, parse_octet b, parse_octet c, parse_octet d with
      | Some a, Some b, Some c, Some d =>
          Some (Z.lor (Z.shiftl a 24) (Z.lor (Z.shiftl b 16) (Z.lor (Z.shiftl c 8) d)))
      | _, _, _, _ => None
      end
  | _ => None
  end.

(** [IPv4Address(v)]: a string is parsed, a bool is the integer 0 or 1,
    anything else is refused ([None] stands for [AddressValueError]). *)
Definition IPv4Address (v : pyval) : option Z :=
  match v with
  | VStr s => ipv4_of_string s
  | VBool b => Some (if b then 1 else 0)
  | VNone | VList _ | VDict _ => None
  end.

Definition all_ones : Z := 4294967295.

(** The netmask of a prefix length. *)
Definition netmask_of (p : Z) : Z := Z.lxor all_ones (Z.shiftr all_ones p).

(** The prefix length whose netmask is [m], searched from [p] upwards. *)
Fixpoint prefix_of_mask (fuel : nat) (p : Z) (m : Z) : option Z :=
  if netmask_of p =? m then Some p
  else match fuel with
       | O => None
       | S fuel' => prefix_of_mask fuel' (p + 1) m
       end.

(** The mask part of a network literal: a prefix length in digits, or a
    dotted netmask, or a dotted hostmask. *)
Definition ipv4_prefixlen (mask : string) : option Z :=
  match parse_decimal mask with
  | Some p => if p <=? 32 then Some p else None
  | None =>
      match ipv4_of_string mask with
      | Some m =>
          match prefix_of_mask 32 0 m with
          | Some p => Some p
          | None => prefix_of_mask 32 0 (Z.lxor m all_ones)
          end
      | None => None
      end
  end.

Record ipv4net : Type := { net_addr : Z; net_prefixlen : Z }.

(** [IPv4Network(s, strict)]: address, optional [/mask]; with [strict]
    the host bits must be zero. *)
Definition ipv4_network_of_string (strict : bool) (s : string) : option ipv4net :=
  let mk (a : string) (p : Z) :=
    match ipv4_of_string a with
    | Some ip =>
        let base := Z.land ip (netmask_of p) in
        if strict && negb (base =? ip) then None
        else Some {| net_addr := base; net_prefixlen := p |}
    | None => None
    end in
  match split_on "/" s with
  | [a] => mk a 32
  | [a; m] => match ipv4_prefixlen m with Some p => mk a p | None => None end
  | _ => None
  end.

Definition IPv4Network (v : pyval) : option ipv4net :=
  match v with
  | VStr s => ipv4_network_of_string true s
  | VBool b => Some {| net_addr := if b then 1 else 0; net_prefixlen := 32 |}
  | VNone | VList _ | VDict _ => None
  end.

(** [addr in net]. *)
Definition ipv4_in (a : Z) (n : ipv4net) : bool :=
  Z.land a (netmask_of (net_prefixlen n)) =? net_addr n.

(** Modelled from the spec: [is_ipv4] of [vyos.template] is not among
    the sources.  It tells whether a literal is an IPv4 address or
    network: [ip_interface(text)] succeeds with version 4. *)
Definition is_ipv4 (v : pyval) : bool :=
  match v with
  | VStr s => match ipv4_network_of_string false s with Some _ => true | None => false end
  | VBool _ => true
  | VNone | VList _ | VDict _ => false
  end.

(** [summarize_address_range(first, last)] for addresses of [bits] bits:
    the aligned blocks that tile the range, as (address, prefix length).
    The loop of the library runs at most [2 * bits] times. *)

(** [n.bit_length()] for [n >= 0]. *)
Definition bit_length (n : Z) : Z := if n =? 0 then 0 else Z.log2 n + 1.

Definition count_righthand_zero_bits (n bits : Z) : Z :=
  if n =? 0 then bits
  else Z.min bits (bit_length (Z.land (Z.lnot n) (n - 1))).

Fixpoint summarize_go (fuel : nat) (bits first last : Z) : list ipv4net :=
  match fuel with
  | O => []
  | S fuel' =>
      if last <? first then []
      else
        let nbits := Z.min (count_righthand_zero_bits first bits)
                           (bit_length (last - first + 1) - 1) in
        let net := {| net_addr := first; net_prefixlen := bits - nbits |} in
        let first' := first + Z.shiftl 1 nbits in
        if first' - 1 =? Z.ones bits then [net]
        else net :: summarize_go fuel' bits first' last
  end.

Definition summarize_address_range (bits first last : Z) : list ipv4net :=
  summarize_go (Z.to_nat (2 * bits)) bits first last.

(** Membership of an address in a block of a [bits]-bit address space. *)
Definition addr_in_block (bits a : Z) (n : ipv4net) : bool :=
  Z.land a (Z.lxor (Z.ones bits) (Z.shiftr (Z.ones bits) (net_prefixlen n))) =? net_addr n.

(** ** Outcomes of running the script *)

(** One constructor per [raise ConfigError(...)] of the source, in source
    order; the arguments are the values interpolated into the message. *)
Inductive config_error : Type :=
(* verify_pki *)
| ErrSecretXorTls            (* Must specify only one of shared-secret-key and tls *)
| ErrTlsRequired             (* Must specify tls for server and client modes *)
| ErrPkiNotConfigured        (* PKI is not configured *)
| ErrNoSharedSecrets         (* There are no openvpn shared-secrets in PKI configuration *)
| ErrInvalidSharedSecret (interface : pyval)
| ErrMissingCa (interface : pyval)
| ErrInvalidCa (interface : pyval)
| ErrMissingCertificate (interface : pyval)
| ErrInvalidCertificate (interface : pyval)
| ErrEncryptedKey (interface : pyval)
| ErrDhRequired              (* Must specify tls dh-params when not using EC keys in server mode *)
| ErrNoDhInPki               (* There are no DH parameters in PKI configuration *)
| ErrInvalidDh (interface : pyval)
| ErrDhTooSmall              (* Minimum DH key-size is 2048 bits *)
| ErrInvalidAuthKey (interface : pyval)
| ErrInvalidCryptKey (interface : pyval)
(* verify *)
| ErrModeMissing             (* Must specify OpenVPN operation mode! *)
| ErrClientLocalPort         (* Cannot specify local-port in client mode *)
| ErrClientLocalHost         (* Cannot specify local-host in client mode *)
| ErrClientRemoteHost        (* Must specify remote-host in client mode *)
| ErrClientTcpPassive        (* Protocol tcp-passive is not valid in client mode *)
| ErrClientDhParams          (* Cannot specify tls dh-params in client mode *)
| ErrS2sLocalAddress         (* Must specify local-address or add interface to bridge *)
| ErrS2sOneV4Local           (* Only one IPv4 local-address can be specified *)
| ErrS2sOneV6Local           (* Only one IPv6 local-address can be specified *)
| ErrS2sRemoteAddress        (* Must specify remote-address *)
| ErrS2sOneV4Remote          (* Only one IPv4 remote-address can be specified *)
| ErrS2sOneV6Remote          (* Only one IPv6 remote-address can be specified *)
| ErrS2sRemoteNeedsLocal     (* remote-address requires local-address *)
| ErrS2sV4LocalNeedsRemote   (* IPv4 local-address requires IPv4 remote-address *)
| ErrS2sV4RemoteNeedsLocal   (* IPv4 remote-address requires IPv4 local-address *)
| ErrS2sV6LocalNeedsRemote   (* IPv6 local-address requires IPv6 remote-address *)
| ErrS2sV6RemoteNeedsLocal   (* IPv6 remote-address requires IPv6 local-address *)
| ErrS2sSameAddress          (* local-address and remote-address cannot be the same *)
| ErrS2sLocalHostSame        (* local-address cannot be the same as local-host *)
| ErrS2sRemoteHostSame       (* remote-address and remote-host can not be the same *)
| ErrS2sSubnetMask           (* Must specify IPv4 subnet-mask for local-address *)
| ErrS2sNcpCiphers           (* NCP ciphers can only be used in client or server mode *)
| ErrAddressNotAllowed       (* Cannot specify local-address or remote-address in client/server or bridge mode *)
| ErrServerTcpActive         (* Protocol tcp-active is not valid in server mode *)
| ErrServerRemotePort        (* Cannot specify remote-port in server mode *)
| ErrServerRemoteHost        (* Cannot specify remote-host in server mode *)
| ErrServerV4Subnets         (* Cannot specify more than 1 IPv4 server subnet *)
| ErrServerV6Subnets         (* Cannot specify more than 1 IPv6 server subnet *)
| ErrServerV6NeedsV4         (* IPv6 server requires an IPv4 server subnet *)
| ErrServerTunSubnet         (* Server subnets smaller than /29 with device type tun are not supported *)
| ErrServerTapSubnet         (* Server subnets smaller than /30 with device type tap are not supported *)
| ErrClientNotInSubnet (name ip : pyval) (subnet : ipv4net)
| ErrServerSubnetRequired    (* Must specify server subnet or add interface to bridge in server mode *)
| ErrServerClientIps (client_k : string)
| ErrPoolStartStop           (* Server client-ip-pool requires both start and stop addresses *)
| ErrPoolOrder (start stop : Z)
| ErrPoolTooLarge (start stop size : Z)
| ErrV6PoolNeedsV4Pool       (* IPv6 server pool requires an IPv4 server pool *)
| ErrV6PoolPrefix            (* IPv6 server pool must be larger than /112 *)
| ErrV6PoolSmaller (v6size v4size : Z)
| ErrRejectUnconfigured      (* Option reject-unconfigured-clients only supported in server mode *)
| ErrReplaceDefaultRoute     (* Cannot set replace-default-route without remote-host *)
| ErrLocalHostNotAssigned (local_host : pyval)
| ErrTcpActiveLocalPort      (* Cannot specify local-port with tcp-active *)
| ErrTcpActiveRemoteHost     (* Must specify remote-host with tcp-active *)
| ErrGcmSharedSecret         (* GCM encryption with shared-secret-key not supported *)
| ErrTlsAuthCrypt            (* TLS auth and crypt keys are mutually exclusive *)
| ErrTlsRoleClientServer     (* Cannot specify tls role in client-server mode *)
| ErrRoleActiveTcpPassive    (* Cannot specify tcp-passive when tls role is active *)
| ErrRoleActiveDh            (* Cannot specify tls dh-params when tls role is active *)
| ErrRolePassiveTcpActive    (* Cannot specify tcp-active when tls role is passive *)
| ErrRolePassiveDh           (* Must specify tls dh-params when tls role is passive *)
| ErrPasswordMissing         (* Password for authentication is missing *)
| ErrUsernameMissing         (* Username for authentication is missing *)
(* raised by verify_vrf or verify_bridge_delete *)
| ErrExternal (msg : string).

(** Python exceptions other than [ConfigError]: these are not caught by
    [__main__] and end the run with a traceback.  [OutOfModel] marks the
    inputs whose Python behaviour the embedding does not follow: an
    interface or client name that is not a string, and the cleanup of an
    interface whose name has a slash or a glob metacharacter in it. *)
Inductive py_exception : Type :=
| KeyError (k : string)
| IndexError
| TypeError
| ValueError
| AttributeError
| UnboundLocalError
| ReError
| OSError
| UnicodeDecodeError
| OutOfModel.

Inductive outcome (A : Type) : Type :=
| Returned (a : A)
| Rejected (e : config_error)
| Raised (x : py_exception).
Arguments Returned {A} a.
Arguments Rejected {A} e.
Arguments Raised {A} x.

(** Lines the script prints. *)
Inductive printed : Type :=
| WarnClientInPool (name ip : pyval)
| WarnDhWithEc
| WarnEncryptionNone
| WarnPlainText
| PrintError (e : config_error).

(** ** The system the script acts on *)

Inductive node : Type :=
| Dir (owner : option (string * string))
| File (text : string) (owner : option (string * string)) (mode : option Z).

Record world : Type := mkWorld {
  fs : gmap string node;            (* the file system, by path as the script spells it *)
  calls : list string;              (* commands run through call(), oldest first *)
  netifs : gmap string (option dict); (* kernel interfaces and the record last pushed to each *)
  stdout : list printed;            (* lines printed, oldest first *)
  entropy : nat -> nat;             (* the choices SystemRandom will make *)
  drawn : nat;                      (* how many of them were consumed *)
  exit_status : option Z            (* set by exit() *)
}.

Definition M (A : Type) : Type := world -> outcome A * world.

Definition ret {A} (a : A) : M A := fun w => (Returned a, w).

Definition bind {A B} (m : M A) (k : A -> M B) : M B :=
  fun w =>
    match m w with
    | (Returned a, w') => k a w'
    | (Rejected e, w') => (Rejected e, w')
    | (Raised x, w') => (Raised x, w')
    end.

Declare Scope py_scope.
Delimit Scope py_scope with py.
Notation "x <- m ;; k" := (bind m (fun x => k))
  (at level 100, m at next level, right associativity) : py_scope.
Notation "m ;; k" := (bind m (fun _ => k))
  (at level 100, right associativity) : py_scope.
Local Open Scope py_scope.

(** [raise ConfigError(e)] *)
Definition reject {A} (e : config_error) : M A := fun w => (Rejected e, w).

(** Any other exception. *)
Definition throw {A} (x : py_exception) : M A := fun w => (Raised x, w).

(** [if b: m] *)
Definition when (b : bool) (m : M unit) : M unit := if b then m else ret tt.

(** A partial operation that raises [x] where it is undefined. *)
Definition orelse {A} (x : py_exception) (o : option A) : M A :=
  match o with Some a => ret a | None => throw x end.

Definition get_world : M world := fun w => (Returned w, w).
Definition modify (f : world -> world) : M unit := fun w => (Returned tt, f w).

(** [for x in l: body x] *)
Fixpoint for_each {A} (l : list A) (body : A -> M unit) : M unit :=
  match l with
  | [] => ret tt
  | x :: l' => body x ;; for_each l' body
  end.

Definition print (p : printed) : M unit :=
  modify (fun w => mkWorld (fs w) (calls w) (netifs w) (stdout w ++ [p])%list
                           (entropy w) (drawn w) (exit_status w)).

Definition set_fs (f : gmap string node -> gmap string node) : M unit :=
  modify (fun w => mkWorld (f (fs w)) (calls w) (netifs w) (stdout w)
                           (entropy w) (drawn w) (exit_status w)).

(** Modelled from the spec: [call] of [vyos.util] is not among the
    sources; it runs a command of the service manager, which is recorded
    here. *)
Definition call (cmd : string) : M unit :=
  modify (fun w => mkWorld (fs w) (calls w ++ [cmd])%list (netifs w) (stdout w)
                           (entropy w) (drawn w) (exit_status w)).

Definition set_netifs (f : gmap string (option dict) -> gmap string (option dict)) : M unit :=
  modify (fun w => mkWorld (fs w) (calls w) (f (netifs w)) (stdout w)
                           (entropy w) (drawn w) (exit_status w)).

(** [exit(n)] *)
Definition py_exit (n : Z) : M unit :=
  modify (fun w => mkWorld (fs w) (calls w) (netifs w) (stdout w)
                           (entropy w) (drawn w) (Some n)).

(** One draw of [SystemRandom().choice(seq)]: an index below [n]. *)
Definition random_index (n : nat) : M nat :=
  fun w => (Returned (entropy w (drawn w) `mod` n)%nat,
            mkWorld (fs w) (calls w) (netifs w) (stdout w)
                    (entropy w) (S (drawn w)) (exit_status w)).

(** ** Python operators on values *)

Definition chars (s : string) : list pyval :=
  map (fun c => VStr (String c EmptyString)) (list_ascii_of_string s).

(** [for x in v]: a dictionary yields its keys. *)
Definition py_iter (v : pyval) : M (list pyval) :=
  match v with
  | VDict d => ret (map (fun kv => VStr (fst kv)) d)
  | VList l => ret l
  | VStr s => ret (chars s)
  | VBool _ | VNone => throw TypeError
  end.

(** [for x in (v or [])] *)
Definition py_iter_or_empty (v : pyval) : M (list pyval) :=
  if truthy v then py_iter v else ret [].

(** [len(v)] *)
Definition py_len (v : pyval) : M Z :=
  match v with
  | VDict d => ret (Z.of_nat (length d))
  | VList l => ret (Z.of_nat (length l))
  | VStr s => ret (Z.of_nat (String.length s))
  | VBool _ | VNone => throw TypeError
  end.

(** [d[k]] on the top-level dictionary. *)
Definition getitem (k : string) (d : dict) : M pyval :=
  orelse (KeyError k) (dict_get k d).

(** [v[key]] *)
Definition subscript (v key : pyval) : M pyval :=
  match v, key with
  | VDict d, VStr k => orelse (KeyError k) (dict_get k d)
  | VDict d, VBool b => throw (KeyError (if b then "True" else "False"))
  | VDict d, _ => throw TypeError
  | VList l, VBool b => orelse IndexError (l !! (if b then 1 else 0)%nat)
  | VStr s, VBool b => orelse IndexError (chars s !! (if b then 1 else 0)%nat)
  | _, _ => throw TypeError
  end.

(** [v[0]] *)
Definition index0 (v : pyval) : M pyval :=
  match v with
  | VList l => orelse IndexError (l !! 0%nat)
  | VStr s => orelse IndexError (chars s !! 0%nat)
  | VDict _ => throw (KeyError "0")
  | VBool _ | VNone => throw TypeError
  end.

Fixpoint is_infix (t s : string) : bool :=
  String.prefix t s ||
  match s with
  | EmptyString => false
  | String _ s' => is_infix t s'
  end.

Definition hashable (v : pyval) : bool :=
  match v with
  | VList _ | VDict _ => false
  | _ => true
  end.

(** [item in container] *)
Definition contains (item container : pyval) : M bool :=
  match container with
  | VDict d =>
      if hashable item
      then ret (match item with VStr k => key_in k d | _ => false end)
      else throw TypeError
  | VList l => ret (existsb (py_eqb item) l)
  | VStr s =>
      match item with
      | VStr t => ret (is_infix t s)
      | _ => throw TypeError
      end
  | VBool _ | VNone => throw TypeError
  end.

(** ['k' in v] *)
Definition has_key (k : string) (v : pyval) : M bool :=
  contains (VStr k) v.

(** [dict_search_args(v, *path)] on a value that need not be a dictionary. *)
Definition dict_search_val (v : pyval) (path : list string) : pyval :=
  match v with
  | VDict d => dict_search path d
  | _ => VNone
  end.

(** [s.replace(old, new)], scanning left to right; [skip] characters of a
    match just replaced are passed over. *)
Fixpoint replace_go (old new : string) (skip : nat) (s : string) : string :=
  match s with
  | EmptyString => EmptyString
  | String c s' =>
      match skip with
      | S k => replace_go old new k s'
      | O =>
          if String.prefix old s
          then new +:+ replace_go old new (String.length old - 1) s'
          else String c (replace_go old new 0 s')
      end
  end.

Definition dquote : string := String (ascii_of_nat 34) EmptyString.

(** The [formater] of the main configuration: [&quot;] becomes a quote. *)
Definition unquote (s : string) : string := replace_go "&quot;" dquote 0 s.

Definition newline : string := String (ascii_of_nat 10) EmptyString.
Definition carriage_return : string := String (ascii_of_nat 13) EmptyString.

(** [f.readlines()] on a file opened in text mode with the default
    [newline=None]: the lines of the text, each with its newline.  A line
    ends at a line feed, at a carriage return, or at a carriage return
    followed by a line feed, and each of the three comes back as a line
    feed (universal newlines). *)
Fixpoint readlines_go (cur : string) (s : string) : list string :=
  match s with
  | EmptyString => match cur with EmptyString => [] | _ => [cur] end
  | String c s' =>
      if Ascii.eqb c (ascii_of_nat 10)
      then (cur +:+ newline) :: readlines_go EmptyString s'
      else if Ascii.eqb c (ascii_of_nat 13)
      then match s' with
           | String c' _ =>
               if Ascii.eqb c' (ascii_of_nat 10)
               then readlines_go cur s'
               else (cur +:+ newline) :: readlines_go EmptyString s'
           | EmptyString => (cur +:+ newline) :: readlines_go EmptyString s'
           end
      else readlines_go (cur +:+ String c EmptyString) s'
  end.

Definition readlines (s : string) : list string := readlines_go EmptyString s.

(** ** Collaborators outside the script *)

(** Modelled from the spec: the PKI helpers of [vyos.pki], the template
    renderer, [verify_vrf], [verify_bridge_delete], [is_addr_assigned]
    and [is_ipv6] are not among the sources (nor are the IPv6 half of
    [ipaddress], Python's [int] and [re], and the encoding of the
    locale, in which files opened in text mode are read).  The specification treats
    them as opaque collaborators without logic of their own, so they are
    parameters of the development; the external verifiers only inspect
    the configuration and the system and either pass or reject with a
    message. *)
Record externals : Type := {
  ext_is_ipv6 : pyval -> bool;                   (* vyos.template.is_ipv6 *)
  ext_is_addr_assigned : pyval -> bool;          (* vyos.validate.is_addr_assigned *)
  ext_verify_vrf : dict -> option string;        (* Some msg: ConfigError(msg) *)
  ext_verify_bridge_delete : dict -> option string;
  ext_is_ec_key : pyval -> bool;                 (* load_private_key(k) is an EC private key *)
  ext_dh_bits : pyval -> option Z;               (* bit length of the modulus of load_dh_parameters(p) *)
  ext_re_search : string -> string -> option bool; (* re.search(pattern, text) is not None; None: re.error *)
  ext_int : pyval -> option Z;                   (* int(v); None: ValueError *)
  ext_ipv6_address : pyval -> option Z;          (* IPv6Address(v); None: AddressValueError *)
  ext_render : string -> pyval -> string;        (* text of a template rendered on a record *)
  ext_wrap : string -> pyval -> string;          (* wrap_certificate and friends, by kind *)
  ext_decodable : string -> bool                 (* the bytes are text in the locale's encoding *)
}.

(** Characters that match one character of the text in a regular
    expression: those that stand for themselves, and the dot. *)
Definition regex_plain_char (c : ascii) : bool :=
  negb (existsb (Ascii.eqb c)
          (list_ascii_of_string "^$*+?{}[]\|()")).

Definition regex_plain (s : string) : bool :=
  forallb regex_plain_char (list_ascii_of_string s).

(** [re.match(pattern, text) is not None] for a pattern of such
    characters: each character of the pattern meets one of the text, a
    dot any character but the line feed. *)
Fixpoint match_plain (pattern text : string) : bool :=
  match pattern, text with
  | EmptyString, _ => true
  | String _ _, EmptyString => false
  | String p pattern', String t text' =>
      (if Ascii.eqb p "." then negb (Ascii.eqb t (ascii_of_nat 10)) else Ascii.eqb p t)
      && match_plain pattern' text'
  end.

(** ** Files *)

Definition user : string := "openvpn".
Definition group : string := "openvpn".
Definition cfg_dir : string := "/run/openvpn".
Definition cfg_file (ifname : string) : string := "/run/openvpn/" +:+ ifname +:+ ".conf".
Definition otp_path : string := "/config/auth/openvpn".
Definition otp_file (ifname : string) : string :=
  "/config/auth/openvpn/" +:+ ifname +:+ "-otp-secrets".
Definition secret_chars : list ascii :=
  list_ascii_of_string "ABCDEFGHIJKLMNOPQRSTUVWXYZ234567".

Definition is_file (p : string) (f : gmap string node) : bool :=
  match f !! p with Some (File _ _ _) => true | _ => false end.

Definition is_dir (p : string) (f : gmap string node) : bool :=
  match f !! p with Some (Dir _) => true | _ => false end.

Definition path_exists (p : string) (f : gmap string node) : bool :=
  match f !! p with Some _ => true | None => false end.

(** Create each directory of [ps] that is missing; a regular file in the
    way is an error ([os.makedirs], [Path.mkdir(parents=True)]). *)
Fixpoint mkdirs (ps : list string) : M unit :=
  match ps with
  | [] => ret tt
  | p :: ps' =>
      w <- get_world ;;
      match fs w !! p with
      | None => set_fs (insert p (Dir None)) ;; mkdirs ps'
      | Some (Dir _) => mkdirs ps'
      | Some (File _ _ _) => throw OSError
      end
  end.

(** [Path(p).touch()] *)
Definition touch (p : string) : M unit :=
  w <- get_world ;;
  match fs w !! p with
  | None => set_fs (insert p (File EmptyString None None))
  | Some _ => ret tt
  end.

(** Replace the text of a file, keeping owner and mode when it exists
    ([open(p, 'w')], or rewriting from the start and truncating). *)
Definition write_text (p : string) (t : string) : M unit :=
  w <- get_world ;;
  match fs w !! p with
  | Some (File _ o m) => set_fs (insert p (File t o m))
  | Some (Dir _) => throw OSError
  | None => set_fs (insert p (File t None None))
  end.

(** Modelled from the spec: [chown] of [vyos.util] is not among the
    sources; it assigns the ownership of a path to the service account.
    A missing path is left alone. *)
Definition chown (p : string) (u g : string) : M unit :=
  w <- get_world ;;
  match fs w !! p with
  | Some (File t _ m) => set_fs (insert p (File t (Some (u, g)) m))
  | Some (Dir _) => set_fs (insert p (Dir (Some (u, g))))
  | None => ret tt
  end.

(** Modelled from the spec: [chmod_600] of [vyos.util] is not among
    the sources; it tightens the permissions of a path to its owner.  A
    missing path is left alone. *)
Definition chmod (p : string) (mode : Z) : M unit :=
  w <- get_world ;;
  match fs w !! p with
  | Some (File t o _) => set_fs (insert p (File t o (Some mode)))
  | _ => ret tt
  end.

(** [chmod_600(p)]: owner read and write only (0o600). *)
Definition chmod_600 (p : string) : M unit := chmod p 384.

(** [os.remove(p)] / [os.unlink(p)] *)
Definition unlink (p : string) : M unit :=
  w <- get_world ;;
  match fs w !! p with
  | Some (File _ _ _) => set_fs (delete p)
  | _ => throw OSError
  end.

(** ** Paths ([os.path]) *)

Definition starts_with_slash (s : string) : bool :=
  match s with
  | String "/" _ => true
  | _ => false
  end.

Fixpoint ends_with_slash (s : string) : bool :=
  match s with
  | EmptyString => false
  | String c EmptyString => Ascii.eqb c "/"
  | String _ s' => ends_with_slash s'
  end.

(** [os.path.join(a, *p)]: a component that starts with a slash starts
    the path anew. *)
Definition path_join (a : string) (p : list string) : string :=
  fold_left (fun path b =>
               if starts_with_slash b then b
               else if String.eqb path EmptyString || ends_with_slash path then path +:+ b
               else path +:+ "/" +:+ b) p a.

(** The part of [s] up to its last slash, the slash included. *)
Fixpoint upto_last_slash (s : string) : option string :=
  match s with
  | EmptyString => None
  | String c s' =>
      match upto_last_slash s' with
      | Some h => Some (String c h)
      | None => if Ascii.eqb c "/" then Some (String c EmptyString) else None
      end
  end.

(** [s.rstrip('/')] *)
Fixpoint rstrip_slash (s : string) : string :=
  match s with
  | EmptyString => EmptyString
  | String c s' =>
      match rstrip_slash s' with
      | EmptyString => if Ascii.eqb c "/" then EmptyString else String c EmptyString
      | r => String c r
      end
  end.

(** [os.path.dirname(p)] *)
Definition dirname (p : string) : string :=
  match upto_last_slash p with
  | None => EmptyString
  | Some head =>
      if forallb (Ascii.eqb "/"%char) (list_ascii_of_string head) then head
      else rstrip_slash head
  end.

(** A path and the directories above it, outermost first: what
    [os.makedirs(p)] has to find or create. *)
Fixpoint ancestors_go (seen : string) (s : string) : list string :=
  match s with
  | EmptyString => match seen with EmptyString => [] | _ => [seen] end
  | String c s' =>
      if Ascii.eqb c "/" && negb (String.eqb seen EmptyString) &&
         negb (ends_with_slash seen)
      then seen :: ancestors_go (seen +:+ String c EmptyString) s'
      else ancestors_go (seen +:+ String c EmptyString) s'
  end.

Definition ancestors (p : string) : list string := ancestors_go EmptyString p.

(** A name that [glob] takes literally and that names an entry of a
    directory: no glob metacharacter and no slash. *)
Definition plain_name (s : string) : bool :=
  forallb (fun c => negb (existsb (Ascii.eqb c) (list_ascii_of_string "/*?[")))
          (list_ascii_of_string s).

(** [openvpn['ifname']] substituted into a path or a command line; the
    interface name is always a string (see [get_config]). *)
Definition interface_name (openvpn : dict) : M string :=
  v <- getitem "ifname" openvpn ;;
  match v with
  | VStr s => ret s
  | _ => throw OutOfModel
  end.

(** * The script *)

Section Script.

Variable E : externals.

Definition is_ipv6 (v : pyval) : bool := ext_is_ipv6 E v.

(** [re.search('^' + client + ' ', text) is not None]: for a client name
    of literal characters and dots the pattern is matched here, character
    by character from the start of the text; any other pattern is left
    to the regular-expression engine. *)
Definition re_search_client (client text : string) : M bool :=
  if regex_plain client then ret (match_plain (client +:+ " ") text)
  else orelse ReError (ext_re_search E ("^" +:+ client +:+ " ") text).

(** The bytes [t] of a file are text in the encoding of the locale; the
    empty file is text in every encoding. *)
Definition decodes (t : string) : bool :=
  match t with
  | EmptyString => true
  | _ => ext_decodable E t
  end.

(** A regular file opened in text mode and read to its end: its text.
    A Python string is represented by its bytes in the encoding of the
    locale, so reading is a check that the bytes are text, and writing
    stores the string as it is. *)
Definition read_text (p : string) : M string :=
  w <- get_world ;;
  match fs w !! p with
  | Some (File t _ _) => if decodes t then ret t else throw UnicodeDecodeError
  | _ => throw OSError
  end.

(** Report of an external verifier. *)
Definition external_check (r : option string) : M unit :=
  match r with
  | Some msg => reject (ErrExternal msg)
  | None => ret tt
  end.

Definition verify_vrf (openvpn : dict) : M unit :=
  external_check (ext_verify_vrf E openvpn).

Definition verify_bridge_delete (openvpn : dict) : M unit :=
  external_check (ext_verify_bridge_delete E openvpn).

(** ** [is_ec_private_key] (lines 94-105) *)
Definition is_ec_private_key (pki : pyval) (cert_name : pyval) : M bool :=
  if negb (truthy pki) then ret false else
  c <- has_key "certificate" pki ;;
  if negb c then ret false else
  certs <- subscript pki (VStr "certificate") ;;
  c <- contains cert_name certs ;;
  if negb c then ret false else
  pki_cert <- subscript certs cert_name ;;
  c <- has_key "private" pki_cert ;;
  if negb c then ret false else
  priv <- subscript pki_cert (VStr "private") ;;
  c <- has_key "key" priv ;;
  if negb c then ret false else
  key <- subscript priv (VStr "key") ;;
  ret (ext_is_ec_key E key).

(** ** [verify_pki] (lines 107-176) *)

(** Lines 130-176: the checks made when [tls] is set. *)
Definition verify_pki_tls (pki interface mode tls : pyval) : M unit :=
  c <- has_key "ca_certificate" tls ;;
  when (negb c) (reject (ErrMissingCa interface)) ;;
  ca_name <- subscript tls (VStr "ca_certificate") ;;
  cas <- subscript pki (VStr "ca") ;;
  c <- contains ca_name cas ;;
  when (negb c) (reject (ErrInvalidCa interface)) ;;
  client_with_auth_key <-
    (if is_str mode "client" then has_key "auth_key" tls else ret false) ;;
  when (negb client_with_auth_key)
    (c <- has_key "certificate" tls ;;
     when (negb c) (reject (ErrMissingCertificate interface))) ;;
  c <- has_key "certificate" tls ;;
  when c
    (cert <- subscript tls (VStr "certificate") ;;
     certs <- subscript pki (VStr "certificate") ;;
     c <- contains cert certs ;;
     when (negb c) (reject (ErrInvalidCertificate interface)) ;;
     when (truthy (match cert with
                   | VStr name => dict_search_val pki ["certificate"; name; "private"; "password_protected"]
                   | _ => VNone
                   end))
       (reject (ErrEncryptedKey interface)) ;;
     need_dh <-
       (if is_str mode "server" then
          c <- has_key "dh_params" tls ;;
          if negb c then (ec <- is_ec_private_key pki cert ;; ret (negb ec))
          else ret false
        else ret false) ;;
     when need_dh (reject ErrDhRequired)) ;;
  c <- has_key "dh_params" tls ;;
  when c
    (c <- has_key "dh" pki ;;
     when (negb c) (reject ErrNoDhInPki) ;;
     dh_name <- subscript tls (VStr "dh_params") ;;
     dhs <- subscript pki (VStr "dh") ;;
     c <- contains dh_name dhs ;;
     when (negb c) (reject (ErrInvalidDh interface)) ;;
     pki_dh <- subscript dhs dh_name ;;
     params <- subscript pki_dh (VStr "parameters") ;;
     dh_bits <- orelse AttributeError (ext_dh_bits E params) ;;
     when (dh_bits <? 2048) (reject ErrDhTooSmall)) ;;
  has_auth <- has_key "auth_key" tls ;;
  auth_or_crypt <- (if has_auth then ret true else has_key "crypt_key" tls) ;;
  when auth_or_crypt
    (when (negb (truthy (dict_search_val pki ["openvpn"; "shared_secret"])))
       (reject ErrNoSharedSecrets)) ;;
  c <- has_key "auth_key" tls ;;
  when c
    (k <- subscript tls (VStr "auth_key") ;;
     o <- subscript pki (VStr "openvpn") ;;
     secrets <- subscript o (VStr "shared_secret") ;;
     c <- contains k secrets ;;
     when (negb c) (reject (ErrInvalidAuthKey interface))) ;;
  c <- has_key "crypt_key" tls ;;
  when c
    (k <- subscript tls (VStr "crypt_key") ;;
     o <- subscript pki (VStr "openvpn") ;;
     secrets <- subscript o (VStr "shared_secret") ;;
     c <- contains k secrets ;;
     when (negb c) (reject (ErrInvalidCryptKey interface))).

Definition verify_pki (openvpn : dict) : M unit :=
  pki <- getitem "pki" openvpn ;;
  interface <- getitem "ifname" openvpn ;;
  mode <- getitem "mode" openvpn ;;
  let shared_secret_key := dict_search_args openvpn ["shared_secret_key"] in
  let tls := dict_search_args openvpn ["tls"] in
  when (negb (xorb (truthy shared_secret_key) (truthy tls)))
    (reject ErrSecretXorTls) ;;
  when ((is_str mode "server" || is_str mode "client") && negb (truthy tls))
    (reject ErrTlsRequired) ;;
  when (negb (truthy pki)) (reject ErrPkiNotConfigured) ;;
  when (truthy shared_secret_key)
    (when (negb (truthy (dict_search_val pki ["openvpn"; "shared_secret"])))
       (reject ErrNoSharedSecrets) ;;
     o <- subscript pki (VStr "openvpn") ;;
     secrets <- subscript o (VStr "shared_secret") ;;
     c <- contains shared_secret_key secrets ;;
     when (negb c) (reject (ErrInvalidSharedSecret interface))) ;;
  when (truthy tls) (verify_pki_tls pki interface mode tls).

(** ** [verify] (lines 178-480) *)

(** [len([x for x in l if p(x)]) > 1] *)
Definition more_than_one (p : pyval -> bool) (l : list pyval) : bool :=
  (1 <? Z.of_nat (length (List.filter p l))).

(** Lines 189-203: client mode. *)
Definition verify_client (openvpn : dict) : M unit :=
  when (key_in "local_port" openvpn) (reject ErrClientLocalPort) ;;
  when (key_in "local_host" openvpn) (reject ErrClientLocalHost) ;;
  when (negb (key_in "remote_host" openvpn)) (reject ErrClientRemoteHost) ;;
  protocol <- getitem "protocol" openvpn ;;
  when (is_str protocol "tcp-passive") (reject ErrClientTcpPassive) ;;
  when (truthy (dict_search ["tls"; "dh_params"] openvpn)) (reject ErrClientDhParams).

(** Lines 222-253: the checks made when [remote_address] is set. *)
Definition verify_remote_address (openvpn : dict) (local_addrs : list pyval) : M unit :=
  remote_address <- getitem "remote_address" openvpn ;;
  remote_addrs <- py_iter remote_address ;;
  when (more_than_one is_ipv4 remote_addrs) (reject ErrS2sOneV4Remote) ;;
  when (more_than_one is_ipv6 remote_addrs) (reject ErrS2sOneV6Remote) ;;
  when (negb (key_in "local_address" openvpn)) (reject ErrS2sRemoteNeedsLocal) ;;
  let v4loAddr := VList (List.filter is_ipv4 local_addrs) in
  let v4remAddr := VList (List.filter is_ipv4 remote_addrs) in
  (if truthy v4loAddr && negb (truthy v4remAddr) then reject ErrS2sV4LocalNeedsRemote
   else if truthy v4remAddr && negb (truthy v4loAddr) then reject ErrS2sV4RemoteNeedsLocal
   else ret tt) ;;
  let v6remAddr := VList (List.filter is_ipv6 remote_addrs) in
  let v6loAddr := VList (List.filter is_ipv6 local_addrs) in
  (if truthy v6loAddr && negb (truthy v6remAddr) then reject ErrS2sV6LocalNeedsRemote
   else if truthy v6remAddr && negb (truthy v6loAddr) then reject ErrS2sV6RemoteNeedsLocal
   else ret tt) ;;
  when (py_eqb v4loAddr v4remAddr || py_eqb v6remAddr v4remAddr)
    (reject ErrS2sSameAddress) ;;
  c <- contains (dict_search ["local_host"] openvpn) (dict_search ["local_address"] openvpn) ;;
  when c (reject ErrS2sLocalHostSame) ;;
  c <- contains (dict_search ["remote_host"] openvpn) (dict_search ["remote_address"] openvpn) ;;
  when c (reject ErrS2sRemoteHostSame).

(** Lines 255-264: a tap device needs a subnet mask on its IPv4 local
    address.  [v4addr] is the first IPv4 key, or [None]. *)
Definition verify_tap_subnet_mask (openvpn : dict) : M unit :=
  local_address <- getitem "local_address" openvpn ;;
  local_addrs <- py_iter local_address ;;
  let v4addr := match List.filter is_ipv4 local_addrs with
                | a :: _ => a
                | [] => VNone
                end in
  local_address <- getitem "local_address" openvpn ;;
  c <- contains v4addr local_address ;;
  when c
    (entry <- subscript local_address v4addr ;;
     c <- has_key "subnet_mask" entry ;;
     when (negb c) (reject ErrS2sSubnetMask)).

(** Lines 208-267: site-to-site mode.  [openvpn['local_address']] is read
    without a guard on line 212. *)
Definition verify_site_to_site (openvpn : dict) : M unit :=
  when (negb (key_in "local_address" openvpn) && negb (key_in "is_bridge_member" openvpn))
    (reject ErrS2sLocalAddress) ;;
  local_address <- getitem "local_address" openvpn ;;
  local_addrs <- py_iter local_address ;;
  when (more_than_one is_ipv4 local_addrs) (reject ErrS2sOneV4Local) ;;
  when (more_than_one is_ipv6 local_addrs) (reject ErrS2sOneV6Local) ;;
  device_type <- getitem "device_type" openvpn ;;
  when (is_str device_type "tun")
    (when (negb (key_in "remote_address" openvpn)) (reject ErrS2sRemoteAddress)) ;;
  when (key_in "remote_address" openvpn) (verify_remote_address openvpn local_addrs) ;;
  device_type <- getitem "device_type" openvpn ;;
  when (is_str device_type "tap") (verify_tap_subnet_mask openvpn) ;;
  when (truthy (dict_search ["encryption"; "ncp_ciphers"] openvpn)) (reject ErrS2sNcpCiphers).

(** Lines 269-273: any other mode. *)
Definition verify_no_addresses (openvpn : dict) : M unit :=
  when (key_in "local_address" openvpn || key_in "remote_address" openvpn)
    (reject ErrAddressNotAllowed).

(** Lines 309-311: every entry of the top-level [client] list must have its
    first [ip] inside the subnet. *)
Definition verify_clients_in_subnet (openvpn : dict) (subnet : ipv4net) : M unit :=
  clients <- py_iter_or_empty (dict_search ["client"] openvpn) ;;
  for_each clients (fun client =>
    ip <- subscript client (VStr "ip") ;;
    when (truthy ip)
      (first <- index0 ip ;;
       addr <- orelse ValueError (IPv4Address first) ;;
       when (negb (ipv4_in addr subnet))
         (name <- subscript client (VStr "name") ;;
          reject (ErrClientNotInSubnet name first subnet)))).

(** Lines 288-315: the server subnets. *)
Definition verify_server_subnet (openvpn : dict) : M unit :=
  let tmp := dict_search ["server"; "subnet"] openvpn in
  if truthy tmp then
    subnets <- py_iter tmp ;;
    let v4_subnets := Z.of_nat (length (List.filter is_ipv4 subnets)) in
    let v6_subnets := Z.of_nat (length (List.filter is_ipv6 subnets)) in
    when (1 <? v4_subnets) (reject ErrServerV4Subnets) ;;
    when (1 <? v6_subnets) (reject ErrServerV6Subnets) ;;
    when ((0 <? v6_subnets) && (v4_subnets =? 0)) (reject ErrServerV6NeedsV4) ;;
    for_each subnets (fun subnet =>
      when (is_ipv4 subnet)
        (subnet <- orelse ValueError (IPv4Network subnet) ;;
         device_type <- getitem "device_type" openvpn ;;
         (if is_str device_type "tun" && (29 <? net_prefixlen subnet)
          then reject ErrServerTunSubnet
          else
            device_type <- getitem "device_type" openvpn ;;
            if is_str device_type "tap" && (30 <? net_prefixlen subnet)
            then reject ErrServerTapSubnet
            else ret tt) ;;
         verify_clients_in_subnet openvpn subnet))
  else
    when (negb (key_in "is_bridge_member" openvpn)) (reject ErrServerSubnetRequired).

(** [v.get(k) and len(v[k]) > 1] on a client record. *)
Definition more_than_one_ip (k : string) (client_v : dict) : M bool :=
  if truthy (py_get k client_v) then
    l <- getitem k client_v ;;
    n <- py_len l ;;
    ret (1 <? n)
  else ret false.

(** Lines 317-320: at most one IPv4 and one IPv6 address per client of
    [server.client]. *)
Definition verify_server_clients (openvpn : dict) : M unit :=
  match dict_search ["server"; "client"] openvpn with
  | VNone | VBool _ => ret tt
  | VDict clients =>
      for_each clients (fun kv =>
        let client_k := fst kv in
        match snd kv with
        | VDict client_v =>
            too_many <- more_than_one_ip "ip" client_v ;;
            too_many <- (if too_many then ret true
                         else more_than_one_ip "ipv6_ip" client_v) ;;
            when too_many (reject (ErrServerClientIps client_k))
        | _ => throw AttributeError
        end)
  | VStr _ | VList _ => throw AttributeError
  end.

(** Lines 336-340 and 362-366: warn about every entry of the top-level
    [client] list whose address lies in one of the pool blocks. *)
Definition warn_clients_in_pool (openvpn : dict) (key : string) (bits : Z)
    (parse : pyval -> option Z) (nets : list ipv4net) : M unit :=
  clients <- py_iter_or_empty (dict_search ["client"] openvpn) ;;
  for_each clients (fun client =>
    ip <- subscript client (VStr key) ;;
    when (truthy ip)
      (for_each nets (fun net =>
         first <- index0 ip ;;
         addr <- orelse ValueError (parse first) ;;
         when (addr_in_block bits addr net)
           (name <- subscript client (VStr "name") ;;
            print (WarnClientInPool name first))))).

(** Lines 322-340: the IPv4 client pool.  Returns [v4PoolSize] when the
    pool block assigned it. *)
Definition verify_client_ip_pool (openvpn : dict) : M (option Z) :=
  if truthy (dict_search ["server"; "client_ip_pool"] openvpn) then
    let start := dict_search ["server"; "client_ip_pool"; "start"] openvpn in
    let stop := dict_search ["server"; "client_ip_pool"; "stop"] openvpn in
    if negb (truthy start && truthy stop) then reject ErrPoolStartStop
    else
      v4PoolStart <- orelse ValueError (IPv4Address start) ;;
      v4PoolStop <- orelse ValueError (IPv4Address stop) ;;
      when (v4PoolStop <? v4PoolStart) (reject (ErrPoolOrder v4PoolStart v4PoolStop)) ;;
      let v4PoolSize := v4PoolStop - v4PoolStart in
      when (65536 <=? v4PoolSize)
        (reject (ErrPoolTooLarge v4PoolStart v4PoolStop v4PoolSize)) ;;
      let v4PoolNets := summarize_address_range 32 v4PoolStart v4PoolStop in
      warn_clients_in_pool openvpn "ip" 32 IPv4Address v4PoolNets ;;
      ret (Some v4PoolSize)
  else ret None.

(** [IPv6Network((start, prefixlen), strict=False)[-1]]: the last address
    of the block of [start]. *)
Definition ipv6_network_last (start : Z) (prefixlen : pyval) : M Z :=
  p <- match prefixlen with
       | VStr s => match parse_decimal s with
                   | Some p => if p <=? 128 then ret p else throw ValueError
                   | None => throw ValueError
                   end
       | VBool b => ret (if b then 1 else 0)
       | VNone => throw AttributeError
       | VList _ | VDict _ => throw TypeError
       end ;;
  ret (Z.lor start (Z.shiftr (Z.ones 128) p)).

(** Lines 342-366: the IPv6 client pool, read from the top-level keys
    [client_ipv6_pool] and [server_ipv6_pool_prefixlen]. *)
Definition verify_ipv6_pool (openvpn : dict) (v4PoolSize : option Z) : M unit :=
  subnets <- py_iter_or_empty (dict_search ["server"; "subnet"] openvpn) ;;
  for_each subnets (fun subnet =>
    when (is_ipv6 subnet)
      (let tmp := dict_search ["client_ipv6_pool"; "base"] openvpn in
       when (truthy tmp)
         (when (negb (truthy (dict_search ["server"; "client_ip_pool"] openvpn)))
            (reject ErrV6PoolNeedsV4Pool) ;;
          prefix <- match tmp with
                    | VStr s =>
                        part <- orelse IndexError (split_on "/" s !! 1%nat) ;;
                        orelse ValueError (ext_int E (VStr part))
                    | _ => throw AttributeError
                    end ;;
          when (112 <=? prefix) (reject ErrV6PoolPrefix) ;;
          v6PoolStart <- orelse ValueError (ext_ipv6_address E tmp) ;;
          prefixlen <- getitem "server_ipv6_pool_prefixlen" openvpn ;;
          v6PoolStop <- ipv6_network_last v6PoolStart prefixlen ;;
          n <- orelse ValueError (ext_int E prefixlen) ;;
          let v6PoolSize := if 96 <? n then v6PoolStop - v6PoolStart else 65536 in
          v4PoolSize <- orelse UnboundLocalError v4PoolSize ;;
          when (v6PoolSize <? v4PoolSize) (reject (ErrV6PoolSmaller v6PoolSize v4PoolSize)) ;;
          let v6PoolNets := summarize_address_range 128 v6PoolStart v6PoolStop in
          warn_clients_in_pool openvpn "ipv6_ip" 128 (ext_ipv6_address E) v6PoolNets))).

(** ** The TOTP user file (lines 368-395) *)

(** [''.join(random.choice(secret_chars) for _ in range(n))] *)
Fixpoint random_secret (n : nat) : M string :=
  match n with
  | O => ret EmptyString
  | S n' =>
      i <- random_index (length secret_chars) ;;
      rest <- random_secret n' ;;
      ret (String (nth i secret_chars "A"%char) rest)
  end.

Definition totp_line (client totp_secret : string) : string :=
  client +:+ " otp totp:sha1:base32:" +:+ totp_secret +:+ "::xxx *" +:+ newline.

(** Lines 379-382: the inner loop over the lines read from the file.  The
    pattern is matched against the global [user], not against the line.
    Yields what was written to the scratch file and the final [exists]. *)
Fixpoint totp_existing (client : pyval) (ovpn_users : list string) : M (list string * bool) :=
  match ovpn_users with
  | [] => ret ([], false)
  | ovpn_user :: rest =>
      found <- match client with
               | VStr c => re_search_client c user
               | _ => throw TypeError
               end ;;
      r <- totp_existing client rest ;;
      if found then ret (ovpn_user :: fst r, true) else ret r
  end.

(** Lines 377-387: one client of the outer loop. *)
Definition totp_client (client : pyval) (ovpn_users : list string) : M (list string) :=
  r <- totp_existing client ovpn_users ;;
  if snd r then ret (fst r)
  else
    totp_secret <- random_secret 16 ;;
    match client with
    | VStr c => ret (fst r ++ [totp_line c totp_secret])%list
    | _ => throw OutOfModel
    end.

Fixpoint totp_clients (clients : list pyval) (ovpn_users : list string) : M (list string) :=
  match clients with
  | [] => ret []
  | client :: rest =>
      written <- totp_client client ovpn_users ;;
      more <- totp_clients rest ovpn_users ;;
      ret (written ++ more)%list
  end.

(** Lines 368-395: add 2fa users to the file the 2fa plugin uses. *)
Definition update_otp_file (openvpn : dict) : M unit :=
  when (truthy (dict_search ["server"; "2fa"; "totp"] openvpn))
    (ifname <- interface_name openvpn ;;
     let path := otp_file ifname in
     w <- get_world ;;
     when (negb (is_file path (fs w)))
       (mkdirs ["/config"; "/config/auth"; otp_path] ;;
        touch path) ;;
     text <- read_text path ;;
     let ovpn_users := readlines text in
     clients <- py_iter_or_empty (dict_search ["server"; "client"] openvpn) ;;
     written <- totp_clients clients ovpn_users ;;
     let tmp_users := readlines (String.concat EmptyString written) in
     write_text path (String.concat EmptyString tmp_users) ;;
     chown path user group).

(** Lines 278-395: server mode. *)
Definition verify_server (openvpn : dict) : M unit :=
  protocol <- getitem "protocol" openvpn ;;
  when (is_str protocol "tcp-active") (reject ErrServerTcpActive) ;;
  when (key_in "remote_port" openvpn) (reject ErrServerRemotePort) ;;
  when (key_in "remote_host" openvpn) (reject ErrServerRemoteHost) ;;
  verify_server_subnet openvpn ;;
  verify_server_clients openvpn ;;
  v4PoolSize <- verify_client_ip_pool openvpn ;;
  verify_ipv6_pool openvpn v4PoolSize ;;
  update_otp_file openvpn.

(** Lines 397-403: client and site-to-site modes. *)
Definition verify_not_server (openvpn : dict) : M unit :=
  when (truthy (dict_search ["server"; "reject_unconfigured_clients"] openvpn))
    (reject ErrRejectUnconfigured) ;;
  when (key_in "replace_default_route" openvpn && negb (key_in "remote_host" openvpn))
    (reject ErrReplaceDefaultRoute).

(** Lines 410-429: local host, tcp-active, GCM with a shared secret. *)
Definition verify_common (openvpn : dict) : M unit :=
  when (key_in "local_host" openvpn)
    (local_host <- getitem "local_host" openvpn ;;
     when (negb (ext_is_addr_assigned E local_host))
       (reject (ErrLocalHostNotAssigned local_host))) ;;
  protocol <- getitem "protocol" openvpn ;;
  when (is_str protocol "tcp-active")
    (when (key_in "local_port" openvpn) (reject ErrTcpActiveLocalPort) ;;
     when (negb (key_in "remote_host" openvpn)) (reject ErrTcpActiveRemoteHost)) ;;
  when (key_in "shared_secret_key" openvpn)
    (let cipher := dict_search ["encryption"; "cipher"] openvpn in
     when (is_str cipher "aes128gcm" || is_str cipher "aes192gcm" || is_str cipher "aes256gcm")
       (reject ErrGcmSharedSecret)).

(** [set(v)]: the elements must be hashable. *)
Definition py_set (v : pyval) : M (list pyval) :=
  l <- py_iter v ;;
  if forallb hashable l then ret l else throw TypeError.

(** Lines 435-453: the checks on a declared [tls role]. *)
Definition verify_tls_role (openvpn : dict) (mode : pyval) : M unit :=
  let tmp := dict_search ["tls"; "role"] openvpn in
  when (truthy tmp)
    (when (is_str mode "client" || is_str mode "server")
       (when (negb (truthy (dict_search ["tls"; "auth_key"] openvpn)))
          (reject ErrTlsRoleClientServer)) ;;
     if is_str tmp "active" then
       protocol <- getitem "protocol" openvpn ;;
       when (is_str protocol "tcp-passive") (reject ErrRoleActiveTcpPassive) ;;
       when (truthy (dict_search ["tls"; "dh_params"] openvpn)) (reject ErrRoleActiveDh)
     else if is_str tmp "passive" then
       protocol <- getitem "protocol" openvpn ;;
       when (is_str protocol "tcp-active") (reject ErrRolePassiveTcpActive) ;;
       when (negb (truthy (dict_search ["tls"; "dh_params"] openvpn))) (reject ErrRolePassiveDh)
     else ret tt).

(** Lines 431-458: the [tls] block. *)
Definition verify_tls (openvpn : dict) (mode : pyval) : M unit :=
  when (key_in "tls" openvpn)
    (tls <- getitem "tls" openvpn ;;
     keys <- py_set tls ;;
     when (existsb (py_eqb (VStr "auth_key")) keys && existsb (py_eqb (VStr "crypt_key")) keys)
       (reject ErrTlsAuthCrypt) ;;
     verify_tls_role openvpn mode ;;
     has_cert <- has_key "certificate" tls ;;
     ec <- (if has_cert then
              pki <- getitem "pki" openvpn ;;
              cert <- subscript tls (VStr "certificate") ;;
              is_ec_private_key pki cert
            else ret false) ;;
     when ec
       (c <- has_key "dh_params" tls ;;
        when c (print WarnDhWithEc))).

(** Lines 470-476: user name and password come together. *)
Definition verify_auth (openvpn : dict) : M unit :=
  when (truthy (dict_search ["authentication"; "username"] openvpn) &&
        negb (truthy (dict_search ["authentication"; "password"] openvpn)))
    (reject ErrPasswordMissing) ;;
  when (truthy (dict_search ["authentication"; "password"] openvpn) &&
        negb (truthy (dict_search ["authentication"; "username"] openvpn)))
    (reject ErrUsernameMissing).

(** Lines 189-273: the checks of the mode the interface is in. *)
Definition verify_mode (openvpn : dict) (mode : pyval) : M unit :=
  if is_str mode "client" then verify_client openvpn
  else if is_str mode "site-to-site" then verify_site_to_site openvpn
  else verify_no_addresses openvpn.

(** Lines 405-478: the checks that do not depend on the mode. *)
Definition verify_rest (openvpn : dict) (mode : pyval) : M unit :=
  verify_common openvpn ;;
  verify_tls openvpn mode ;;
  when (is_str (dict_search ["encryption"; "cipher"] openvpn) "none")
    (print WarnEncryptionNone ;; print WarnPlainText) ;;
  verify_pki openvpn ;;
  verify_auth openvpn ;;
  verify_vrf openvpn.

Definition verify (openvpn : dict) : M unit :=
  if key_in "deleted" openvpn then verify_bridge_delete openvpn
  else
    when (negb (key_in "mode" openvpn)) (reject ErrModeMissing) ;;
    mode <- getitem "mode" openvpn ;;
    verify_mode openvpn mode ;;
    (if is_str mode "server" then verify_server openvpn
     else verify_not_server openvpn) ;;
    verify_rest openvpn mode.

(** ** [generate_pki_files] (lines 482-583)

    The function writes into [openvpn['tls']], which is the record the
    caller holds: the updated record is returned next to the list of
    files.  [tls] on line 490 is the same object as [openvpn['tls']], so
    it is read from the current record at every use. *)

Definition pki_path (ifname suffix : string) : string :=
  path_join cfg_dir [ifname +:+ suffix].

(** [with open(path, 'w') as f: f.write(wrap(material))]: the file is
    truncated before the material is looked up. *)
Definition write_wrapped (path kind : string) (material : M pyval) : M unit :=
  write_text path EmptyString ;;
  v <- material ;;
  write_text path (ext_wrap E kind v).

(** [openvpn['tls'][flag] = True] *)
Definition set_tls_flag (flag : string) (openvpn : dict) : M dict :=
  tls <- getitem "tls" openvpn ;;
  match tls with
  | VDict t => ret (dict_set "tls" (VDict (dict_set flag (VBool true) t)) openvpn)
  | _ => throw TypeError
  end.

Abbreviation gen_state := (dict * list string)%type.

(** Lines 494-501 *)
Definition generate_shared_secret (ifname : string) (pki : pyval) (st : gen_state) : M gen_state :=
  let shared_secret_key := dict_search_args (fst st) ["shared_secret_key"] in
  if truthy shared_secret_key then
    o <- subscript pki (VStr "openvpn") ;;
    secrets <- subscript o (VStr "shared_secret") ;;
    pki_key <- subscript secrets shared_secret_key ;;
    let key_path := pki_path ifname "_shared.key" in
    write_wrapped key_path "openvpn_key" (subscript pki_key (VStr "key")) ;;
    ret (fst st, snd st ++ [key_path])%list
  else ret st.

(** Lines 504-524 *)
Definition generate_ca (ifname : string) (pki : pyval) (st : gen_state) : M gen_state :=
  let tls := dict_search_args (fst st) ["tls"] in
  c <- has_key "ca_certificate" tls ;;
  if c then
    cert_name <- subscript tls (VStr "ca_certificate") ;;
    cas <- subscript pki (VStr "ca") ;;
    pki_ca <- subscript cas cert_name ;;
    c <- has_key "certificate" pki_ca ;;
    files <- (if c then
                let cert_path := pki_path ifname "_ca.pem" in
                write_wrapped cert_path "certificate" (subscript pki_ca (VStr "certificate")) ;;
                ret (snd st ++ [cert_path])%list
              else ret (snd st)) ;;
    c <- has_key "crl" pki_ca ;;
    if c then
      crls <- subscript pki_ca (VStr "crl") ;;
      crls <- py_iter crls ;;
      let crl_path := pki_path ifname "_crl.pem" in
      for_each crls (fun crl => write_wrapped crl_path "crl" (ret crl)) ;;
      openvpn <- set_tls_flag "crl" (fst st) ;;
      ret (openvpn, files ++ map (fun _ => crl_path) crls)%list
    else ret (fst st, files)
  else ret st.

(** Lines 526-545 *)
Definition generate_certificate (ifname : string) (pki : pyval) (st : gen_state) : M gen_state :=
  let tls := dict_search_args (fst st) ["tls"] in
  c <- has_key "certificate" tls ;;
  if c then
    cert_name <- subscript tls (VStr "certificate") ;;
    certs <- subscript pki (VStr "certificate") ;;
    pki_cert <- subscript certs cert_name ;;
    c <- has_key "certificate" pki_cert ;;
    files <- (if c then
                let cert_path := pki_path ifname "_cert.pem" in
                write_wrapped cert_path "certificate" (subscript pki_cert (VStr "certificate")) ;;
                ret (snd st ++ [cert_path])%list
              else ret (snd st)) ;;
    c <- has_key "private" pki_cert ;;
    has_private_key <- (if c then
                          priv <- subscript pki_cert (VStr "private") ;;
                          has_key "key" priv
                        else ret false) ;;
    if has_private_key then
      let key_path := pki_path ifname "_cert.key" in
      write_wrapped key_path "private_key"
        (priv <- subscript pki_cert (VStr "private") ;; subscript priv (VStr "key")) ;;
      openvpn <- set_tls_flag "private_key" (fst st) ;;
      ret (openvpn, files ++ [key_path])%list
    else ret (fst st, files)
  else ret st.

(** Lines 547-557 *)
Definition generate_dh (ifname : string) (pki : pyval) (st : gen_state) : M gen_state :=
  let tls := dict_search_args (fst st) ["tls"] in
  c <- has_key "dh_params" tls ;;
  if c then
    dh_name <- subscript tls (VStr "dh_params") ;;
    dhs <- subscript pki (VStr "dh") ;;
    pki_dh <- subscript dhs dh_name ;;
    c <- has_key "parameters" pki_dh ;;
    if c then
      let dh_path := pki_path ifname "_dh.pem" in
      write_wrapped dh_path "dh_parameters" (subscript pki_dh (VStr "parameters")) ;;
      ret (fst st, snd st ++ [dh_path])%list
    else ret st
  else ret st.

(** Lines 559-569 and 571-581: the auth key and the crypt key. *)
Definition generate_tls_key (ifname : string) (pki : pyval) (key suffix : string)
    (st : gen_state) : M gen_state :=
  let tls := dict_search_args (fst st) ["tls"] in
  c <- has_key key tls ;;
  if c then
    key_name <- subscript tls (VStr key) ;;
    o <- subscript pki (VStr "openvpn") ;;
    secrets <- subscript o (VStr "shared_secret") ;;
    pki_key <- subscript secrets key_name ;;
    c <- has_key "key" pki_key ;;
    if c then
      let key_path := pki_path ifname suffix in
      write_wrapped key_path "openvpn_key" (subscript pki_key (VStr "key")) ;;
      ret (fst st, snd st ++ [key_path])%list
    else ret st
  else ret st.

(** Returns the list of files written ([None] when there is no PKI) and
    the record as the function leaves it. *)
Definition generate_pki_files (openvpn : dict) : M (option (list string) * dict) :=
  pki <- getitem "pki" openvpn ;;
  if negb (truthy pki) then ret (None, openvpn)
  else
    ifname <- interface_name openvpn ;;
    st <- generate_shared_secret ifname pki (openvpn, []) ;;
    st <- (if truthy (dict_search_args (fst st) ["tls"]) then
             st <- generate_ca ifname pki st ;;
             st <- generate_certificate ifname pki st ;;
             st <- generate_dh ifname pki st ;;
             st <- generate_tls_key ifname pki "auth_key" "_auth.key" st ;;
             generate_tls_key ifname pki "crypt_key" "_crypt.key" st
           else ret st) ;;
    ret (Some (snd st), fst st).

(** ** [generate] (lines 586-637) *)

(** [p] is [dir] or lies below it. *)
Definition under (dir p : string) : bool :=
  String.eqb p dir || String.prefix (dir +:+ "/") p.

(** [rmtree(dir, ignore_errors=True)] *)
Definition rmtree (dir : string) : M unit :=
  set_fs (filter (fun kv => under dir (fst kv) = false)).

(** A value used as a path. *)
Definition as_path (v : pyval) : M string :=
  match v with
  | VStr s => ret s
  | _ => throw TypeError
  end.

(** Modelled from the spec: [vyos.template.render] is not among the
    sources; it serializes a record to text given a named layout, passes
    the text through [formater], writes it to [destination] and sets the
    permission and the owner. *)
Definition render (destination template : string) (content : pyval)
    (formater : string -> string) (permission : option Z) : M unit :=
  write_text destination (formater (ext_render E template content)) ;;
  match permission with Some m => chmod destination m | None => ret tt end ;;
  chown destination user group.

(** Lines 619-626: one fragment per client; each client record receives
    the key [server_subnet].  Returns the client mapping as the loop
    leaves it. *)
Fixpoint generate_clients (ccd_dir : string) (server_subnet : pyval) (clients : dict) : M dict :=
  match clients with
  | [] => ret []
  | (client, client_config) :: rest =>
      match client_config with
      | VDict cc =>
          let client_file := path_join ccd_dir [client] in
          let cc' := dict_set "server_subnet" server_subnet cc in
          render client_file "openvpn/client.conf.tmpl" (VDict cc') (fun t => t) None ;;
          rest' <- generate_clients ccd_dir server_subnet rest ;;
          ret ((client, VDict cc') :: rest')
      | _ => throw TypeError
      end
  end.

(** [openvpn['server']['client']] after the loop. *)
Definition set_server_client (clients : dict) (openvpn : dict) : dict :=
  match dict_get "server" openvpn with
  | Some (VDict server) =>
      dict_set "server" (VDict (dict_set "client" (VDict clients) server)) openvpn
  | _ => openvpn
  end.

(** Returns the record as the generator leaves it. *)
Definition generate (openvpn : dict) : M dict :=
  interface <- interface_name openvpn ;;
  let directory := dirname (cfg_file interface) in
  let ccd_dir := path_join directory ["ccd"; interface] in
  w <- get_world ;;
  when (is_dir ccd_dir (fs w)) (rmtree ccd_dir) ;;
  if key_in "deleted" openvpn || key_in "disable" openvpn then ret openvpn
  else
    w <- get_world ;;
    when (negb (path_exists ccd_dir (fs w)))
      (mkdirs (ancestors ccd_dir) ;;
       chown ccd_dir user group) ;;
    r <- generate_pki_files openvpn ;;
    let fix_permissions := fst r in
    let openvpn := snd r in
    (if key_in "authentication" openvpn then
       auth_file <- getitem "auth_user_pass_file" openvpn ;;
       auth_file <- as_path auth_file ;;
       render auth_file "openvpn/auth.pw.tmpl" (VDict openvpn) (fun t => t) (Some 384)
     else
       auth_file <- getitem "auth_user_pass_file" openvpn ;;
       auth_file <- as_path auth_file ;;
       w <- get_world ;;
       when (is_file auth_file (fs w)) (unlink auth_file)) ;;
    let server_client := dict_search_args openvpn ["server"; "client"] in
    openvpn <- (if truthy server_client then
                  match server_client with
                  | VDict clients =>
                      clients' <- generate_clients ccd_dir
                                    (dict_search ["server"; "subnet"] openvpn) clients ;;
                      ret (set_server_client clients' openvpn)
                  | _ => throw AttributeError
                  end
                else ret openvpn) ;;
    render (cfg_file interface) "openvpn/server.conf.tmpl" (VDict openvpn) unquote None ;;
    match fix_permissions with
    | Some files => for_each files chmod_600
    | None => throw TypeError
    end ;;
    ret openvpn.

(** ** [apply] (lines 639-661)

    [VTunIf] of [vyos.ifconfig] is the network-interface object of the
    specification: creating it brings the kernel interface into being,
    [update] pushes the record into it, [remove] tears it down. *)

(** The paths [glob('/run/openvpn/<ifname>.*')] matches when the
    interface name is plain: the entries of /run/openvpn whose name
    starts with the interface name and a dot. *)
Definition runtime_file_of (ifname p : string) : bool :=
  let stem := "/run/openvpn/" +:+ ifname +:+ "." in
  String.prefix stem p &&
  negb (existsb (Ascii.eqb "/"%char)
          (list_ascii_of_string
             (String.substring (String.length stem)
                               (String.length p - String.length stem) p))).

Definition glob_runtime_files (ifname : string) (f : gmap string node) : list string :=
  List.filter (runtime_file_of ifname) (map fst (map_to_list f)).

Definition apply (openvpn : dict) : M unit :=
  interface <- interface_name openvpn ;;
  call ("systemctl stop openvpn@" +:+ interface +:+ ".service") ;;
  if key_in "deleted" openvpn || key_in "disable" openvpn then
    when (negb (plain_name interface)) (throw OutOfModel) ;;
    w <- get_world ;;
    for_each (glob_runtime_files interface (fs w)) (fun cleanup_file =>
      w <- get_world ;;
      when (is_file cleanup_file (fs w)) (unlink cleanup_file)) ;;
    w <- get_world ;;
    when (bool_decide (is_Some (netifs w !! interface)))
      (set_netifs (delete interface))
  else
    call ("systemctl start openvpn@" +:+ interface +:+ ".service") ;;
    set_netifs (insert interface (Some openvpn)).

(** ** [__main__] (lines 664-672)

    [c] is what [get_config()] returned.  A [ConfigError] is printed and
    turned into exit status 1; any other exception escapes. *)
Definition main (c : dict) : M unit :=
  fun w =>
    match (verify c ;; c <- generate c ;; apply c) w with
    | (Rejected e, w') => (print (PrintError e) ;; py_exit 1) w'
    | r => r
    end.

End Script.

(** * What validation may write

    The paths of the TOTP user file of the interface: the file and the
    directories leading to it. *)

Definition otp_paths (c : dict) : list string :=
  match dict_get "ifname" c with
  | Some (VStr name) => ["/config"; "/config/auth"; otp_path; otp_file name]
  | _ => []
  end.

(** Two-factor authentication is switched on for a server. *)
Definition totp_enabled (c : dict) : bool :=
  is_str (py_get "mode" c) "server" &&
  truthy (dict_search ["server"; "2fa"; "totp"] c).

Definition validation_may_write (c : dict) : list string :=
  if totp_enabled c then otp_paths c else [].

(** [w'] is [w] but for the files [S], for what was printed and for the
    randomness consumed. *)
Definition frame (S : list string) (w w' : world) : Prop :=
  (forall p, p ∉ S -> fs w' !! p = fs w !! p) /\
  calls w' = calls w /\ netifs w' = netifs w /\ exit_status w' = exit_status w.

(** * What the applier removes *)

Definition with_fs (f : gmap string node) (w : world) : world :=
  mkWorld f (calls w) (netifs w) (stdout w) (entropy w) (drawn w) (exit_status w).

(** The file system after the cleanup loop went through the paths [l]. *)
Definition unlink_files (l : list string) (f : gmap string node) : gmap string node :=
  fold_left (fun f p => if is_file p f then delete p f else f) l f.

(** * What the generator changes in the record *)

(** [c1] is [c] but for the two flags of [tls]: every other top-level key
    and every other key of [tls] has its value, and each flag has its
    value or is [True]. *)
Definition tls_frame (c c1 : dict) : Prop :=
  (forall k, k <> "tls" -> dict_get k c1 = dict_get k c) /\
  key_in "tls" c1 = key_in "tls" c /\
  (forall k, k <> "crl" -> k <> "private_key" ->
             dict_search ["tls"; k] c1 = dict_search ["tls"; k] c) /\
  (forall flag, flag = "crl" \/ flag = "private_key" ->
                dict_search ["tls"; flag] c1 = dict_search ["tls"; flag] c \/
                dict_search ["tls"; flag] c1 = VBool true).

(** A client record with the server subnet put into it. *)
Definition with_server_subnet (server_subnet : pyval) (client_config : pyval) : pyval :=
  match client_config with
  | VDict cc => VDict (dict_set "server_subnet" server_subnet cc)
  | v => v
  end.

(** [v[key]] when it raises nothing. *)
Definition item (v key : pyval) : option pyval :=
  match v, key with
  | VDict d, VStr k => dict_get k d
  | VList l, VBool b => l !! (if b then 1 else 0)%nat
  | VStr s, VBool b => chars s !! (if b then 1 else 0)%nat
  | _, _ => None
  end.

(** [openvpn['tls'][flag] = True] on a record whose [tls] is a
    dictionary (lines 524 and 545). *)
Definition with_tls_flag (flag : string) (c : dict) : dict :=
  match dict_get "tls" c with
  | Some (VDict t) => dict_set "tls" (VDict (dict_set flag (VBool true) t)) c
  | _ => c
  end.

(** The CA certificate that [tls] names has a [crl] entry in the PKI
    subtree (lines 504-506 and 516). *)
Definition crl_listed (c : dict) : bool :=
  match item (py_get "tls" c) (VStr "ca_certificate") with
  | Some cert_name =>
      match item (py_get "pki" c) (VStr "ca") with
      | Some cas =>
          match item cas cert_name with
          | Some (VDict pki_ca) => key_in "crl" pki_ca
          | _ => false
          end
      | None => false
      end
  | None => false
  end.

(** The certificate that [tls] names has a private key with key
    material in the PKI subtree (lines 526-528 and 538). *)
Definition private_key_held (c : dict) : bool :=
  match item (py_get "tls" c) (VStr "certificate") with
  | Some cert_name =>
      match item (py_get "pki" c) (VStr "certificate") with
      | Some certs =>
          match item certs cert_name with
          | Some (VDict pki_cert) =>
              match dict_get "private" pki_cert with
              | Some (VDict private) => key_in "key" private
              | _ => false
              end
          | _ => false
          end
      | None => false
      end
  | None => false
  end.

(** Lines 617-623: the server subnets put into every client record of a
    server that has clients. *)
Definition with_client_subnets (c : dict) : dict :=
  match dict_search ["server"; "client"] c with
  | VDict ((_ :: _) as clients) =>
      set_server_client
        (map (fun kv => (fst kv,
                         with_server_subnet (dict_search ["server"; "subnet"] c) (snd kv)))
             clients) c
  | _ => c
  end.

(** The record as the generator leaves it: [tls.crl] is [True] when the
    CA has a CRL entry, [tls.private_key] is [True] when the certificate
    has a private key, and every client record holds the server
    subnets; nothing else is touched. *)
Definition generated_record (c : dict) : dict :=
  let c := if crl_listed c then with_tls_flag "crl" c else c in
  let c := if private_key_held c then with_tls_flag "private_key" c else c in
  with_client_subnets c.

(** The same read key by key: in [c'] every field of [c] has its
    value, except the flags [crl] and [private_key] of [tls], which have
    their value or are [True], and the key [server_subnet] of each client
    record of the server, which has its value or holds the server
    subnets. *)
Definition generated_from (c c' : dict) : Prop :=
  (forall k, key_in k c' = key_in k c) /\
  (forall k, k <> "tls" -> k <> "server" -> dict_get k c' = dict_get k c) /\
  (forall k, k <> "crl" -> k <> "private_key" ->
             dict_search ["tls"; k] c' = dict_search ["tls"; k] c) /\
  (forall flag, flag = "crl" \/ flag = "private_key" ->
                dict_search ["tls"; flag] c' = dict_search ["tls"; flag] c \/
                dict_search ["tls"; flag] c' = VBool true) /\
  (forall k, k <> "client" ->
             dict_search ["server"; k] c' = dict_search ["server"; k] c) /\
  (forall n k, k <> "server_subnet" ->
               dict_search ["server"; "client"; n; k] c'
               = dict_search ["server"; "client"; n; k] c) /\
  (forall n, dict_search ["server"; "client"; n; "server_subnet"] c'
             = dict_search ["server"; "client"; n; "server_subnet"] c \/
             dict_search ["server"; "client"; n; "server_subnet"] c'
             = dict_search ["server"; "subnet"] c).

(** * A program logic for the script

    [respects R Q m]: whatever world [m] starts in, the world it ends in
    is related to it by [R], and a rejection it ends with satisfies [Q]. *)

Definition respects (R : world -> world -> Prop) (Q : config_error -> Prop)
    {A} (m : M A) : Prop :=
  forall w, R w (snd (m w)) /\ forall e, fst (m w) = Rejected e -> Q e.




(** * Concrete systems and configurations

    A small system to run the script on: no IPv6, every local host
    assigned, external verifiers that pass, RSA keys, DH parameters of
    2048 bits; templates render to their own name; every file is text
    in the encoding of the locale. *)

Definition demo_externals : externals := {|
  ext_is_ipv6 := fun _ => false;
  ext_is_addr_assigned := fun _ => true;
  ext_verify_vrf := fun _ => None;
  ext_verify_bridge_delete := fun _ => None;
  ext_is_ec_key := fun _ => false;
  ext_dh_bits := fun _ => Some 2048;
  ext_re_search := fun _ _ => None;
  ext_int := fun _ => None;
  ext_ipv6_address := fun _ => None;
  ext_render := fun template _ => template;
  ext_wrap := fun kind _ => kind;
  ext_decodable := fun _ => true
|}.

(** An empty file system, nothing running, and a random source that
    walks through the alphabet. *)
Definition empty_world : world :=
  mkWorld ∅ [] ∅ [] (fun n => n) 0 None.

Definition demo_pki : pyval :=
  VDict
    [ ("ca", VDict [("ca1", VDict [("certificate", VStr "CA"); ("crl", VList [VStr "CRL"])])]);
      ("certificate",
       VDict [("srv", VDict [("certificate", VStr "CERT");
                             ("private", VDict [("key", VStr "KEY")])])]);
      ("dh", VDict [("dh1", VDict [("parameters", VStr "DH")])]);
      ("openvpn", VDict [("shared_secret", VDict [("s1", VDict [("key", VStr "K")])])]) ].

Definition demo_tls : pyval :=
  VDict [("ca_certificate", VStr "ca1"); ("certificate", VStr "srv");
         ("dh_params", VStr "dh1")].

(** A server with one client and a client pool; [tls] and further keys
    are added per example. *)
Definition server_base (clients pool extra : dict) : dict :=
  [ ("ifname", VStr "vtun0"); ("mode", VStr "server"); ("protocol", VStr "udp");
    ("device_type", VStr "tun");
    ("server", VDict ([("subnet", VList [VStr "10.8.0.0/24"]); ("client", VDict clients)]
                      ++ pool ++ extra)%list);
    ("pki", demo_pki);
    ("auth_user_pass_file", VStr "/run/openvpn/vtun0.pw") ].

Definition pool (start stop : string) : dict :=
  [("client_ip_pool", VDict [("start", VStr start); ("stop", VStr stop)])].

Definition totp_on : dict := [("2fa", VDict [("totp", VDict [("slop", VStr "180")])])].

(** [alice] has a fixed address inside the server subnet, [mallory] one
    outside of it. *)
Definition alice : string * pyval := ("alice", VDict [("ip", VList [VStr "10.8.0.5"])]).
Definition mallory : string * pyval := ("mallory", VDict [("ip", VList [VStr "192.168.1.5"])]).

(** A TOTP server that names no authentication mechanism at all. *)
Definition totp_server_without_tls : dict := server_base [alice] [] totp_on.

(** The same server with a TLS binding: accepted. *)
Definition totp_server : dict :=
  (server_base [alice] [] totp_on ++ [("tls", demo_tls)])%list.

(** A server whose only client sits outside the server subnet. *)
Definition server_with_outside_client : dict :=
  (server_base [mallory] [] [] ++ [("tls", demo_tls)])%list.

Definition server_with_pool (start stop : string) : dict :=
  (server_base [alice] (pool start stop) [] ++ [("tls", demo_tls)])%list.

(** A server whose [client_ip_pool] block is present and has neither a
    start nor a stop address. *)
Definition server_with_empty_pool : dict :=
  (server_base [alice] [("client_ip_pool", VDict [])] [] ++ [("tls", demo_tls)])%list.

(** A world in which the TOTP file of vtun0 already has an entry for
    [alice]. *)
Definition alice_entry : string := totp_line "alice" "AAAAAAAAAAAAAAAA".

Definition world_with_otp_file : world :=
  mkWorld {[ otp_file "vtun0" := File alice_entry (Some (user, group)) None ]}
          [] ∅ [] (fun n => n) 0 None.

(** Site-to-site peers. *)
Definition site_to_site_base (extra : dict) : dict :=
  ([ ("ifname", VStr "vtun1"); ("mode", VStr "site-to-site"); ("protocol", VStr "udp");
     ("device_type", VStr "tun");
     ("local_address", VDict [("10.255.0.1", VDict [])]);
     ("remote_address", VList [VStr "10.255.0.2"]);
     ("pki", demo_pki);
     ("auth_user_pass_file", VStr "/run/openvpn/vtun1.pw") ] ++ extra)%list.

(** A bridged tap peer without a local address. *)
Definition bridged_site_to_site : dict :=
  [ ("ifname", VStr "vtun1"); ("mode", VStr "site-to-site"); ("protocol", VStr "udp");
    ("device_type", VStr "tap"); ("is_bridge_member", VStr "br0");
    ("shared_secret_key", VStr "s1"); ("pki", demo_pki);
    ("auth_user_pass_file", VStr "/run/openvpn/vtun1.pw") ].

(** A peer that declares a TLS role and has no auth key. *)
Definition site_to_site_with_role : dict :=
  site_to_site_base
    [("tls", VDict [("ca_certificate", VStr "ca1"); ("certificate", VStr "srv");
                    ("role", VStr "active")])].

(** A client that declares a TLS role and has no auth key. *)
Definition client_with_role : dict :=
  [ ("ifname", VStr "vtun2"); ("mode", VStr "client"); ("protocol", VStr "udp");
    ("device_type", VStr "tun"); ("remote_host", VList [VStr "192.0.2.1"]);
    ("tls", VDict [("ca_certificate", VStr "ca1"); ("certificate", VStr "srv");
                   ("role", VStr "active")]);
    ("pki", demo_pki);
    ("auth_user_pass_file", VStr "/run/openvpn/vtun2.pw") ].

Definition site_to_site_with_secret : dict :=
  site_to_site_base [("shared_secret_key", VStr "s1")].


(** The runtime directory after vtun0 was brought up with a shared
    secret and a certificate. *)
Definition world_with_runtime_files : world :=
  mkWorld
    (list_to_map
       [ ("/run/openvpn/vtun0.conf", File "conf" (Some (user, group)) None);
         ("/run/openvpn/vtun0.pw", File "pw" (Some (user, group)) (Some 384));
         ("/run/openvpn/vtun0_shared.key", File "key" None (Some 384));
         ("/run/openvpn/vtun0_ca.pem", File "ca" None (Some 384));
         ("/run/openvpn/vtun0_cert.pem", File "cert" None (Some 384));
         ("/run/openvpn/vtun0_cert.key", File "key" None (Some 384));
         ("/run/openvpn/vtun10.conf", File "other" (Some (user, group)) None) ])
    [] {[ "vtun0" := None ]} [] (fun n => n) 0 None.

Definition deleted_interface : dict := [("ifname", VStr "vtun0"); ("deleted", VDict [])].


(** * The record handed to the pipeline

    [get_config] (lines 69-92).  [Config] and [get_interface_dict] of the
    configuration library are not among the sources: the function is
    followed from the point where it holds their results, the PKI
    snapshot [tmp_pki] and the record [openvpn] of the interface. *)
Definition get_config (tmp_pki : pyval) (openvpn : dict) : M dict :=
  let openvpn :=
    if negb (key_in "deleted" openvpn) then dict_set "pki" tmp_pki openvpn
    else openvpn in
  ifname <- interface_name openvpn ;;
  let openvpn :=
    dict_set "auth_user_pass_file" (VStr ("/run/openvpn/" +:+ ifname +:+ ".pw")) openvpn in
  let openvpn := dict_set "daemon_user" (VStr user) openvpn in
  let openvpn := dict_set "daemon_group" (VStr group) openvpn in
  ret openvpn.

(** * Further configurations to run the script on *)

(** A client with a TLS binding. *)
Definition demo_client : dict :=
  [ ("ifname", VStr "vtun2"); ("mode", VStr "client"); ("protocol", VStr "udp");
    ("device_type", VStr "tun"); ("remote_host", VList [VStr "192.0.2.1"]);
    ("tls", VDict [("ca_certificate", VStr "ca1"); ("certificate", VStr "srv")]);
    ("pki", demo_pki);
    ("auth_user_pass_file", VStr "/run/openvpn/vtun2.pw") ].

(** * Checks that only read the record

    [m] neither reads nor changes the system: it has one outcome,
    whatever world it runs in, and leaves that world as it is. *)
Definition reads_only_record {A} (m : M A) : Prop :=
  exists r, forall w, m w = (r, w).

(** * What a stage may do to the system

    [w'] is [w] but for its files; a path outside [P] holds what it held
    in [w], unless it is a path of [D] and is gone. *)
Definition changes_files_only (P D : string -> Prop) (w w' : world) : Prop :=
  w' = with_fs (fs w') w /\
  forall p, ~ P p -> fs w' !! p = fs w !! p \/ (D p /\ fs w' !! p = None).

(** [m] raises no [ConfigError] and does to the system nothing but
    write at paths in [P] and remove paths in [D]. *)
Definition writes_only (P D : string -> Prop) {A} (m : M A) : Prop :=
  respects (changes_files_only P D) (fun _ => False) m.

(** The credential files of an interface (lines 496-576). *)
Definition pki_suffixes : list string :=
  ["_shared.key"; "_ca.pem"; "_crl.pem"; "_cert.pem"; "_cert.key"; "_dh.pem";
   "_auth.key"; "_crypt.key"].

Definition pki_paths (ifname : string) : list string :=
  map (pki_path ifname) pki_suffixes.

(** The runtime directory of vtun0 with a client fragment left over from
    an earlier commit. *)
Definition world_with_client_fragments : world :=
  mkWorld
    (list_to_map
       [ ("/run/openvpn/ccd/vtun0", Dir (Some (user, group)));
         ("/run/openvpn/ccd/vtun0/bob", File "ifconfig-push" (Some (user, group)) None);
         ("/run/openvpn/vtun0.conf", File "conf" (Some (user, group)) None) ])
    [] {[ "vtun0" := None ]} [] (fun n => n) 0 None.

(** The paths [generate] writes for the record [c] of the interface
    [name] (lines 586-637). *)
Definition generated_path (c : dict) (name p : string) : Prop :=
  let ccd_dir := path_join (dirname (cfg_file name)) ["ccd"; name] in
  p = ccd_dir \/
  In p (ancestors ccd_dir) \/
  In p (pki_paths name) \/
  dict_get "auth_user_pass_file" c = Some (VStr p) \/
  (exists clients client v,
     dict_search ["server"; "client"] c = VDict clients /\
     In (client, v) clients /\ p = path_join ccd_dir [client]) \/
  p = cfg_file name.

(** * Sanity checks of the library models *)

Example ipv4_parse_10_0_0_10 : IPv4Address (VStr "10.0.0.10") = Some 167772170.
Proof. reflexivity. Qed.

Example ipv4_parse_leading_zero : IPv4Address (VStr "10.0.0.010") = None.
Proof. reflexivity. Qed.

Example ipv4_network_24 :
  IPv4Network (VStr "10.8.0.0/24") = Some {| net_addr := 168296448; net_prefixlen := 24 |}.
Proof. reflexivity. Qed.

Example ipv4_network_host_bits : IPv4Network (VStr "10.8.0.1/24") = None.
Proof. reflexivity. Qed.

Example ipv4_network_netmask :
  IPv4Network (VStr "10.8.0.0/255.255.255.0") = IPv4Network (VStr "10.8.0.0/24").
Proof. reflexivity. Qed.

Example summarize_pool :
  summarize_address_range 32 167772169 167772180 =
  [ {| net_addr := 167772169; net_prefixlen := 32 |};
    {| net_addr := 167772170; net_prefixlen := 31 |};
    {| net_addr := 167772172; net_prefixlen := 30 |};
    {| net_addr := 167772176; net_prefixlen := 30 |};
    {| net_addr := 167772180; net_prefixlen := 32 |} ].
Proof. reflexivity. Qed.

Example dirname_cfg_file : dirname (cfg_file "vtun0") = "/run/openvpn".
Proof. reflexivity. Qed.

Example ccd_dir_vtun0 : path_join "/run/openvpn" ["ccd"; "vtun0"] = "/run/openvpn/ccd/vtun0".
Proof. reflexivity. Qed.

Example path_join_absolute : path_join "/run/openvpn" ["ccd"; "/abs"] = "/abs".
Proof. reflexivity. Qed.

Example ancestors_ccd_dir :
  ancestors "/run/openvpn/ccd/vtun0"
  = ["/run"; "/run/openvpn"; "/run/openvpn/ccd"; "/run/openvpn/ccd/vtun0"].
Proof. reflexivity. Qed.

Example readlines_two : readlines ("a b" +:+ newline +:+ "c") = ["a b" +:+ newline; "c"].
Proof. reflexivity. Qed.

Example readlines_carriage_returns :
  readlines ("a" +:+ carriage_return +:+ "b" +:+ carriage_return +:+ newline +:+ "c")
  = ["a" +:+ newline; "b" +:+ newline; "c"].
Proof. reflexivity. Qed.

Example match_plain_dot :
  match_plain "a.c " "abc d" = true /\ match_plain "a.c " "openvpn" = false.
Proof. split; reflexivity. Qed.

Example unquote_ex : unquote "--push &quot;route&quot;" = "--push " +:+ dquote +:+ "route" +:+ dquote.
Proof. reflexivity. Qed.

(** * Basic facts about the monad *)

Lemma bind_returned {A B} (m : M A) (k : A -> M B) w a w1 :
  m w = (Returned a, w1) -> bind m k w = k a w1.
Proof. intros H. unfold bind. now rewrite H. Qed.

Lemma bind_rejected {A B} (m : M A) (k : A -> M B) w e w1 :
  m w = (Rejected e, w1) -> bind m k w = (Rejected e, w1).
Proof. intros H. unfold bind. now rewrite H. Qed.

Lemma bind_raised {A B} (m : M A) (k : A -> M B) w x w1 :
  m w = (Raised x, w1) -> bind m k w = (Raised x, w1).
Proof. intros H. unfold bind. now rewrite H. Qed.

Lemma bind_ret_l {A B} (a : A) (k : A -> M B) w : bind (ret a) k w = k a w.
Proof. reflexivity. Qed.

(** A sequence that returns went through both halves. *)
Lemma bind_returned_inv {A B} (m : M A) (k : A -> M B) w b w' :
  bind m k w = (Returned b, w') ->
  exists a w1, m w = (Returned a, w1) /\ k a w1 = (Returned b, w').
Proof.
  unfold bind. destruct (m w) as [[a|e|x] w1]; intros H; try discriminate.
  now exists a, w1.
Qed.

Lemma when_returned_inv (b : bool) (m : M unit) w u w' :
  when b m w = (Returned u, w') ->
  (b = false /\ w' = w) \/ (b = true /\ m w = (Returned u, w')).
Proof.
  destruct b; simpl; intros H.
  - right. auto.
  - left. inversion H. auto.
Qed.

(** The interface name of a record that has one. *)
Lemma interface_name_eq c name :
  dict_get "ifname" c = Some (VStr name) ->
  interface_name c = ret name.
Proof. intros H. unfold interface_name, getitem. rewrite H. reflexivity. Qed.

Lemma string_or_not (v : pyval) : (exists name, v = VStr name) \/ (forall s, v <> VStr s).
Proof. destruct v; try (right; intros s; discriminate). left. now exists s. Qed.

Section Logic.

Variable E : externals.
Variable R : world -> world -> Prop.
Variable Q : config_error -> Prop.
Hypothesis R_refl : forall w, R w w.
Hypothesis R_trans : forall a b c, R a b -> R b c -> R a c.

(** Printing and drawing random numbers are allowed by [R]. *)
Hypothesis R_io : forall w out n,
  R w (mkWorld (fs w) (calls w) (netifs w) out (entropy w) n (exit_status w)).

(** Every rejection but the one about [tls role] is allowed by [Q]. *)
Hypothesis Q_other : forall e, e <> ErrTlsRoleClientServer -> Q e.

(** Rewriting the files [S] is allowed by [R]. *)
Variable S : list string.
Hypothesis R_write : forall w (f : gmap string node),
  (forall p, p ∉ S -> f !! p = fs w !! p) ->
  R w (mkWorld f (calls w) (netifs w) (stdout w) (entropy w) (drawn w) (exit_status w)).

Lemma respects_ret {A} (a : A) : respects R Q (ret a).
Proof. intros w. simpl. split; [apply R_refl | discriminate]. Qed.

Lemma respects_throw {A} x : respects R Q (@throw A x).
Proof. intros w. simpl. split; [apply R_refl | discriminate]. Qed.

Lemma respects_reject {A} e : Q e -> respects R Q (@reject A e).
Proof.
  intros He w. simpl. split; [apply R_refl |].
  intros e' [= <-]. exact He.
Qed.

Lemma respects_bind {A B} (m : M A) (k : A -> M B) :
  respects R Q m -> (forall a, respects R Q (k a)) -> respects R Q (bind m k).
Proof.
  intros Hm Hk w. destruct (Hm w) as [HR HQ]. unfold bind.
  destruct (m w) as [[a|e|x] w1]; simpl in *.
  - destruct (Hk a w1) as [HR' HQ']. split; [eapply R_trans; eauto | exact HQ'].
  - split; [exact HR |]. intros e0 [= <-]. now apply HQ.
  - split; [exact HR | discriminate].
Qed.

Lemma respects_bind_ret {A B} (a : A) (k : A -> M B) :
  respects R Q (k a) -> respects R Q (bind (ret a) k).
Proof. intros H w. exact (H w). Qed.

Lemma respects_bind_throw {A B} x (k : A -> M B) :
  respects R Q (bind (throw x) k).
Proof. intros w. simpl. split; [apply R_refl | discriminate]. Qed.

Lemma respects_when (b : bool) (m : M unit) :
  (b = true -> respects R Q m) -> respects R Q (when b m).
Proof. destruct b; simpl; intros H; [auto | apply respects_ret]. Qed.

Lemma respects_orelse {A} x (o : option A) : respects R Q (orelse x o).
Proof. destruct o; [apply respects_ret | apply respects_throw]. Qed.

Lemma respects_get_world : respects R Q get_world.
Proof. intros w. simpl. split; [apply R_refl | discriminate]. Qed.

Lemma respects_for_each {A} (l : list A) (body : A -> M unit) :
  (forall x, respects R Q (body x)) -> respects R Q (for_each l body).
Proof.
  intros H. induction l as [|x l IH]; simpl.
  - apply respects_ret.
  - apply respects_bind; [apply H | intros _; exact IH].
Qed.


Lemma respects_print p : respects R Q (print p).
Proof. intros w. simpl. split; [apply R_io | discriminate]. Qed.

Lemma respects_random_index n : respects R Q (random_index n).
Proof. intros w. simpl. split; [apply R_io | discriminate]. Qed.

(** One step of a proof that a piece of the script respects [R] and [Q]:
    a rule of the logic, or a case analysis on the scrutinee. *)
Ltac rstep :=
  lazymatch goal with
  | |- respects _ _ (ret _) => apply respects_ret
  | |- respects _ _ (throw _) => apply respects_throw
  | |- respects _ _ (reject _) => apply respects_reject; apply Q_other; discriminate
  | |- respects _ _ (orelse _ _) => apply respects_orelse
  | |- respects _ _ get_world => apply respects_get_world
  | |- respects _ _ (print _) => apply respects_print
  | |- respects _ _ (random_index _) => apply respects_random_index
  | |- respects _ _ (when _ _) => apply respects_when; intros ?
  | |- respects _ _ (for_each _ _) => apply respects_for_each; intros ?
  | |- respects _ _ (bind _ _) => apply respects_bind; [ | intros ? ]
  | |- respects _ _ (match ?x with _ => _ end) => destruct x
  | |- respects _ _ (let _ := _ in _) => cbv zeta
  end.

Ltac rsteps := repeat rstep.

Lemma respects_py_iter v : respects R Q (py_iter v).
Proof. unfold py_iter. rsteps. Qed.

Lemma respects_py_iter_or_empty v : respects R Q (py_iter_or_empty v).
Proof. unfold py_iter_or_empty. rsteps; apply respects_py_iter. Qed.

Lemma respects_py_len v : respects R Q (py_len v).
Proof. unfold py_len. rsteps. Qed.

Lemma respects_getitem k d : respects R Q (getitem k d).
Proof. unfold getitem. rsteps. Qed.

Lemma respects_subscript v key : respects R Q (subscript v key).
Proof. unfold subscript. rsteps. Qed.

Lemma respects_index0 v : respects R Q (index0 v).
Proof. unfold index0. rsteps. Qed.

Lemma respects_contains a b : respects R Q (contains a b).
Proof. unfold contains. rsteps. Qed.

Lemma respects_has_key k v : respects R Q (has_key k v).
Proof. apply respects_contains. Qed.

Lemma respects_py_set v : respects R Q (py_set v).
Proof. unfold py_set. rsteps. apply respects_py_iter. Qed.

Lemma respects_external_check r : respects R Q (external_check r).
Proof. unfold external_check. rsteps. Qed.

(** The same, with the lemmas proved so far as further rules; they are
    tried first so that a piece already dealt with is not opened again. *)
Create HintDb respects_db discriminated.

Ltac pstep :=
  first [ assumption | solve [auto 1 with respects_db nocore] | rstep ].

Ltac psteps := repeat pstep.

#[local] Hint Resolve respects_py_iter respects_py_iter_or_empty respects_py_len
  respects_getitem respects_subscript respects_index0 respects_contains
  respects_has_key respects_py_set respects_external_check : respects_db.

Lemma respects_is_ec_private_key pki name :
  respects R Q (is_ec_private_key E pki name).
Proof. unfold is_ec_private_key. psteps. Qed.
#[local] Hint Resolve respects_is_ec_private_key : respects_db.

Lemma respects_verify_pki_tls pki interface mode tls :
  respects R Q (verify_pki_tls E pki interface mode tls).
Proof. unfold verify_pki_tls. psteps. Qed.
#[local] Hint Resolve respects_verify_pki_tls : respects_db.

Lemma respects_verify_pki c : respects R Q (verify_pki E c).
Proof. unfold verify_pki. psteps. Qed.

Lemma respects_verify_client c : respects R Q (verify_client c).
Proof. unfold verify_client. psteps. Qed.

Lemma respects_verify_remote_address c l :
  respects R Q (verify_remote_address E c l).
Proof. unfold verify_remote_address. psteps. Qed.

Lemma respects_verify_tap_subnet_mask c : respects R Q (verify_tap_subnet_mask c).
Proof. unfold verify_tap_subnet_mask. psteps. Qed.
#[local] Hint Resolve respects_verify_remote_address respects_verify_tap_subnet_mask
  : respects_db.

Lemma respects_verify_site_to_site c : respects R Q (verify_site_to_site E c).
Proof. unfold verify_site_to_site. psteps. Qed.

Lemma respects_verify_no_addresses c : respects R Q (verify_no_addresses c).
Proof. unfold verify_no_addresses. psteps. Qed.
#[local] Hint Resolve respects_verify_client respects_verify_site_to_site
  respects_verify_no_addresses respects_verify_pki : respects_db.

Lemma respects_verify_mode c mode : respects R Q (verify_mode E c mode).
Proof. unfold verify_mode. psteps. Qed.

#[local] Hint Resolve respects_verify_mode : respects_db.

Lemma respects_verify_clients_in_subnet c n :
  respects R Q (verify_clients_in_subnet c n).
Proof. unfold verify_clients_in_subnet. psteps. Qed.
#[local] Hint Resolve respects_verify_clients_in_subnet : respects_db.

Lemma respects_verify_server_subnet c : respects R Q (verify_server_subnet E c).
Proof. unfold verify_server_subnet. psteps. Qed.

Lemma respects_more_than_one_ip k d : respects R Q (more_than_one_ip k d).
Proof. unfold more_than_one_ip. psteps. Qed.
#[local] Hint Resolve respects_more_than_one_ip : respects_db.

Lemma respects_verify_server_clients c : respects R Q (verify_server_clients c).
Proof. unfold verify_server_clients. psteps. Qed.

Lemma respects_warn_clients_in_pool c key bits parse nets :
  respects R Q (warn_clients_in_pool c key bits parse nets).
Proof. unfold warn_clients_in_pool. psteps. Qed.
#[local] Hint Resolve respects_warn_clients_in_pool : respects_db.

Lemma respects_verify_client_ip_pool c : respects R Q (verify_client_ip_pool c).
Proof. unfold verify_client_ip_pool. psteps. Qed.

Lemma respects_ipv6_network_last a v : respects R Q (ipv6_network_last a v).
Proof. unfold ipv6_network_last. psteps. Qed.
#[local] Hint Resolve respects_ipv6_network_last : respects_db.

Lemma respects_verify_ipv6_pool c o : respects R Q (verify_ipv6_pool E c o).
Proof. unfold verify_ipv6_pool. psteps. Qed.

Lemma respects_verify_not_server c : respects R Q (verify_not_server c).
Proof. unfold verify_not_server. psteps. Qed.

Lemma respects_verify_common c : respects R Q (verify_common E c).
Proof. unfold verify_common. psteps. Qed.

Lemma respects_verify_auth c : respects R Q (verify_auth c).
Proof. unfold verify_auth. psteps. Qed.

Lemma respects_verify_vrf c : respects R Q (verify_vrf E c).
Proof. unfold verify_vrf. psteps. Qed.

Lemma respects_verify_bridge_delete c : respects R Q (verify_bridge_delete E c).
Proof. unfold verify_bridge_delete. psteps. Qed.
#[local] Hint Resolve respects_verify_server_subnet respects_verify_server_clients
  respects_verify_client_ip_pool respects_verify_ipv6_pool respects_verify_not_server
  respects_verify_common respects_verify_auth respects_verify_vrf
  respects_verify_bridge_delete : respects_db.

(** The checks on the TLS role raise the one rejection that [Q] may
    exclude only in client or server mode without an auth key. *)
Lemma respects_verify_tls_role c mode :
  Q ErrTlsRoleClientServer \/
  (is_str mode "client" || is_str mode "server") = false \/
  truthy (dict_search ["tls"; "auth_key"] c) = true ->
  respects R Q (verify_tls_role c mode).
Proof.
  intros H. unfold verify_tls_role. apply respects_when; intros Hrole.
  apply respects_bind.
  - apply respects_when; intros Hm. apply respects_when; intros Ha.
    destruct H as [H | [H | H]].
    + now apply respects_reject.
    + congruence.
    + rewrite H in Ha. discriminate.
  - intros _. psteps.
Qed.

(** The [tls] block, given the checks on the role. *)
Lemma respects_verify_tls c mode :
  respects R Q (verify_tls_role c mode) -> respects R Q (verify_tls E c mode).
Proof. intros H. unfold verify_tls. psteps. Qed.

(** Server mode, given the update of the TOTP file. *)
Lemma respects_verify_server c :
  respects R Q (update_otp_file E c) -> respects R Q (verify_server E c).
Proof. intros H. unfold verify_server. psteps. Qed.

Lemma respects_verify_rest c mode :
  respects R Q (verify_tls_role c mode) -> respects R Q (verify_rest E c mode).
Proof.
  intros H. unfold verify_rest. pose proof (respects_verify_tls c mode H). psteps.
Qed.

(** [verify] respects [R] and [Q] as soon as its two special pieces do:
    the TOTP file when it is reached (server mode), and the checks on
    the TLS role for the mode of the configuration. *)
Lemma respects_verify c :
  (is_str (py_get "mode" c) "server" = true -> respects R Q (update_otp_file E c)) ->
  respects R Q (verify_tls_role c (py_get "mode" c)) ->
  respects R Q (verify E c).
Proof.
  intros Hotp Hrole. unfold verify.
  destruct (key_in "deleted" c); [psteps |].
  apply respects_bind; [psteps |]. intros _.
  unfold getitem, py_get in *.
  destruct (dict_get "mode" c) as [mode|]; [| apply respects_bind_throw].
  apply respects_bind_ret.
  apply respects_bind; [psteps |]. intros _.
  apply respects_bind.
  - destruct (is_str mode "server"); [apply respects_verify_server; auto | psteps].
  - intros _. now apply respects_verify_rest.
Qed.


(** ** The TOTP file *)

Lemma respects_set_fs_insert p n : p ∈ S -> respects R Q (set_fs (insert p n)).
Proof.
  intros Hp w. simpl. split; [| discriminate].
  apply R_write. intros q Hq. apply lookup_insert_ne. intros ->. contradiction.
Qed.

Lemma respects_mkdirs ps : (forall p, p ∈ ps -> p ∈ S) -> respects R Q (mkdirs ps).
Proof.
  induction ps as [|p ps IH]; intros Hps; simpl; [apply respects_ret |].
  assert (Hp : p ∈ S) by (apply Hps; left).
  assert (Hrest : respects R Q (mkdirs ps)) by (apply IH; intros q Hq; apply Hps; now right).
  pose proof (respects_set_fs_insert p (Dir None) Hp).
  psteps.
Qed.

Lemma respects_touch p : p ∈ S -> respects R Q (touch p).
Proof.
  intros Hp. unfold touch.
  pose proof (fun n => respects_set_fs_insert p n Hp). psteps.
Qed.

Lemma respects_read_text p : respects R Q (read_text E p).
Proof. unfold read_text. psteps. Qed.

Lemma respects_write_text p t : p ∈ S -> respects R Q (write_text p t).
Proof.
  intros Hp. unfold write_text.
  pose proof (fun n => respects_set_fs_insert p n Hp). psteps.
Qed.

Lemma respects_chown p u g : p ∈ S -> respects R Q (chown p u g).
Proof.
  intros Hp. unfold chown.
  pose proof (fun n => respects_set_fs_insert p n Hp). psteps.
Qed.

Lemma respects_random_secret n : respects R Q (random_secret n).
Proof. induction n; simpl; psteps. Qed.
#[local] Hint Resolve respects_random_secret respects_read_text : respects_db.

Lemma respects_re_search_client c t : respects R Q (re_search_client E c t).
Proof. unfold re_search_client. psteps. Qed.
#[local] Hint Resolve respects_re_search_client : respects_db.

Lemma respects_totp_existing client users : respects R Q (totp_existing E client users).
Proof. induction users; simpl; psteps. Qed.
#[local] Hint Resolve respects_totp_existing : respects_db.

Lemma respects_totp_client client users : respects R Q (totp_client E client users).
Proof. unfold totp_client. psteps. Qed.
#[local] Hint Resolve respects_totp_client : respects_db.

Lemma respects_totp_clients clients users : respects R Q (totp_clients E clients users).
Proof. induction clients; simpl; psteps. Qed.
#[local] Hint Resolve respects_totp_clients : respects_db.

Lemma respects_interface_name c : respects R Q (interface_name c).
Proof. unfold interface_name. psteps. Qed.

(** The update of the TOTP file stays within the paths of that file. *)
Lemma respects_update_otp_file c :
  (truthy (dict_search ["server"; "2fa"; "totp"] c) = true ->
   forall p, p ∈ otp_paths c -> p ∈ S) ->
  respects R Q (update_otp_file E c).
Proof.
  intros HS. unfold update_otp_file.
  apply respects_when. intros Ht. specialize (HS Ht).
  unfold otp_paths in HS.
  destruct (dict_get "ifname" c) as [v|] eqn:Hget;
    [| unfold interface_name, getitem; rewrite Hget; apply respects_bind_throw].
  destruct (string_or_not v) as [[name ->]|Hv].
  2:{ unfold interface_name, getitem. rewrite Hget.
      destruct v; try apply respects_bind_throw. now destruct (Hv s). }
  rewrite (interface_name_eq _ _ Hget). apply respects_bind_ret.
  assert (Hfile : otp_file name ∈ S)
    by (apply HS; rewrite !elem_of_cons; tauto).
  assert (Hdirs : forall p, p ∈ ["/config"; "/config/auth"; otp_path] -> p ∈ S)
    by (intros p Hp; apply HS; revert Hp; rewrite !elem_of_cons; tauto).
  pose proof (respects_mkdirs _ Hdirs).
  pose proof (respects_touch _ Hfile).
  pose proof (fun t => respects_write_text _ t Hfile).
  pose proof (respects_chown _ user group Hfile).
  psteps.
Qed.

End Logic.

(** * Validation and the state of the system (claim C1) *)

Lemma frame_refl S w : frame S w w.
Proof. unfold frame. auto. Qed.

Lemma frame_trans S a b c : frame S a b -> frame S b c -> frame S a c.
Proof.
  unfold frame. intros (Hf & Hc & Hn & He) (Hf' & Hc' & Hn' & He').
  repeat split; try congruence.
  intros p Hp. rewrite Hf', Hf; auto.
Qed.

Lemma frame_io S w out n :
  frame S w (mkWorld (fs w) (calls w) (netifs w) out (entropy w) n (exit_status w)).
Proof. unfold frame. simpl. auto. Qed.

Lemma frame_write S w (f : gmap string node) :
  (forall p, p ∉ S -> f !! p = fs w !! p) ->
  frame S w (mkWorld f (calls w) (netifs w) (stdout w) (entropy w) (drawn w) (exit_status w)).
Proof. unfold frame. simpl. auto. Qed.

(** Validation changes nothing but what it prints, the randomness it
    draws and, for a server with TOTP, the TOTP user file. *)
Lemma verify_frame E c w :
  frame (validation_may_write c) w (snd (verify E c w)).
Proof.
  refine (proj1 (respects_verify E (frame (validation_may_write c)) (fun _ => True)
            (frame_refl _) (frame_trans _) (frame_io _) (fun _ _ => I) c _ _ w)).
  - intros Hserver.
    apply (respects_update_otp_file E _ _ (frame_refl _) (frame_trans _) (frame_io _)
             (validation_may_write c) (frame_write _)).
    intros Htotp p Hp. unfold validation_may_write, totp_enabled.
    now rewrite Hserver, Htotp.
  - apply (respects_verify_tls_role _ _ (frame_refl _) (frame_trans _) (fun _ _ => I)).
    now left.
Qed.

(** What [__main__] does with a rejection: it prints it and exits with
    status 1; the generator and the applier have not run. *)
Lemma main_rejected E c w e :
  fst (verify E c w) = Rejected e ->
  main E c w =
  (Returned tt,
   let w' := snd (verify E c w) in
   mkWorld (fs w') (calls w') (netifs w') (stdout w' ++ [PrintError e])%list
           (entropy w') (drawn w') (Some 1)).
Proof.
  intros H. unfold main. destruct (verify E c w) as [r w'] eqn:Hv. simpl in H. subst r.
  rewrite (bind_rejected _ _ _ _ _ Hv). reflexivity.
Qed.

Lemma bind_rejected_inv {A B} (m : M A) (k : A -> M B) w e w' :
  bind m k w = (Rejected e, w') ->
  m w = (Rejected e, w') \/
  exists a w1, m w = (Returned a, w1) /\ k a w1 = (Rejected e, w').
Proof.
  unfold bind. destruct (m w) as [[a|e0|x] w1]; intros H.
  - right. eauto.
  - left. inversion H. reflexivity.
  - discriminate H.
Qed.

Lemma frame_nil_fs w w' : frame [] w w' -> fs w' = fs w.
Proof. intros [H _]. apply map_eq. intros p. apply H, not_elem_of_nil. Qed.

(** A step that writes no file hands a rejection of what follows on
    with the files it found. *)
Lemma rejected_unchanged_bind {A B} (m : M A) (k : A -> M B) :
  respects (frame []) (fun _ => True) m ->
  (forall a w e w', k a w = (Rejected e, w') -> fs w' = fs w) ->
  forall w e w', bind m k w = (Rejected e, w') -> fs w' = fs w.
Proof.
  intros Hm Hk w e w' H. destruct (Hm w) as [HR _].
  apply bind_rejected_inv in H as [H | (a & w1 & Hr & H)].
  - rewrite H in HR. now apply frame_nil_fs.
  - rewrite Hr in HR. rewrite (Hk _ _ _ _ H). now apply frame_nil_fs.
Qed.

Lemma rejected_unchanged {A} (m : M A) :
  respects (frame []) (fun _ => True) m ->
  forall w e w', m w = (Rejected e, w') -> fs w' = fs w.
Proof.
  intros Hm w e w' H. destruct (Hm w) as [HR _]. rewrite H in HR.
  now apply frame_nil_fs.
Qed.

Ltac no_file_written :=
  first [ apply frame_refl | apply frame_trans | apply frame_io
        | (intros; exact I) | apply frame_write ].

(** The update of the TOTP file raises no [ConfigError]. *)
Lemma update_otp_file_never_rejects E c w e :
  fst (update_otp_file E c w) <> Rejected e.
Proof.
  intros H.
  refine (proj2 (respects_update_otp_file E (fun _ _ => True) (fun _ => False)
                   (fun _ => I) (fun _ _ _ _ _ => I) (fun _ _ _ => I)
                   (otp_paths c) (fun _ _ _ => I) c _ w) e H).
  auto.
Qed.

(** A rejection by the server-mode group comes from one of its checks,
    which precede the update of the TOTP file: no file is written. *)
Lemma verify_server_rejected E c w e w' :
  verify_server E c w = (Rejected e, w') -> fs w' = fs w.
Proof.
  unfold verify_server. revert w e w'.
  apply rejected_unchanged_bind; [apply respects_getitem; no_file_written |]. intros protocol.
  apply rejected_unchanged_bind.
  { apply respects_when; [no_file_written |]. intros _.
    apply respects_reject; [no_file_written | exact I]. }
  intros _. apply rejected_unchanged_bind.
  { apply respects_when; [no_file_written |]. intros _.
    apply respects_reject; [no_file_written | exact I]. }
  intros _. apply rejected_unchanged_bind.
  { apply respects_when; [no_file_written |]. intros _.
    apply respects_reject; [no_file_written | exact I]. }
  intros _. apply rejected_unchanged_bind;
    [apply respects_verify_server_subnet; no_file_written |].
  intros _. apply rejected_unchanged_bind;
    [apply respects_verify_server_clients; no_file_written |].
  intros _. apply rejected_unchanged_bind;
    [apply respects_verify_client_ip_pool; no_file_written |].
  intros size. apply rejected_unchanged_bind;
    [apply respects_verify_ipv6_pool; no_file_written |].
  intros _ w e w' H. exfalso.
  apply (update_otp_file_never_rejects E c w e). now rewrite H.
Qed.

(** Where a rejection comes from: either no file was written, or the
    configuration is a server that passed the checks of its mode and the
    server-mode group, and one of the checks after them rejected. *)
Lemma verify_rejected_inv E c w e :
  fst (verify E c w) = Rejected e ->
  fs (snd (verify E c w)) = fs w \/
  exists mode w1 w2,
    dict_get "mode" c = Some mode /\
    is_str mode "server" = true /\
    verify_mode E c mode w = (Returned tt, w1) /\
    verify_server E c w1 = (Returned tt, w2) /\
    verify_rest E c mode w2 = (Rejected e, snd (verify E c w)).
Proof.
  intros H. destruct (verify E c w) as [r w'] eqn:Hv. cbn [fst snd] in *. subst r.
  unfold verify in Hv. destruct (key_in "deleted" c).
  { left. revert Hv. apply rejected_unchanged.
    apply respects_verify_bridge_delete; no_file_written. }
  apply bind_rejected_inv in Hv as [Hv | (u & w0 & Hwhen & Hv)].
  { left. destruct (negb (key_in "mode" c)); inversion Hv; reflexivity. }
  apply when_returned_inv in Hwhen.
  assert (w0 = w) as -> by (destruct Hwhen as [[_ ->]|[_ Hr]]; [reflexivity | discriminate]).
  clear Hwhen.
  apply bind_rejected_inv in Hv as [Hv | (mode & w0 & Hmode & Hv)].
  { unfold getitem in Hv. destruct (dict_get "mode" c); discriminate Hv. }
  unfold getitem in Hmode.
  destruct (dict_get "mode" c) as [mode'|] eqn:Hget; [| discriminate Hmode].
  inversion Hmode; subst mode' w0; clear Hmode.
  assert (Hm : respects (frame []) (fun _ => True) (verify_mode E c mode))
    by (apply respects_verify_mode; no_file_written).
  apply bind_rejected_inv in Hv as [Hv | ([] & w1 & Hrun & Hv)].
  { left. exact (rejected_unchanged _ Hm _ _ _ Hv). }
  assert (Hw1 : fs w1 = fs w).
  { destruct (Hm w) as [HR _]. rewrite Hrun in HR. now apply frame_nil_fs. }
  destruct (is_str mode "server") eqn:Hserver.
  - apply bind_rejected_inv in Hv as [Hv | ([] & w2 & Hgroup & Hv)].
    + left. rewrite <- Hw1. exact (verify_server_rejected E c w1 e w' Hv).
    + right. exists mode, w1, w2. repeat split; assumption.
  - left. rewrite <- Hw1. revert Hv. apply rejected_unchanged.
    apply respects_bind; try solve [no_file_written].
    + apply respects_verify_not_server; no_file_written.
    + intros _. apply respects_verify_rest; try solve [no_file_written].
      apply respects_verify_tls_role; try solve [no_file_written]. now left.
Qed.

(** C1 (amended): for every configuration that validation rejects, the
    run ends with exit status 1 and has started no process and touched
    no interface: the commands run and the kernel interfaces are as they
    were when validation began.  Every file is as it was, except that for
    a server with 2FA/TOTP enabled the TOTP user file of the interface
    (and the directories leading to it) may already have been created or
    rewritten by validation when a check after the server-mode group
    rejects: if any file differs, the configuration is a server that
    passed the checks of its mode and the whole server-mode group, and
    the rejection comes from the checks that follow.  Without TOTP on a
    server the file system is exactly as it was. *)
Theorem C1_rejection_leaves_system_but_totp_file E c w e :
  fst (verify E c w) = Rejected e ->
  let w' := snd (main E c w) in
  fst (main E c w) = Returned tt /\
  exit_status w' = Some 1 /\
  calls w' = calls w /\
  netifs w' = netifs w /\
  (forall p, p ∉ validation_may_write c -> fs w' !! p = fs w !! p) /\
  (totp_enabled c = false -> fs w' = fs w) /\
  (fs w' = fs w \/
   exists mode w1 w2,
     dict_get "mode" c = Some mode /\
     is_str mode "server" = true /\
     verify_mode E c mode w = (Returned tt, w1) /\
     verify_server E c w1 = (Returned tt, w2) /\
     fst (verify_rest E c mode w2) = Rejected e).
Proof.
  intros H. rewrite (main_rejected E c w e H). simpl.
  destruct (verify_frame E c w) as (Hfs & Hcalls & Hnet & _).
  repeat split; auto.
  - intros Hoff. apply map_eq. intros p. apply Hfs.
    unfold validation_may_write. rewrite Hoff. apply not_elem_of_nil.
  - destruct (verify_rejected_inv E c w e H)
      as [Hsame | (mode & w1 & w2 & Hmode & Hserver & Hrun & Hgroup & Hrest)].
    + now left.
    + right. exists mode, w1, w2. rewrite Hrest. auto.
Qed.

(** C1, as stated, fails: a server with TOTP enabled that configures
    neither a shared secret nor TLS is rejected by the PKI validator
    (checked after the server-mode group), and by then the TOTP user file
    and its directories, absent when validation began, exist with a fresh
    secret for the client. *)
Lemma C1_counterexample :
  fst (verify demo_externals totp_server_without_tls empty_world)
    = Rejected ErrSecretXorTls /\
  fs empty_world !! otp_file "vtun0" = None /\
  fs (snd (main demo_externals totp_server_without_tls empty_world)) !! otp_file "vtun0"
    = Some (File (totp_line "alice" "ABCDEFGHIJKLMNOP") (Some (user, group)) None) /\
  fs (snd (main demo_externals totp_server_without_tls empty_world)) <> fs empty_world.
Proof.
  split; [vm_compute; reflexivity |].
  split; [vm_compute; reflexivity |].
  split; [vm_compute; reflexivity |].
  intros Heq.
  assert (Hl : fs (snd (main demo_externals totp_server_without_tls empty_world))
                 !! otp_file "vtun0" = fs empty_world !! otp_file "vtun0")
    by (rewrite Heq; reflexivity).
  vm_compute in Hl. discriminate.
Qed.

(** The theorem at the TOTP server that names no authentication
    mechanism, started on the empty system. *)
Lemma C1_witness :
  fst (verify demo_externals totp_server_without_tls empty_world)
    = Rejected ErrSecretXorTls /\
  let w' := snd (main demo_externals totp_server_without_tls empty_world) in
  fst (main demo_externals totp_server_without_tls empty_world) = Returned tt /\
  exit_status w' = Some 1 /\
  calls w' = calls empty_world /\
  netifs w' = netifs empty_world /\
  (forall p, p ∉ validation_may_write totp_server_without_tls ->
             fs w' !! p = fs empty_world !! p) /\
  (totp_enabled totp_server_without_tls = false -> fs w' = fs empty_world) /\
  (fs w' = fs empty_world \/
   exists mode w1 w2,
     dict_get "mode" totp_server_without_tls = Some mode /\
     is_str mode "server" = true /\
     verify_mode demo_externals totp_server_without_tls mode empty_world
     = (Returned tt, w1) /\
     verify_server demo_externals totp_server_without_tls w1 = (Returned tt, w2) /\
     fst (verify_rest demo_externals totp_server_without_tls mode w2)
     = Rejected ErrSecretXorTls).
Proof.
  split; [vm_compute; reflexivity |].
  apply (C1_rejection_leaves_system_but_totp_file demo_externals
           totp_server_without_tls empty_world ErrSecretXorTls).
  vm_compute; reflexivity.
Defined.

(** * The TOTP user file (claim C2) *)

(** The pattern of a client is anchored and ends in a space, and the text
    it is matched against is the name of the service account, which has
    no space: no client ever matches. *)
Lemma no_client_matches_user c : match_plain (c +:+ " ") user = false.
Proof.
  assert (H : forall t, ~ In " "%char (list_ascii_of_string t) ->
                        forall c, match_plain (c +:+ " ") t = false).
  { induction t as [|x t IH]; intros Ht c0.
    - destruct c0; reflexivity.
    - cbn [list_ascii_of_string In] in Ht.
      destruct c0 as [|p c0].
      + change (EmptyString +:+ " ") with " ". cbn [match_plain].
        change (Ascii.eqb " " ".") with false. cbv iota.
        destruct (Ascii.eqb_spec " " x) as [<- | _]; [tauto | reflexivity].
      + change (String p c0 +:+ " ") with (String p (c0 +:+ " ")).
        cbn [match_plain]. rewrite IH by tauto. apply andb_false_r. }
  apply H. unfold user. cbn. intros Hin.
  repeat (destruct Hin as [Hin | Hin]; [discriminate Hin |]). exact Hin.
Qed.

(** So the inner loop keeps no line of the file, whatever the file holds. *)
Lemma plain_client_misses_user E c :
  regex_plain c = true -> re_search_client E c user = ret false.
Proof. intros Hc. unfold re_search_client. now rewrite Hc, no_client_matches_user. Qed.

Lemma totp_existing_keeps_nothing E c users w :
  re_search_client E c user = ret false ->
  totp_existing E (VStr c) users w = (Returned ([], false), w).
Proof.
  intros Hc. induction users as [|u users IH]; simpl; [reflexivity |].
  rewrite Hc. unfold bind at 1. simpl. unfold bind. rewrite IH. reflexivity.
Qed.

(** Every configured client gets a fresh secret on every run: what is
    written for a client does not depend on the lines already there. *)
Lemma totp_client_always_fresh E c users w :
  re_search_client E c user = ret false ->
  totp_client E (VStr c) users w =
  bind (random_secret 16) (fun totp_secret => ret [totp_line c totp_secret]) w.
Proof.
  intros Hc. unfold totp_client.
  rewrite (bind_returned _ _ _ _ _ (totp_existing_keeps_nothing E c users w Hc)).
  cbn [fst snd app]. reflexivity.
Qed.

(** C2 (the code departs from the claim): with TOTP enabled and a client
    [alice] that already has an entry in the file, validation accepts the
    configuration and rewrites the file with a newly generated secret for
    [alice]; the existing entry is not kept.  Running validation again on
    the result changes the file once more. *)
Theorem C2_existing_totp_entry_not_kept :
  let run := verify demo_externals totp_server in
  let file w := fs w !! otp_file "vtun0" in
  fst (run world_with_otp_file) = Returned tt /\
  file world_with_otp_file
    = Some (File (totp_line "alice" "AAAAAAAAAAAAAAAA") (Some (user, group)) None) /\
  file (snd (run world_with_otp_file))
    = Some (File (totp_line "alice" "ABCDEFGHIJKLMNOP") (Some (user, group)) None) /\
  fst (run (snd (run world_with_otp_file))) = Returned tt /\
  file (snd (run (snd (run world_with_otp_file))))
    = Some (File (totp_line "alice" "QRSTUVWXYZ234567") (Some (user, group)) None).
Proof. vm_compute. repeat split; reflexivity. Qed.

(** * Client addresses and the server subnet (claim C3) *)

(** The check reads the top-level key [client]; when the record has none
    (client records live under [server.client]) it passes whatever the
    subnet is. *)
Lemma verify_clients_in_subnet_without_client_key c subnet w :
  truthy (dict_search ["client"] c) = false ->
  verify_clients_in_subnet c subnet w = (Returned tt, w).
Proof.
  intros H. unfold verify_clients_in_subnet, py_iter_or_empty. rewrite H. reflexivity.
Qed.

(** C3 (the code departs from the claim): a server with the IPv4 subnet
    10.8.0.0/24 and a client whose configured address 192.168.1.5 is
    outside of it is accepted. *)
Theorem C3_client_outside_subnet_accepted :
  dict_search ["server"; "subnet"] server_with_outside_client = VList [VStr "10.8.0.0/24"] /\
  dict_search ["server"; "client"] server_with_outside_client
    = VDict [("mallory", VDict [("ip", VList [VStr "192.168.1.5"])])] /\
  (exists addr subnet,
     IPv4Address (VStr "192.168.1.5") = Some addr /\
     IPv4Network (VStr "10.8.0.0/24") = Some subnet /\
     ipv4_in addr subnet = false) /\
  fst (verify demo_externals server_with_outside_client empty_world) = Returned tt.
Proof.
  split; [reflexivity |]. split; [reflexivity |]. split.
  - eexists _, _. repeat split; vm_compute; reflexivity.
  - vm_compute. reflexivity.
Qed.

(** * A bridged site-to-site peer (claim C4) *)

(** C4 (the code departs from the claim): every site-to-site
    configuration that is a bridge member and has no local address passes
    the local-address requirement and then fails on the next line with a
    [KeyError] for [local_address], which [__main__] does not catch. *)
Theorem C4_bridged_site_to_site_raises E c w :
  key_in "deleted" c = false ->
  dict_get "mode" c = Some (VStr "site-to-site") ->
  key_in "local_address" c = false ->
  key_in "is_bridge_member" c = true ->
  verify E c w = (Raised (KeyError "local_address"), w) /\
  main E c w = (Raised (KeyError "local_address"), w).
Proof.
  intros Hdel Hmode Hla Hbr.
  assert (Hv : verify E c w = (Raised (KeyError "local_address"), w)).
  { unfold verify. rewrite Hdel.
    unfold key_in at 1. rewrite Hmode. simpl negb.
    unfold getitem at 1. rewrite Hmode.
    unfold verify_mode, verify_site_to_site. simpl.
    rewrite Hla, Hbr. simpl.
    unfold key_in in Hla. unfold getitem.
    destruct (dict_get "local_address" c); [discriminate |].
    reflexivity. }
  split; [exact Hv |].
  unfold main. rewrite (bind_raised _ _ _ _ _ Hv). reflexivity.
Qed.

(** The theorem at a bridged tap peer without a local address. *)
Lemma C4_witness :
  verify demo_externals bridged_site_to_site empty_world
    = (Raised (KeyError "local_address"), empty_world) /\
  main demo_externals bridged_site_to_site empty_world
    = (Raised (KeyError "local_address"), empty_world).
Proof.
  apply (C4_bridged_site_to_site_raises demo_externals bridged_site_to_site empty_world);
    reflexivity.
Defined.

(** * What an accepted configuration went through *)

Ltac inv_bind H :=
  let a := fresh "a" in
  let w := fresh "w" in
  let H1 := fresh H in
  apply bind_returned_inv in H; destruct H as (a & w & H1 & H).

Tactic Notation "inv_seq" hyp(H) "as" ident(a) ident(w) ident(Hm) :=
  apply bind_returned_inv in H; destruct H as (a & w & Hm & H).

Lemma getitem_returned_inv k d w v w' :
  getitem k d w = (Returned v, w') -> dict_get k d = Some v /\ w' = w.
Proof.
  unfold getitem. destruct (dict_get k d); simpl; intros H; inversion H; auto.
Qed.

(** An accepted configuration that is not deleted has a mode, and passed
    the checks of its mode, the server or non-server checks, and the
    common checks, in this order. *)
Lemma verify_returned_inv E c w u w' :
  key_in "deleted" c = false ->
  verify E c w = (Returned u, w') ->
  exists mode w1 w2,
    dict_get "mode" c = Some mode /\
    verify_mode E c mode w = (Returned tt, w1) /\
    (if is_str mode "server" then verify_server E c else verify_not_server c) w1
      = (Returned tt, w2) /\
    verify_rest E c mode w2 = (Returned u, w').
Proof.
  intros Hdel H. unfold verify in H. rewrite Hdel in H.
  inv_bind H. apply when_returned_inv in H0.
  assert (w0 = w) as -> by (destruct H0 as [[_ ->]|[_ Hr]]; [reflexivity | discriminate]).
  inv_bind H. apply getitem_returned_inv in H1 as [Hmode ->].
  inv_bind H. inv_bind H.
  destruct a1, a2. eauto 10.
Qed.

(** Server mode: the client pool check returned. *)
Lemma verify_server_returned_inv E c w u w' :
  verify_server E c w = (Returned u, w') ->
  exists w1 w2 size, verify_client_ip_pool c w1 = (Returned size, w2).
Proof.
  intros H. unfold verify_server in H.
  do 7 inv_bind H. eauto.
Qed.

(** The common checks: the TLS block and the PKI validator returned. *)
Lemma verify_rest_returned_inv E c mode w u w' :
  verify_rest E c mode w = (Returned u, w') ->
  exists w1 w2 w3 w4,
    verify_tls E c mode w1 = (Returned tt, w2) /\
    verify_pki E c w3 = (Returned tt, w4).
Proof.
  intros H. unfold verify_rest in H.
  do 4 inv_bind H. destruct a0, a2. eauto 10.
Qed.

(** The TLS block of a record that has one: the role checks returned. *)
Lemma verify_tls_returned_inv E c mode w u w' :
  key_in "tls" c = true ->
  verify_tls E c mode w = (Returned u, w') ->
  exists w1 w2, verify_tls_role c mode w1 = (Returned tt, w2).
Proof.
  intros Htls H. unfold verify_tls in H. rewrite Htls in H. simpl when in H.
  do 4 inv_bind H. destruct a2. eauto.
Qed.

Lemma fst_returned {A} (r : outcome A * world) a :
  fst r = Returned a -> r = (Returned a, snd r).
Proof. destruct r; simpl; now intros ->. Qed.

(** * The IPv4 client pool (claims C5 and C10) *)

(** Without a top-level [client] key nothing is warned about. *)
Lemma warn_clients_in_pool_without_client_key c key bits parse nets w :
  truthy (dict_search ["client"] c) = false ->
  warn_clients_in_pool c key bits parse nets w = (Returned tt, w).
Proof.
  intros H. unfold warn_clients_in_pool, py_iter_or_empty. rewrite H. reflexivity.
Qed.

(** The pool check on a pool whose two bounds are set and parse. *)
Lemma verify_client_ip_pool_bounds c a b w :
  truthy (dict_search ["server"; "client_ip_pool"] c) = true ->
  truthy (dict_search ["server"; "client_ip_pool"; "start"] c) &&
  truthy (dict_search ["server"; "client_ip_pool"; "stop"] c) = true ->
  IPv4Address (dict_search ["server"; "client_ip_pool"; "start"] c) = Some a ->
  IPv4Address (dict_search ["server"; "client_ip_pool"; "stop"] c) = Some b ->
  verify_client_ip_pool c w =
  if b <? a then (Rejected (ErrPoolOrder a b), w)
  else if 65536 <=? b - a then (Rejected (ErrPoolTooLarge a b (b - a)), w)
  else bind (warn_clients_in_pool c "ip" 32 IPv4Address (summarize_address_range 32 a b))
            (fun _ => ret (Some (b - a))) w.
Proof.
  intros Hpool Hboth Ha Hb. unfold verify_client_ip_pool.
  rewrite Hpool, Hboth, Ha, Hb. cbn [negb orelse].
  rewrite !bind_ret_l.
  destruct (b <? a); [reflexivity |].
  cbn [when]. rewrite bind_ret_l.
  destruct (65536 <=? b - a); [reflexivity |].
  cbn [when]. rewrite bind_ret_l. reflexivity.
Qed.

Lemma verify_client_ip_pool_missing_bound c w :
  truthy (dict_search ["server"; "client_ip_pool"] c) = true ->
  truthy (dict_search ["server"; "client_ip_pool"; "start"] c) &&
  truthy (dict_search ["server"; "client_ip_pool"; "stop"] c) = false ->
  verify_client_ip_pool c w = (Rejected ErrPoolStartStop, w).
Proof.
  intros Hpool Hboth. unfold verify_client_ip_pool. rewrite Hpool, Hboth. reflexivity.
Qed.

(** A server configuration whose pool check never returns is never
    accepted. *)
Lemma server_not_accepted_without_pool_check E c w :
  key_in "deleted" c = false ->
  dict_get "mode" c = Some (VStr "server") ->
  (forall w1 size w2, verify_client_ip_pool c w1 <> (Returned size, w2)) ->
  fst (verify E c w) <> Returned tt.
Proof.
  intros Hdel Hmode Hpool Hacc. apply fst_returned in Hacc.
  apply (verify_returned_inv E c w tt _ Hdel) in Hacc
    as (mode & w1 & w2 & Hm & _ & Hserver & _).
  rewrite Hmode in Hm. injection Hm as <-. simpl in Hserver.
  apply verify_server_returned_inv in Hserver as (w3 & w4 & size & Hp).
  exact (Hpool _ _ _ Hp).
Qed.

(** The warnings about pool addresses never reject. *)
Lemma warn_clients_in_pool_never_rejects c key bits parse nets w e :
  fst (warn_clients_in_pool c key bits parse nets w) <> Rejected e.
Proof.
  intros H.
  exact (proj2 (respects_warn_clients_in_pool (fun _ _ => True) (fun _ => False)
                  (fun _ => I) (fun _ _ _ _ _ => I) (fun _ _ _ => I)
                  c key bits parse nets w) e H).
Qed.

(** C5 (amended): for every server-mode configuration whose
    client-ip-pool block is not empty, validation rejects when start or
    stop is missing, when start is larger than stop, and when the
    computed size stop - start is 65536 or more: the pool check raises
    the corresponding rejection and the configuration is never accepted.
    Otherwise the pool check passes with the size stop - start.  A
    client-ip-pool block that is absent or empty is not checked at all:
    the pool check passes without a size.  In particular the pool
    10.0.0.10 - 10.0.0.20 has size 10 and a server with it is accepted,
    and the pool 10.0.0.10 - 10.1.0.10 (size 65536) is rejected. *)
Theorem C5_client_ip_pool_bounds :
  (forall c w,
     truthy (dict_search ["server"; "client_ip_pool"] c) = false ->
     verify_client_ip_pool c w = (Returned None, w)) /\
  (forall E c,
     key_in "deleted" c = false ->
     dict_get "mode" c = Some (VStr "server") ->
     truthy (dict_search ["server"; "client_ip_pool"] c) = true ->
     let start := dict_search ["server"; "client_ip_pool"; "start"] c in
     let stop := dict_search ["server"; "client_ip_pool"; "stop"] c in
     (truthy start && truthy stop = false ->
      forall w, verify_client_ip_pool c w = (Rejected ErrPoolStartStop, w) /\
                fst (verify E c w) <> Returned tt) /\
     (forall a b,
        truthy start && truthy stop = true ->
        IPv4Address start = Some a ->
        IPv4Address stop = Some b ->
        (b < a ->
         forall w, verify_client_ip_pool c w = (Rejected (ErrPoolOrder a b), w) /\
                   fst (verify E c w) <> Returned tt) /\
        (a <= b -> 65536 <= b - a ->
         forall w, verify_client_ip_pool c w = (Rejected (ErrPoolTooLarge a b (b - a)), w) /\
                   fst (verify E c w) <> Returned tt) /\
        (a <= b -> b - a < 65536 ->
         forall w e, fst (verify_client_ip_pool c w) <> Rejected e))) /\
  verify_client_ip_pool (server_with_pool "10.0.0.10" "10.0.0.20") empty_world
    = (Returned (Some 10), empty_world) /\
  fst (verify demo_externals (server_with_pool "10.0.0.10" "10.0.0.20") empty_world)
    = Returned tt /\
  fst (verify demo_externals (server_with_pool "10.0.0.10" "10.1.0.10") empty_world)
    = Rejected (ErrPoolTooLarge 167772170 167837706 65536).
Proof.
  split.
  { intros c w Hpool. unfold verify_client_ip_pool. now rewrite Hpool. }
  split; [| repeat split; vm_compute; reflexivity].
  intros E c Hdel Hmode Hpool start stop. split.
  - intros Hmiss w.
    pose proof (verify_client_ip_pool_missing_bound c) as Hrej.
    split; [now apply Hrej |].
    apply server_not_accepted_without_pool_check; auto.
    intros w1 size w2. rewrite Hrej by auto. discriminate.
  - intros a b Hboth Ha Hb.
    pose proof (fun w => verify_client_ip_pool_bounds c a b w Hpool Hboth Ha Hb) as Hspec.
    split; [| split].
    + intros Hlt w.
      assert (Hrej : forall w, verify_client_ip_pool c w = (Rejected (ErrPoolOrder a b), w)).
      { intros w0. rewrite Hspec. apply Z.ltb_lt in Hlt. now rewrite Hlt. }
      split; [apply Hrej |].
      apply server_not_accepted_without_pool_check; auto.
      intros w1 size w2. rewrite Hrej. discriminate.
    + intros Hle Hbig w.
      assert (Hrej : forall w, verify_client_ip_pool c w
                               = (Rejected (ErrPoolTooLarge a b (b - a)), w)).
      { intros w0. rewrite Hspec.
        apply Z.ltb_ge in Hle. apply Z.leb_le in Hbig. now rewrite Hle, Hbig. }
      split; [apply Hrej |].
      apply server_not_accepted_without_pool_check; auto.
      intros w1 size w2. rewrite Hrej. discriminate.
    + intros Hle Hsmall w e. rewrite Hspec.
      apply Z.ltb_ge in Hle. rewrite Hle.
      assert (Hs : (65536 <=? b - a) = false) by (apply Z.leb_gt; lia).
      rewrite Hs. unfold bind.
      pose proof (warn_clients_in_pool_never_rejects c "ip" 32 IPv4Address
                    (summarize_address_range 32 a b) w) as Hw.
      destruct (warn_clients_in_pool c "ip" 32 IPv4Address
                  (summarize_address_range 32 a b) w) as [[u|e'|x] w1]; simpl in *.
      * discriminate.
      * intros [= <-]. now apply (Hw e').
      * discriminate.
Qed.

(** C5, as stated, fails: a server whose client-ip-pool block is
    present and has neither a start nor a stop address is accepted; the
    pool check does not look at a block that is empty. *)
Lemma C5_counterexample :
  dict_search ["server"; "client_ip_pool"] server_with_empty_pool = VDict [] /\
  dict_search ["server"; "client_ip_pool"; "start"] server_with_empty_pool = VNone /\
  dict_search ["server"; "client_ip_pool"; "stop"] server_with_empty_pool = VNone /\
  verify_client_ip_pool server_with_empty_pool empty_world = (Returned None, empty_world) /\
  fst (verify demo_externals server_with_empty_pool empty_world) = Returned tt.
Proof. repeat split; vm_compute; reflexivity. Qed.

(** The theorem at the pool 10.0.0.10 - 10.1.0.10, whose size is 65536. *)
Lemma C5_witness :
  let c := server_with_pool "10.0.0.10" "10.1.0.10" in
  (key_in "deleted" c = false /\
   dict_get "mode" c = Some (VStr "server") /\
   truthy (dict_search ["server"; "client_ip_pool"] c) = true) /\
  forall w,
    verify_client_ip_pool c w = (Rejected (ErrPoolTooLarge 167772170 167837706 65536), w) /\
    fst (verify demo_externals c w) <> Returned tt.
Proof.
  intros c. split; [repeat split; reflexivity |].
  assert (H1 : key_in "deleted" c = false) by reflexivity.
  assert (H2 : dict_get "mode" c = Some (VStr "server")) by reflexivity.
  assert (H3 : truthy (dict_search ["server"; "client_ip_pool"] c) = true) by reflexivity.
  destruct (proj1 (proj2 C5_client_ip_pool_bounds) demo_externals c H1 H2 H3) as [_ H].
  destruct (H 167772170 167837706 eq_refl eq_refl eq_refl) as (_ & Hbig & _).
  apply Hbig; lia.
Defined.

(** C10: a client-ip-pool whose start equals its stop passes the
    bound-order check, which rejects exactly when start is strictly
    larger than stop; the size the check computes is the difference
    stop - start, one less than the number of addresses of the inclusive
    range, so a pool of a single address has size 0 and is accepted. *)
Theorem C10_single_address_pool :
  (forall c a b w,
     truthy (dict_search ["server"; "client_ip_pool"] c) = true ->
     truthy (dict_search ["server"; "client_ip_pool"; "start"] c) &&
     truthy (dict_search ["server"; "client_ip_pool"; "stop"] c) = true ->
     IPv4Address (dict_search ["server"; "client_ip_pool"; "start"] c) = Some a ->
     IPv4Address (dict_search ["server"; "client_ip_pool"; "stop"] c) = Some b ->
     (verify_client_ip_pool c w = (Rejected (ErrPoolOrder a b), w) <-> b < a) /\
     (forall size w', verify_client_ip_pool c w = (Returned size, w') ->
                      size = Some (b - a)) /\
     (a = b -> truthy (dict_search ["client"] c) = false ->
      verify_client_ip_pool c w = (Returned (Some 0), w))) /\
  verify_client_ip_pool (server_with_pool "10.0.0.10" "10.0.0.10") empty_world
    = (Returned (Some 0), empty_world) /\
  fst (verify demo_externals (server_with_pool "10.0.0.10" "10.0.0.10") empty_world)
    = Returned tt.
Proof.
  split; [| split; vm_compute; reflexivity].
  intros c a b w Hpool Hboth Ha Hb.
  pose proof (verify_client_ip_pool_bounds c a b w Hpool Hboth Ha Hb) as Hspec.
  pose proof (warn_clients_in_pool_never_rejects c "ip" 32 IPv4Address
                (summarize_address_range 32 a b) w) as Hwarn.
  split; [| split].
  - rewrite Hspec. destruct (b <? a) eqn:Hlt.
    + apply Z.ltb_lt in Hlt. tauto.
    + apply Z.ltb_ge in Hlt. split; [| lia].
      destruct (65536 <=? b - a); [discriminate |].
      unfold bind.
      destruct (warn_clients_in_pool c "ip" 32 IPv4Address
                  (summarize_address_range 32 a b) w) as [[u|e'|x] w1];
        simpl in *; try discriminate.
      now destruct (Hwarn e').
  - intros size w'. rewrite Hspec.
    destruct (b <? a); [discriminate |].
    destruct (65536 <=? b - a); [discriminate |].
    intros H. apply bind_returned_inv in H as (u & w1 & _ & H).
    now inversion H.
  - intros -> Hnone. rewrite Hspec.
    rewrite Z.ltb_irrefl, Z.sub_diag. simpl.
    unfold bind. rewrite warn_clients_in_pool_without_client_key by exact Hnone.
    reflexivity.
Qed.

(** The theorem at the pool 10.0.0.10 - 10.0.0.10. *)
Lemma C10_witness :
  let c := server_with_pool "10.0.0.10" "10.0.0.10" in
  (truthy (dict_search ["server"; "client_ip_pool"] c) = true /\
   IPv4Address (dict_search ["server"; "client_ip_pool"; "start"] c) = Some 167772170 /\
   IPv4Address (dict_search ["server"; "client_ip_pool"; "stop"] c) = Some 167772170) /\
  forall w, verify_client_ip_pool c w = (Returned (Some 0), w).
Proof.
  intros c. split; [repeat split; reflexivity |]. intros w.
  destruct (proj1 C10_single_address_pool c 167772170 167772170 w
              eq_refl eq_refl eq_refl eq_refl) as (_ & _ & H).
  apply H; reflexivity.
Defined.

(** * The TLS role (claim C6) *)

(** A record with a value under [tls.<key>] has the key [tls]. *)
Lemma tls_key_present c k :
  truthy (dict_search ["tls"; k] c) = true -> key_in "tls" c = true.
Proof.
  unfold key_in. simpl. destruct (dict_get "tls" c); [reflexivity | discriminate].
Qed.

Lemma verify_tls_role_rejects c mode w :
  truthy (dict_search ["tls"; "role"] c) = true ->
  is_str mode "client" || is_str mode "server" = true ->
  truthy (dict_search ["tls"; "auth_key"] c) = false ->
  verify_tls_role c mode w = (Rejected ErrTlsRoleClientServer, w).
Proof.
  intros Hrole Hmode Hauth. unfold verify_tls_role.
  rewrite Hrole, Hmode, Hauth. reflexivity.
Qed.

(** C6 (amended): for every configuration that declares a tls.role while
    the mode is client or server, validation rejects unless a tls
    auth-key is configured; when the mode is neither client nor server
    (site-to-site), or an auth-key is configured, declaring a tls.role
    never triggers this rejection. *)
Theorem C6_tls_role_needs_auth_key_in_client_server_mode E c :
  key_in "deleted" c = false ->
  truthy (dict_search ["tls"; "role"] c) = true ->
  let mode := py_get "mode" c in
  let client_or_server := is_str mode "client" || is_str mode "server" in
  let auth_key := truthy (dict_search ["tls"; "auth_key"] c) in
  (client_or_server = true -> auth_key = false ->
   forall w, verify_tls_role c mode w = (Rejected ErrTlsRoleClientServer, w) /\
             fst (verify E c w) <> Returned tt) /\
  (client_or_server = false \/ auth_key = true ->
   forall w, fst (verify E c w) <> Rejected ErrTlsRoleClientServer).
Proof.
  intros Hdel Hrole mode client_or_server auth_key. split.
  - intros Hmode Hauth w.
    split; [now apply verify_tls_role_rejects |].
    intros Hacc. apply fst_returned in Hacc.
    apply (verify_returned_inv E c w tt _ Hdel) in Hacc
      as (mode' & w1 & w2 & Hm & _ & _ & Hrest).
    assert (mode' = mode) as -> by (unfold mode, py_get; now rewrite Hm).
    apply verify_rest_returned_inv in Hrest as (w3 & w4 & _ & _ & Htls & _).
    apply verify_tls_returned_inv in Htls as (w5 & w6 & Hr);
      [| exact (tls_key_present c "role" Hrole)].
    rewrite verify_tls_role_rejects in Hr by assumption. discriminate.
  - intros Hother w Hrej.
    refine (proj2 (respects_verify E (fun _ _ => True)
                     (fun e => e <> ErrTlsRoleClientServer)
                     (fun _ => I) (fun _ _ _ _ _ => I) (fun _ _ _ => I)
                     (fun _ H => H) c _ _ w) _ Hrej eq_refl).
    + intros _.
      apply (respects_update_otp_file E _ _ (fun _ => I) (fun _ _ _ _ _ => I)
               (fun _ _ _ => I) (otp_paths c) (fun _ _ _ => I)).
      auto.
    + apply (respects_verify_tls_role _ _ (fun _ => I) (fun _ _ _ _ _ => I)
               (fun _ H => H)).
      right. exact Hother.
Qed.

(** C6, as stated, fails in both directions: a site-to-site peer that
    declares a tls.role and has no auth-key is accepted, and a client
    that does the same is rejected for it. *)
Lemma C6_counterexample :
  (dict_get "mode" site_to_site_with_role = Some (VStr "site-to-site") /\
   dict_search ["tls"; "role"] site_to_site_with_role = VStr "active" /\
   dict_search ["tls"; "auth_key"] site_to_site_with_role = VNone /\
   fst (verify demo_externals site_to_site_with_role empty_world) = Returned tt) /\
  (dict_get "mode" client_with_role = Some (VStr "client") /\
   dict_search ["tls"; "role"] client_with_role = VStr "active" /\
   dict_search ["tls"; "auth_key"] client_with_role = VNone /\
   fst (verify demo_externals client_with_role empty_world)
     = Rejected ErrTlsRoleClientServer).
Proof. repeat split; vm_compute; reflexivity. Qed.

(** The theorem at a client and at a site-to-site peer that declare a
    TLS role without an auth key. *)
Lemma C6_witness :
  (key_in "deleted" client_with_role = false /\
   truthy (dict_search ["tls"; "role"] client_with_role) = true) /\
  (forall w, fst (verify demo_externals client_with_role w) <> Returned tt) /\
  (forall w, fst (verify demo_externals site_to_site_with_role w)
             <> Rejected ErrTlsRoleClientServer).
Proof.
  split; [split; reflexivity |]. split.
  - intros w.
    apply (proj1 (C6_tls_role_needs_auth_key_in_client_server_mode demo_externals
                    client_with_role eq_refl eq_refl)); reflexivity.
  - apply (proj2 (C6_tls_role_needs_auth_key_in_client_server_mode demo_externals
                    site_to_site_with_role eq_refl eq_refl)).
    left. reflexivity.
Defined.

(** * One authentication mechanism (claim C7) *)





(** * Cleanup of a deleted or disabled interface (claim C9) *)

Lemma prefix_append_same a b c :
  String.prefix (a +:+ b) (a +:+ c) = String.prefix b c.
Proof.
  induction a as [|x a IH]; simpl; [reflexivity |].
  destruct (ascii_dec x x); [exact IH | congruence].
Qed.

(** A name that goes on with an underscore after the interface name is
    not matched by the pattern of the cleanup. *)
(** The path of a credential file of an interface with a plain name. *)
Lemma pki_path_plain name suffix :
  plain_name name = true ->
  String.prefix "_" suffix = true ->
  pki_path name suffix = "/run/openvpn/" +:+ name +:+ suffix.
Proof.
  intros Hplain Hs. unfold pki_path, path_join, cfg_dir. cbn [fold_left].
  assert (Hrel : starts_with_slash (name +:+ suffix) = false).
  { destruct name as [|c name].
    - destruct suffix as [|x s]; [reflexivity |].
      cbn [String.prefix] in Hs.
      destruct (ascii_dec "_" x) as [<-|]; [reflexivity | discriminate Hs].
    - unfold plain_name in Hplain. cbn [list_ascii_of_string forallb] in Hplain.
      apply andb_prop in Hplain as [Hc _].
      cbn [list_ascii_of_string existsb] in Hc.
      destruct (Ascii.eqb_spec c "/") as [->|Hne]; [discriminate Hc |].
      cbn [String.append starts_with_slash].
      destruct c as [[] [] [] [] [] [] [] []]; try reflexivity. now destruct Hne. }
  rewrite Hrel. reflexivity.
Qed.

Lemma pki_path_not_runtime_file name suffix :
  plain_name name = true ->
  String.prefix "_" suffix = true ->
  runtime_file_of name (pki_path name suffix) = false.
Proof.
  intros Hplain Hs. rewrite pki_path_plain by assumption.
  unfold runtime_file_of.
  change ("/run/openvpn/" +:+ name +:+ suffix)
    with ("/run/openvpn/" +:+ (name +:+ suffix)).
  rewrite (prefix_append_same "/run/openvpn/").
  rewrite prefix_append_same.
  destruct suffix as [|x s]; [simpl in Hs; discriminate Hs |].
  assert (Hx : x = "_"%char).
  { cbn [String.prefix] in Hs.
    destruct (ascii_dec "_" x) as [<-|]; [reflexivity | discriminate Hs]. }
  subst x. reflexivity.
Qed.

Lemma is_file_delete_ne p q (f : gmap string node) :
  p <> q -> is_file q (delete p f) = is_file q f.
Proof. intros H. unfold is_file. now rewrite lookup_delete_ne. Qed.

Lemma unlink_files_removed l : forall (f : gmap string node) q,
  In q l -> is_file q f = true -> unlink_files l f !! q = None.
Proof.
  induction l as [|p l IH]; intros f q Hin Hfile; [destruct Hin |].
  simpl. destruct (decide (p = q)) as [->|Hne].
  - rewrite Hfile. clear Hin IH.
    assert (Hgone : forall l (g : gmap string node), g !! q = None ->
                               unlink_files l g !! q = None).
    { clear. induction l as [|p l IH]; intros g Hg; [exact Hg |].
      simpl. destruct (is_file p g); [| now apply IH].
      apply IH. destruct (decide (p = q)) as [->|Hne].
      - apply lookup_delete_eq.
      - now rewrite lookup_delete_ne. }
    apply Hgone, lookup_delete_eq.
  - destruct Hin as [Heq|Hin]; [contradiction |].
    destruct (is_file p f); [| now apply IH].
    apply IH; [exact Hin |]. now rewrite is_file_delete_ne.
Qed.

Lemma unlink_files_kept l : forall (f : gmap string node) q,
  ~ In q l \/ is_file q f = false -> unlink_files l f !! q = f !! q.
Proof.
  induction l as [|p l IH]; intros f q H; [reflexivity |].
  simpl. destruct (decide (p = q)) as [->|Hne].
  - destruct H as [H|H]; [destruct H; now left |].
    rewrite H. apply IH. now right.
  - destruct (is_file p f) eqn:Hp.
    + rewrite IH.
      * now apply lookup_delete_ne.
      * destruct H as [H|H]; [left; intros Hin; apply H; now right |].
        right. now rewrite is_file_delete_ne.
    + apply IH. destruct H as [H|H]; [left; intros Hin; apply H; now right | now right].
Qed.

(** The paths the pattern yields are the runtime files that exist. *)
Lemma in_glob_runtime_files name (f : gmap string node) q :
  In q (glob_runtime_files name f) <->
  runtime_file_of name q = true /\ is_Some (f !! q).
Proof.
  unfold glob_runtime_files. rewrite filter_In, in_map_iff. split.
  - intros [[[q' n] [Hq Hin]] Hr]. simpl in Hq. subst q'.
    apply list_elem_of_In, elem_of_map_to_list in Hin. split; [exact Hr | eauto].
  - intros [Hr [n Hn]]. split; [| exact Hr].
    exists (q, n). split; [reflexivity |].
    now apply list_elem_of_In, elem_of_map_to_list.
Qed.

Lemma with_fs_same w : with_fs (fs w) w = w.
Proof. now destruct w. Qed.

(** One turn of the cleanup loop. *)
Lemma cleanup_step p w :
  bind get_world (fun w => when (is_file p (fs w)) (unlink p)) w
  = (Returned tt, with_fs (if is_file p (fs w) then delete p (fs w) else fs w) w).
Proof.
  rewrite (bind_returned get_world _ w w w eq_refl).
  unfold unlink, is_file.
  destruct (fs w !! p) as [[o|t o m]|] eqn:Hp; cbn [when].
  - now rewrite with_fs_same.
  - rewrite (bind_returned get_world _ w w w eq_refl). now rewrite Hp.
  - now rewrite with_fs_same.
Qed.

(** The cleanup loop is [unlink_files]. *)
Lemma cleanup_loop l : forall w,
  for_each l (fun cleanup_file =>
    bind get_world (fun w => when (is_file cleanup_file (fs w)) (unlink cleanup_file))) w
  = (Returned tt, with_fs (unlink_files l (fs w)) w).
Proof.
  induction l as [|p l IH]; intros w;
    [unfold unlink_files; cbn [fold_left]; now rewrite with_fs_same |].
  cbn [for_each]. rewrite (bind_returned _ _ _ _ _ (cleanup_step p w)).
  rewrite IH. reflexivity.
Qed.

(** C9 (amended): for every configuration marked deleted or disabled,
    the lifecycle applier stops the service, removes the regular files
    directly under /run/openvpn whose name is the interface name followed
    by a dot (the daemon configuration, the password file, ...) and
    nothing else, tears down the network-interface object if it exists,
    and returns without starting the daemon.  The credential and PKI
    artifacts [<ifname>_*.key] and [<ifname>_*.pem] are not matched by
    the pattern and stay as they are. *)
Theorem C9_cleanup_of_deleted_interface c w name :
  dict_get "ifname" c = Some (VStr name) ->
  plain_name name = true ->
  key_in "deleted" c || key_in "disable" c = true ->
  exists w',
    apply c w = (Returned tt, w') /\
    calls w' = (calls w ++ ["systemctl stop openvpn@" +:+ name +:+ ".service"])%list /\
    netifs w' = delete name (netifs w) /\
    (forall p, fs w' !! p =
               if runtime_file_of name p && is_file p (fs w) then None else fs w !! p) /\
    (forall suffix, String.prefix "_" suffix = true ->
                    fs w' !! pki_path name suffix = fs w !! pki_path name suffix).
Proof.
  intros Hif Hplain Hdel. unfold apply.
  rewrite (interface_name_eq _ _ Hif), bind_ret_l.
  set (cmd := "systemctl stop openvpn@" +:+ name +:+ ".service").
  set (w1 := mkWorld (fs w) (calls w ++ [cmd])%list (netifs w) (stdout w)
                     (entropy w) (drawn w) (exit_status w)).
  rewrite (bind_returned (call cmd) _ w tt w1 eq_refl).
  rewrite Hdel, Hplain. cbn [negb when]. rewrite bind_ret_l.
  rewrite (bind_returned get_world _ w1 w1 w1 eq_refl).
  rewrite (bind_returned _ _ _ _ _ (cleanup_loop _ w1)).
  set (w2 := with_fs (unlink_files (glob_runtime_files name (fs w1)) (fs w1)) w1).
  rewrite (bind_returned get_world _ w2 w2 w2 eq_refl).
  assert (Hfs : forall p, unlink_files (glob_runtime_files name (fs w)) (fs w) !! p =
                          if runtime_file_of name p && is_file p (fs w)
                          then None else fs w !! p).
  { intros p. destruct (runtime_file_of name p) eqn:Hr; simpl.
    - destruct (is_file p (fs w)) eqn:Hf.
      + apply unlink_files_removed; [| exact Hf].
        apply in_glob_runtime_files. split; [exact Hr |].
        unfold is_file in Hf. destruct (fs w !! p); [eauto | discriminate].
      + apply unlink_files_kept. now right.
    - apply unlink_files_kept. left. intros Hin.
      apply in_glob_runtime_files in Hin as [Hr' _]. congruence. }
  assert (Hpki : forall suffix, String.prefix "_" suffix = true ->
            unlink_files (glob_runtime_files name (fs w)) (fs w) !! pki_path name suffix
            = fs w !! pki_path name suffix).
  { intros suffix Hs. rewrite Hfs, pki_path_not_runtime_file by assumption. reflexivity. }
  destruct (netifs w !! name) as [o|] eqn:Hn.
  - eexists. split.
    { unfold when. cbn [netifs w2 w1 with_fs]. rewrite Hn.
      rewrite bool_decide_eq_true_2 by eauto. reflexivity. }
    cbn. auto.
  - eexists. split.
    { unfold when. cbn [netifs w2 w1 with_fs]. rewrite Hn.
      rewrite bool_decide_eq_false_2 by (intros [? ?]; discriminate). reflexivity. }
    cbn. rewrite (delete_id _ _ Hn). auto.
Qed.

(** C9, as stated, fails: after the applier ran for a deleted interface
    whose runtime directory holds a shared secret, a CA certificate, a
    certificate and its key, these four files are still there; only the
    daemon configuration and the password file are gone. *)
Lemma C9_counterexample :
  key_in "deleted" deleted_interface = true /\
  let w' := snd (apply deleted_interface world_with_runtime_files) in
  fst (apply deleted_interface world_with_runtime_files) = Returned tt /\
  fs w' !! "/run/openvpn/vtun0.conf" = None /\
  fs w' !! "/run/openvpn/vtun0.pw" = None /\
  fs w' !! "/run/openvpn/vtun0_shared.key" = Some (File "key" None (Some 384)) /\
  fs w' !! "/run/openvpn/vtun0_ca.pem" = Some (File "ca" None (Some 384)) /\
  fs w' !! "/run/openvpn/vtun0_cert.pem" = Some (File "cert" None (Some 384)) /\
  fs w' !! "/run/openvpn/vtun0_cert.key" = Some (File "key" None (Some 384)).
Proof. vm_compute. repeat split; reflexivity. Qed.

(** The theorem at a deleted interface with files in the runtime
    directory. *)
Lemma C9_witness :
  (dict_get "ifname" deleted_interface = Some (VStr "vtun0") /\
   plain_name "vtun0" = true /\
   key_in "deleted" deleted_interface || key_in "disable" deleted_interface = true) /\
  exists w',
    apply deleted_interface world_with_runtime_files = (Returned tt, w') /\
    calls w' = ["systemctl stop openvpn@vtun0.service"] /\
    netifs w' = delete "vtun0" (netifs world_with_runtime_files) /\
    (forall p, fs w' !! p =
               if runtime_file_of "vtun0" p && is_file p (fs world_with_runtime_files)
               then None else fs world_with_runtime_files !! p) /\
    (forall suffix, String.prefix "_" suffix = true ->
                    fs w' !! pki_path "vtun0" suffix
                    = fs world_with_runtime_files !! pki_path "vtun0" suffix).
Proof.
  split; [repeat split; reflexivity |].
  exact (C9_cleanup_of_deleted_interface deleted_interface world_with_runtime_files
           "vtun0" eq_refl eq_refl eq_refl).
Defined.

(** * The record after generation (claim C8) *)

Lemma dict_get_set_eq k v d : dict_get k (dict_set k v d) = Some v.
Proof.
  induction d as [|[k' v'] d IH]; simpl.
  - now rewrite String.eqb_refl.
  - destruct (String.eqb k k') eqn:Hk; simpl; rewrite Hk; auto.
Qed.

Lemma dict_get_set_ne k k' v d :
  k <> k' -> dict_get k (dict_set k' v d) = dict_get k d.
Proof.
  intros Hne. induction d as [|[k0 v0] d IH]; simpl.
  - apply String.eqb_neq in Hne. now rewrite Hne.
  - destruct (String.eqb k' k0) eqn:Hk; simpl.
    + apply String.eqb_eq in Hk. subst k0.
      apply String.eqb_neq in Hne. now rewrite Hne.
    + destruct (String.eqb k k0); auto.
Qed.

Lemma py_get_set_eq k v d : py_get k (dict_set k v d) = v.
Proof. unfold py_get. now rewrite dict_get_set_eq. Qed.

Lemma py_get_set_ne k k' v d : k <> k' -> py_get k (dict_set k' v d) = py_get k d.
Proof. intros H. unfold py_get. now rewrite dict_get_set_ne. Qed.

Lemma key_in_set k k' v d :
  key_in k' d = true -> key_in k (dict_set k' v d) = key_in k d.
Proof.
  intros Hin. unfold key_in in *. destruct (String.eqb k k') eqn:Hk.
  - apply String.eqb_eq in Hk. subst k'. rewrite dict_get_set_eq.
    destruct (dict_get k d); [reflexivity | discriminate].
  - apply String.eqb_neq in Hk. now rewrite dict_get_set_ne.
Qed.

(** A lookup below a top-level key only depends on that key. *)
Lemma dict_search_below k k1 rest (c c' : dict) :
  dict_get k c' = dict_get k c ->
  dict_search (k :: k1 :: rest) c' = dict_search (k :: k1 :: rest) c.
Proof. intros H. simpl. now rewrite H. Qed.

Lemma tls_frame_refl c : tls_frame c c.
Proof. unfold tls_frame. auto. Qed.

Lemma tls_frame_trans a b c : tls_frame a b -> tls_frame b c -> tls_frame a c.
Proof.
  intros (H1 & H2 & H3 & H4) (H1' & H2' & H3' & H4'). repeat split.
  - intros k Hk. rewrite H1', H1; auto.
  - congruence.
  - intros k Hc Hp. rewrite H3', H3; auto.
  - intros flag Hf. destruct (H4' flag Hf) as [-> | ->]; auto.
Qed.

Lemma set_tls_flag_inv flag c w c1 w1 :
  set_tls_flag flag c w = (Returned c1, w1) ->
  exists t, dict_get "tls" c = Some (VDict t) /\
            c1 = dict_set "tls" (VDict (dict_set flag (VBool true) t)) c.
Proof.
  unfold set_tls_flag. intros H. inv_bind H.
  apply getitem_returned_inv in H0 as [Ht ->].
  destruct a; try discriminate. inversion H. eauto.
Qed.

(** Setting one of the two flags stays within the frame. *)
Lemma set_tls_flag_frame flag c w c1 w1 :
  flag = "crl" \/ flag = "private_key" ->
  set_tls_flag flag c w = (Returned c1, w1) -> tls_frame c c1.
Proof.
  intros Hflag H. apply set_tls_flag_inv in H as [t [Ht ->]]. repeat split.
  - intros k Hk. now apply dict_get_set_ne.
  - apply key_in_set. unfold key_in. now rewrite Ht.
  - intros k Hc Hp. simpl. rewrite dict_get_set_eq, Ht.
    apply py_get_set_ne. destruct Hflag; congruence.
  - intros flag' Hf. simpl. rewrite dict_get_set_eq, Ht.
    destruct (String.eqb flag' flag) eqn:Heq.
    + apply String.eqb_eq in Heq. subst flag'. right. apply py_get_set_eq.
    + apply String.eqb_neq in Heq. left. now apply py_get_set_ne.
Qed.

(** Take a run that returned apart: sequences into their halves,
    conditionals into their branches, [ret] into its value. *)
Ltac inv_run H :=
  repeat
    (lazymatch type of H with
     | bind _ _ _ = (Returned _, _) =>
         let a := fresh "a" in
         let w := fresh "w" in
         let Hm := fresh "Hm" in
         apply bind_returned_inv in H; destruct H as (a & w & Hm & H)
     | (if ?b then _ else _) _ = (Returned _, _) => destruct b
     | ret _ _ = (Returned _, _) => inversion H; subst; clear H
     end).

Lemma generate_shared_secret_frame E ifname pki st w st' w' :
  generate_shared_secret E ifname pki st w = (Returned st', w') ->
  tls_frame (fst st) (fst st').
Proof.
  unfold generate_shared_secret. intros H. inv_run H; apply tls_frame_refl.
Qed.

Lemma generate_ca_frame E ifname pki st w st' w' :
  generate_ca E ifname pki st w = (Returned st', w') ->
  tls_frame (fst st) (fst st').
Proof.
  unfold generate_ca. intros H. inv_run H; try apply tls_frame_refl.
  all: simpl; eapply set_tls_flag_frame; [left; reflexivity | eassumption].
Qed.

Lemma generate_certificate_frame E ifname pki st w st' w' :
  generate_certificate E ifname pki st w = (Returned st', w') ->
  tls_frame (fst st) (fst st').
Proof.
  unfold generate_certificate. intros H. inv_run H; try apply tls_frame_refl.
  all: simpl; eapply set_tls_flag_frame; [right; reflexivity | eassumption].
Qed.

Lemma generate_dh_frame E ifname pki st w st' w' :
  generate_dh E ifname pki st w = (Returned st', w') ->
  tls_frame (fst st) (fst st').
Proof.
  unfold generate_dh. intros H. inv_run H; apply tls_frame_refl.
Qed.

Lemma generate_tls_key_frame E ifname pki key suffix st w st' w' :
  generate_tls_key E ifname pki key suffix st w = (Returned st', w') ->
  tls_frame (fst st) (fst st').
Proof.
  unfold generate_tls_key. intros H. inv_run H; apply tls_frame_refl.
Qed.

(** The same for every hypothesis about a run that returned. *)
Ltac inv_all :=
  repeat
    match goal with
    | H : bind _ _ _ = (Returned _, _) |- _ =>
        apply bind_returned_inv in H; destruct H as (? & ? & ? & H)
    | H : (if ?b then _ else _) _ = (Returned _, _) |- _ => destruct b
    | H : ret _ _ = (Returned _, _) |- _ => inversion H; subst; clear H
    end.

(** [generate_pki_files] changes the record within the frame of [tls]. *)
Lemma generate_pki_files_frame E c w files c1 w' :
  generate_pki_files E c w = (Returned (files, c1), w') -> tls_frame c c1.
Proof.
  unfold generate_pki_files. intros H. inv_all; try apply tls_frame_refl.
  all: repeat match goal with
       | H : generate_shared_secret _ _ _ _ _ = _ |- _ =>
           apply generate_shared_secret_frame in H
       | H : generate_ca _ _ _ _ _ = _ |- _ => apply generate_ca_frame in H
       | H : generate_certificate _ _ _ _ _ = _ |- _ =>
           apply generate_certificate_frame in H
       | H : generate_dh _ _ _ _ _ = _ |- _ => apply generate_dh_frame in H
       | H : generate_tls_key _ _ _ _ _ _ _ = _ |- _ =>
           apply generate_tls_key_frame in H
       end.
  all: simpl in *.
  all: repeat (eapply tls_frame_trans; [eassumption |]); apply tls_frame_refl.
Qed.

(** The loop over the clients returns every client record with the
    server subnets put into it. *)
Lemma generate_clients_inv E ccd_dir server_subnet clients : forall w clients' w',
  generate_clients E ccd_dir server_subnet clients w = (Returned clients', w') ->
  clients' = map (fun kv => (fst kv, with_server_subnet server_subnet (snd kv))) clients.
Proof.
  induction clients as [|[client client_config] clients IH]; intros w clients' w' H.
  - now inversion H.
  - cbn [generate_clients] in H.
    destruct client_config; try discriminate.
    inv_bind H. inv_bind H. inversion H; subst; clear H.
    simpl. f_equal. eapply IH. eassumption.
Qed.

Lemma dict_get_map_values (f : pyval -> pyval) d n :
  dict_get n (map (fun kv => (fst kv, f (snd kv))) d) = option_map f (dict_get n d).
Proof.
  induction d as [|[k v] d IH]; simpl; [reflexivity |].
  destruct (String.eqb n k); [reflexivity | exact IH].
Qed.

Lemma py_get_dict_inv k d l : py_get k d = VDict l -> dict_get k d = Some (VDict l).
Proof. unfold py_get. destruct (dict_get k d); [now intros -> | discriminate]. Qed.

(** A record within the frame of [tls] is a generated record. *)
Lemma tls_frame_generated c c1 : tls_frame c c1 -> generated_from c c1.
Proof.
  intros (H1 & H2 & H3 & H4).
  assert (Hserver : dict_get "server" c1 = dict_get "server" c) by (apply H1; discriminate).
  repeat split; auto.
  - intros k. destruct (String.eqb k "tls") eqn:Hk.
    + apply String.eqb_eq in Hk. now subst k.
    + apply String.eqb_neq in Hk. unfold key_in. now rewrite H1.
  - intros k _. now apply dict_search_below.
  - intros n k _. now apply dict_search_below.
  - intros n. left. now apply dict_search_below.
Qed.

Lemma generated_from_trans a b c :
  generated_from a b -> generated_from b c -> generated_from a c.
Proof.
  intros (H1 & H2 & H3 & H4 & H5 & H6 & H7) (H1' & H2' & H3' & H4' & H5' & H6' & H7').
  repeat split.
  - intros k. now rewrite H1'.
  - intros k Ht Hs. rewrite H2', H2; auto.
  - intros k Hc Hp. rewrite H3', H3; auto.
  - intros flag Hf. destruct (H4' flag Hf) as [-> | ->]; auto.
  - intros k Hk. rewrite H5', H5; auto.
  - intros n k Hk. rewrite H6', H6; auto.
  - intros n. destruct (H7' n) as [-> | ->]; [apply H7 |].
    right. apply H5. discriminate.
Qed.

(** Putting the server subnets into the client records of the server
    gives a generated record. *)
Lemma set_server_client_generated c clients :
  dict_search ["server"; "client"] c = VDict clients ->
  generated_from c
    (set_server_client
       (map (fun kv => (fst kv,
                        with_server_subnet (dict_search ["server"; "subnet"] c) (snd kv)))
            clients) c).
Proof.
  intros Hsc. cbn [dict_search] in Hsc.
  destruct (dict_get "server" c) as [[ | | | |server]|] eqn:Hserver; try discriminate.
  apply py_get_dict_inv in Hsc.
  unfold set_server_client. rewrite Hserver.
  set (subnet := dict_search ["server"; "subnet"] c).
  set (clients' := map _ clients).
  assert (Hin : key_in "server" c = true) by (unfold key_in; now rewrite Hserver).
  assert (Htls : dict_get "tls" (dict_set "server"
                   (VDict (dict_set "client" (VDict clients') server)) c)
                 = dict_get "tls" c) by (apply dict_get_set_ne; discriminate).
  repeat split.
  - intros k. now apply key_in_set.
  - intros k _ Hs. now apply dict_get_set_ne.
  - intros k _ _. now apply dict_search_below.
  - intros flag _. left. now apply dict_search_below.
  - intros k Hk. cbn [dict_search]. rewrite dict_get_set_eq, Hserver.
    now apply py_get_set_ne.
  - intros n k Hk. cbn [dict_search].
    rewrite dict_get_set_eq, Hserver, dict_get_set_eq, Hsc.
    unfold clients'. rewrite dict_get_map_values.
    destruct (dict_get n clients) as [[ | | | |cc]|]; simpl; try reflexivity.
    now apply py_get_set_ne.
  - intros n. cbn [dict_search].
    rewrite dict_get_set_eq, Hserver, dict_get_set_eq, Hsc.
    unfold clients'. rewrite dict_get_map_values.
    destruct (dict_get n clients) as [[ | | | |cc]|]; simpl; auto.
    right. rewrite py_get_set_eq. unfold subnet. cbn [dict_search].
    now rewrite Hserver.
Qed.

(** The record the generator returns is the accepted record but for the
    keys the generator writes. *)
Lemma generate_returned_record E c w c' w' :
  generate E c w = (Returned c', w') -> generated_from c c'.
Proof.
  intros H. unfold generate in H.
  inv_seq H as interface w1 Hname. inv_seq H as w1' w2 Hget. inv_seq H as u w3 Hrm.
  destruct (key_in "deleted" c || key_in "disable" c).
  { inversion H. apply tls_frame_generated, tls_frame_refl. }
  inv_seq H as w3' w4 Hget'. inv_seq H as u' w5 Hmk. inv_seq H as r w6 Hpki.
  destruct r as [fix_permissions c1]. cbn [fst snd] in H.
  apply generate_pki_files_frame, tls_frame_generated in Hpki.
  inv_seq H as u'' w7 Hauth. inv_seq H as c2 w8 Hclients.
  inv_seq H as u3 w9 Hrender. inv_seq H as u4 w10 Hperm.
  inversion H; subst; clear H.
  eapply generated_from_trans; [exact Hpki |].
  destruct (truthy (dict_search_args c1 ["server"; "client"])).
  2:{ inversion Hclients. apply tls_frame_generated, tls_frame_refl. }
  unfold dict_search_args in Hclients.
  destruct (dict_search ["server"; "client"] c1) as [ | | | |clients] eqn:Hsc;
    try discriminate.
  inv_seq Hclients as clients' w11 Hloop. inversion Hclients; subst; clear Hclients.
  apply generate_clients_inv in Hloop. subst clients'.
  now apply set_server_client_generated.
Qed.

(** ** The record the generator returns, exactly *)

Lemma subscript_item v key w x w' :
  subscript v key w = (Returned x, w') -> item v key = Some x /\ w' = w.
Proof.
  unfold subscript, item, orelse.
  destruct v as [ | s | vb | l | d]; destruct key as [ | k | kb | kl | kd ];
    try discriminate; intros H.
  - destruct (chars s !! _); inversion H; auto.
  - destruct (l !! _); inversion H; auto.
  - destruct (dict_get k d); inversion H; auto.
Qed.

Lemma has_key_dict k v w b w' :
  has_key k v w = (Returned b, w') ->
  w' = w /\ forall d, v = VDict d -> b = key_in k d.
Proof.
  unfold has_key, contains.
  destruct v as [ | s | vb | l | d]; try discriminate; cbn [hashable];
    intros H; inversion H; split; try reflexivity; try discriminate.
  now intros d' [= <-].
Qed.

Lemma item_falsy v k : truthy v = false -> item v (VStr k) = None.
Proof. destruct v as [ | s | vb | l | [|kv d]]; try reflexivity. discriminate. Qed.

Lemma has_key_false_item k v w w' :
  has_key k v w = (Returned false, w') -> item v (VStr k) = None.
Proof.
  intros H. apply has_key_dict in H as [_ H].
  destruct v as [ | s | vb | l | d]; try reflexivity.
  cbn [item]. specialize (H d eq_refl). unfold key_in in H.
  destruct (dict_get k d); [discriminate H | reflexivity].
Qed.

Lemma item_dict_inv v k x :
  item v (VStr k) = Some x -> exists d, v = VDict d /\ dict_get k d = Some x.
Proof. destruct v as [ | s | vb | l | d]; try discriminate. intros H. now exists d. Qed.

Lemma generate_ca_record E ifname st w st' w' :
  generate_ca E ifname (py_get "pki" (fst st)) st w = (Returned st', w') ->
  fst st' = if crl_listed (fst st) then with_tls_flag "crl" (fst st) else fst st.
Proof.
  unfold generate_ca, dict_search_args, crl_listed. cbv zeta.
  change (dict_search ["tls"] (fst st)) with (py_get "tls" (fst st)).
  intros H. inv_seq H as b w1 Hb. destruct b.
  - inv_seq H as cert_name w2 Hn. apply subscript_item in Hn as [Hn ->]. rewrite Hn.
    inv_seq H as cas w3 Hcas. apply subscript_item in Hcas as [Hcas ->]. rewrite Hcas.
    inv_seq H as pki_ca w4 Hca. apply subscript_item in Hca as [Hca ->]. rewrite Hca.
    inv_seq H as b1 w5 Hb1. inv_seq H as files w6 Hfiles. inv_seq H as b2 w7 Hb2.
    apply has_key_dict in Hb2 as [-> Hb2]. destruct b2.
    + inv_seq H as crls w8 Hcrls. apply subscript_item in Hcrls as [Hcrls _].
      apply item_dict_inv in Hcrls as (ca & -> & Hcrl).
      unfold key_in. rewrite Hcrl.
      inv_seq H as crls' w9 Hit. inv_seq H as u w10 Hloop. inv_seq H as c1 w11 Hflag.
      inversion H; subst; clear H. cbn [fst].
      apply set_tls_flag_inv in Hflag as (t & Ht & ->).
      unfold with_tls_flag. now rewrite Ht.
    + inversion H; subst; clear H. cbn [fst].
      destruct pki_ca as [ | s | vb | l | ca]; try reflexivity.
      now rewrite <- (Hb2 ca eq_refl).
  - inversion H; subst; clear H. now rewrite (has_key_false_item _ _ _ _ Hb).
Qed.

Lemma generate_certificate_record E ifname st w st' w' :
  generate_certificate E ifname (py_get "pki" (fst st)) st w = (Returned st', w') ->
  fst st' = if private_key_held (fst st) then with_tls_flag "private_key" (fst st)
            else fst st.
Proof.
  unfold generate_certificate, dict_search_args, private_key_held. cbv zeta.
  change (dict_search ["tls"] (fst st)) with (py_get "tls" (fst st)).
  intros H. inv_seq H as b w1 Hb. destruct b.
  - inv_seq H as cert_name w2 Hn. apply subscript_item in Hn as [Hn ->]. rewrite Hn.
    inv_seq H as certs w3 Hcerts. apply subscript_item in Hcerts as [Hcerts ->].
    rewrite Hcerts.
    inv_seq H as pki_cert w4 Hcert. apply subscript_item in Hcert as [Hcert ->].
    rewrite Hcert.
    inv_seq H as b1 w5 Hb1. inv_seq H as files w6 Hfiles. inv_seq H as b2 w7 Hb2.
    apply has_key_dict in Hb2 as [-> Hb2].
    inv_seq H as has_private_key w8 Hhas. destruct has_private_key.
    + inv_seq H as u w9 Hwrite. inv_seq H as c1 w10 Hflag.
      inversion H; subst; clear H. cbn [fst].
      unfold write_wrapped in Hwrite.
      inv_seq Hwrite as u0 w11 Htrunc. inv_seq Hwrite as v w12 Hmat.
      inv_seq Hmat as private w13 Hpriv.
      apply subscript_item in Hpriv as [Hpriv _].
      apply item_dict_inv in Hpriv as (cert & -> & Hpriv). rewrite Hpriv.
      apply subscript_item in Hmat as [Hmat _].
      apply item_dict_inv in Hmat as (pr & -> & Hkey).
      unfold key_in. rewrite Hkey.
      apply set_tls_flag_inv in Hflag as (t & Ht & ->).
      unfold with_tls_flag. now rewrite Ht.
    + inversion H; subst; clear H. cbn [fst].
      destruct pki_cert as [ | s | vb | l | cert]; try reflexivity.
      specialize (Hb2 cert eq_refl). destruct b2.
      * inv_seq Hhas as private w9 Hpriv. apply subscript_item in Hpriv as [Hpriv ->].
        cbn [item] in Hpriv. rewrite Hpriv.
        apply has_key_dict in Hhas as [_ Hhas].
        destruct private as [ | s | vb | l | pr]; try reflexivity.
        now rewrite <- (Hhas pr eq_refl).
      * unfold key_in in Hb2. destruct (dict_get "private" cert); [discriminate Hb2 |].
        reflexivity.
  - inversion H; subst; clear H. now rewrite (has_key_false_item _ _ _ _ Hb).
Qed.

Lemma generate_shared_secret_record E ifname pki st w st' w' :
  generate_shared_secret E ifname pki st w = (Returned st', w') -> fst st' = fst st.
Proof. unfold generate_shared_secret. intros H. inv_run H; reflexivity. Qed.

Lemma generate_dh_record E ifname pki st w st' w' :
  generate_dh E ifname pki st w = (Returned st', w') -> fst st' = fst st.
Proof. unfold generate_dh. intros H. inv_run H; reflexivity. Qed.

Lemma generate_tls_key_record E ifname pki key suffix st w st' w' :
  generate_tls_key E ifname pki key suffix st w = (Returned st', w') -> fst st' = fst st.
Proof. unfold generate_tls_key. intros H. inv_run H; reflexivity. Qed.

Lemma py_get_with_tls_flag k flag c :
  k <> "tls" -> py_get k (with_tls_flag flag c) = py_get k c.
Proof.
  intros Hk. unfold with_tls_flag.
  destruct (dict_get "tls" c) as [[ | | | |t]|]; try reflexivity.
  now apply py_get_set_ne.
Qed.

(** [generate_pki_files] sets the two flags of [tls], each when its
    entry of the PKI subtree is there, and leaves the record alone
    otherwise. *)
Lemma generate_pki_files_record E c w files c1 w' :
  generate_pki_files E c w = (Returned (files, c1), w') ->
  c1 = (let c0 := if crl_listed c then with_tls_flag "crl" c else c in
        if private_key_held c0 then with_tls_flag "private_key" c0 else c0).
Proof.
  unfold generate_pki_files. intros H. cbv zeta.
  inv_seq H as pki w1 Hpki. apply getitem_returned_inv in Hpki as [Hpki ->].
  assert (Hp : py_get "pki" c = pki) by (unfold py_get; now rewrite Hpki).
  destruct (truthy pki) eqn:Htruthy; cbn [negb] in H.
  2:{ assert (c1 = c) as -> by (now inversion H). clear H.
      rewrite <- Hp in Htruthy.
      assert (Hcrl : crl_listed c = false).
      { unfold crl_listed. rewrite (item_falsy _ "ca" Htruthy).
        now destruct (item (py_get "tls" c) (VStr "ca_certificate")). }
      assert (Hkey : private_key_held c = false).
      { unfold private_key_held. rewrite (item_falsy _ "certificate" Htruthy).
        now destruct (item (py_get "tls" c) (VStr "certificate")). }
      now rewrite Hcrl, Hkey. }
  inv_seq H as ifname w2 Hname. inv_seq H as st1 w3 Hs.
  apply generate_shared_secret_record in Hs. cbn [fst] in Hs.
  inv_seq H as st2 w4 Ht. assert (c1 = fst st2) as -> by (now inversion H). clear H.
  destruct (truthy (dict_search_args (fst st1) ["tls"])) eqn:Htls.
  - inv_seq Ht as sa wa Ha. inv_seq Ht as sb wb Hb. inv_seq Ht as sc wc Hc.
    inv_seq Ht as sd wd Hd.
    apply generate_tls_key_record in Ht. apply generate_tls_key_record in Hd.
    apply generate_dh_record in Hc. rewrite Ht, Hd, Hc.
    rewrite <- Hp, <- Hs in Ha. apply generate_ca_record in Ha. rewrite Hs in Ha.
    assert (Hpa : py_get "pki" (fst sa) = pki).
    { rewrite Ha. destruct (crl_listed c); [| exact Hp].
      rewrite py_get_with_tls_flag by discriminate. exact Hp. }
    rewrite <- Hpa in Hb. apply generate_certificate_record in Hb.
    rewrite Hb, Ha. reflexivity.
  - assert (st2 = st1) as -> by (now inversion Ht). clear Ht. rewrite Hs.
    rewrite Hs in Htls. unfold dict_search_args in Htls.
    change (dict_search ["tls"] c) with (py_get "tls" c) in Htls.
    unfold private_key_held, crl_listed.
    now rewrite !(item_falsy _ _ Htls).
Qed.

(** What [generate] returns is the record it was given when the
    interface is deleted or disabled, and otherwise that record with the
    two flags of [tls] set and the server subnets put into every client
    record. *)
Lemma generate_returned_exact E c w c' w' :
  generate E c w = (Returned c', w') ->
  c' = if key_in "deleted" c || key_in "disable" c then c else generated_record c.
Proof.
  intros H. unfold generate in H.
  inv_seq H as interface w1 Hname. inv_seq H as w1' w2 Hget. inv_seq H as u w3 Hrm.
  destruct (key_in "deleted" c || key_in "disable" c); [now inversion H |].
  inv_seq H as w3' w4 Hget'. inv_seq H as u' w5 Hmk. inv_seq H as r w6 Hpki.
  destruct r as [fix_permissions c1]. cbn [fst snd] in H.
  apply generate_pki_files_record in Hpki. cbv zeta in Hpki.
  inv_seq H as u'' w7 Hauth. inv_seq H as c2 w8 Hclients.
  inv_seq H as u3 w9 Hrender. inv_seq H as u4 w10 Hperm.
  inversion H; subst c2; clear H.
  unfold generated_record. cbv zeta. rewrite <- Hpki.
  unfold with_client_subnets. unfold dict_search_args in Hclients.
  destruct (dict_search ["server"; "client"] c1) as [ | s | b | l | clients] eqn:Hsc;
    cbn [truthy] in Hclients.
  - now inversion Hclients.
  - destruct (negb (String.eqb s EmptyString)); [discriminate Hclients |].
    now inversion Hclients.
  - destruct b; [discriminate Hclients | now inversion Hclients].
  - destruct l; [now inversion Hclients | discriminate Hclients].
  - destruct clients as [|kv clients]; [now inversion Hclients |].
    inv_seq Hclients as clients' w11 Hloop. inversion Hclients; subst c'; clear Hclients.
    apply generate_clients_inv in Hloop. now subst clients'.
Qed.

(** C8 (amended): running the generator leaves every field of the
    accepted record equal to its value at acceptance time, except for
    three keys the generator writes into the record itself: the flag
    [crl] of the [tls] sub-record, which it sets to True when the CA
    certificate that [tls] names has a CRL entry in the PKI subtree, the
    flag [private_key], which it sets to True when the certificate that
    [tls] names has a private key, and the key [server_subnet] of every
    client record of the server, into which it puts the server subnets.
    The record returned is exactly the accepted record with these keys
    written: no key and no client record is added, dropped or moved.  For
    a deleted or disabled interface it is the accepted record itself. *)
Theorem C8_generator_changes_only_its_own_keys E c w c' :
  fst (generate E c w) = Returned c' ->
  c' = (if key_in "deleted" c || key_in "disable" c then c else generated_record c) /\
  generated_from c c'.
Proof.
  intros H. apply fst_returned in H. split.
  - exact (generate_returned_exact E c w c' _ H).
  - exact (generate_returned_record E c w c' _ H).
Qed.

(** C8, as stated, fails: for an accepted server configuration the
    generator returns a record that differs from the accepted one in the
    [tls] sub-record (both flags are now True) and in the client record
    of [alice] (it now carries the server subnets). *)
Lemma C8_counterexample :
  fst (verify demo_externals totp_server empty_world) = Returned tt /\
  exists c',
    fst (generate demo_externals totp_server
           (snd (verify demo_externals totp_server empty_world))) = Returned c' /\
    c' <> totp_server /\
    dict_search ["tls"; "crl"] totp_server = VNone /\
    dict_search ["tls"; "crl"] c' = VBool true /\
    dict_search ["tls"; "private_key"] totp_server = VNone /\
    dict_search ["tls"; "private_key"] c' = VBool true /\
    dict_search ["server"; "client"; "alice"; "server_subnet"] totp_server = VNone /\
    dict_search ["server"; "client"; "alice"; "server_subnet"] c'
      = VList [VStr "10.8.0.0/24"].
Proof.
  split; [vm_compute; reflexivity |].
  eexists. split; [vm_compute; reflexivity |].
  split; [intros Heq; discriminate Heq |].
  repeat split; vm_compute; reflexivity.
Qed.

(** The theorem at an accepted TOTP server. *)
Lemma C8_witness :
  exists c',
    fst (generate demo_externals totp_server empty_world) = Returned c' /\
    c' = generated_record totp_server /\
    generated_from totp_server c'.
Proof.
  eexists. split; [vm_compute; reflexivity |].
  apply (C8_generator_changes_only_its_own_keys demo_externals totp_server empty_world).
  vm_compute; reflexivity.
Defined.


(** * What an accepted configuration satisfies

    Each group of checks of [verify] is read backwards: a run that came
    out of the group without a rejection and without an exception went
    past every [raise] of the group. *)

Lemma when_reject_returned_inv b e w u w' :
  when b (reject e) w = (Returned u, w') -> b = false /\ w' = w.
Proof. destruct b; simpl; intros H; [discriminate | inversion H; auto]. Qed.

Lemma orelse_returned_inv {A} x (o : option A) w a w' :
  orelse x o w = (Returned a, w') -> o = Some a /\ w' = w.
Proof. destruct o; simpl; intros H; inversion H; auto. Qed.

Lemma is_str_eq v s : is_str v s = true <-> v = VStr s.
Proof.
  unfold is_str. destruct v; simpl; try (split; intros H; discriminate).
  rewrite String.eqb_eq. split; [now intros -> | now intros [= ->]].
Qed.

Lemma is_str_neq v s : is_str v s = false <-> v <> VStr s.
Proof.
  rewrite <- is_str_eq. destruct (is_str v s); split; intros H; congruence.
Qed.

(** Take the checks of a run that returned apart: every [raise] that was
    passed gives the negation of its condition. *)
Ltac inv_checks :=
  repeat match goal with
  | H : bind _ _ _ = (Returned _, _) |- _ =>
      apply bind_returned_inv in H; destruct H as (? & ? & ? & H)
  | H : when _ (reject _) _ = (Returned _, _) |- _ =>
      apply when_reject_returned_inv in H; destruct H as [? ?]; subst
  | H : getitem _ _ _ = (Returned _, _) |- _ =>
      apply getitem_returned_inv in H; destruct H as [? ?]; subst
  | H : orelse _ _ _ = (Returned _, _) |- _ =>
      apply orelse_returned_inv in H; destruct H as [? ?]; subst
  | H : ret _ _ = (Returned _, _) |- _ => inversion H; subst; clear H
  | H : reject _ _ = (Returned _, _) |- _ => discriminate H
  | H : throw _ _ = (Returned _, _) |- _ => discriminate H
  end.

(** The stages an accepted configuration went through. *)
Lemma accepted_stages E c w :
  key_in "deleted" c = false ->
  fst (verify E c w) = Returned tt ->
  exists mode w1 w2 w3,
    dict_get "mode" c = Some mode /\
    verify_mode E c mode w = (Returned tt, w1) /\
    (if is_str mode "server" then verify_server E c else verify_not_server c) w1
      = (Returned tt, w2) /\
    verify_rest E c mode w2 = (Returned tt, w3).
Proof.
  intros Hdel H. apply fst_returned in H.
  apply (verify_returned_inv E c w tt _ Hdel) in H
    as (mode & w1 & w2 & Hm & Hmode & Hsrv & Hrest).
  eauto 10.
Qed.

(** The checks that do not depend on the mode, one by one. *)
Lemma verify_rest_stages E c mode w w' :
  verify_rest E c mode w = (Returned tt, w') ->
  exists w1 w2 w3 w4,
    verify_common E c w = (Returned tt, w1) /\
    verify_tls E c mode w1 = (Returned tt, w2) /\
    verify_pki E c w3 = (Returned tt, w4) /\
    verify_auth c w4 = (Returned tt, w4) /\
    verify_vrf E c w4 = (Returned tt, w').
Proof.
  intros H. unfold verify_rest in H.
  inv_seq H as u1 w1 Hcommon. inv_seq H as u2 w2 Htls. inv_seq H as u3 w3 Hwarn.
  inv_seq H as u4 w4 Hpki. inv_seq H as u5 w5 Hauth.
  destruct u1, u2, u4, u5.
  assert (w5 = w4) as ->.
  { unfold verify_auth in Hauth. inv_checks. reflexivity. }
  eauto 12.
Qed.

(** ** Client mode (lines 189-203) *)

(** The client-mode group passes exactly on the records that have no
    local port and no local host, have a remote host, a protocol other
    than tcp-passive, and no DH parameters under [tls]; so every accepted
    client configuration is of this kind. *)
Theorem client_mode_accepted E c :
  key_in "deleted" c = false ->
  dict_get "mode" c = Some (VStr "client") ->
  let rules :=
    key_in "local_port" c = false /\
    key_in "local_host" c = false /\
    key_in "remote_host" c = true /\
    (exists protocol, dict_get "protocol" c = Some protocol /\
                      protocol <> VStr "tcp-passive") /\
    truthy (dict_search ["tls"; "dh_params"] c) = false in
  (forall w, verify_client c w = (Returned tt, w) <-> rules) /\
  (forall w, fst (verify E c w) = Returned tt -> rules).
Proof.
  intros Hdel Hmode rules.
  assert (Hblock : forall w w', verify_client c w = (Returned tt, w') -> rules).
  { intros w w' H. unfold verify_client in H. inv_checks.
    repeat split; auto.
    - now destruct (key_in "remote_host" c).
    - eexists. split; [eassumption |]. now apply is_str_neq. }
  split.
  - intros w. split; [apply Hblock |].
    intros (Hlp & Hlh & Hrh & (protocol & Hp & Hne) & Hdh).
    unfold verify_client, getitem. rewrite Hlp, Hlh, Hrh, Hp, Hdh.
    apply is_str_neq in Hne. cbn. now rewrite Hne.
  - intros w Hacc.
    destruct (accepted_stages E c w Hdel Hacc) as (mode & w1 & w2 & w3 & Hm & Hv & _).
    rewrite Hmode in Hm. injection Hm as <-.
    exact (Hblock _ _ Hv).
Qed.

(** The theorem at a client that is accepted. *)
Lemma client_mode_accepted_witness :
  (key_in "deleted" demo_client = false /\
   dict_get "mode" demo_client = Some (VStr "client") /\
   fst (verify demo_externals demo_client empty_world) = Returned tt) /\
  key_in "local_port" demo_client = false /\
  key_in "local_host" demo_client = false /\
  key_in "remote_host" demo_client = true /\
  (exists protocol, dict_get "protocol" demo_client = Some protocol /\
                    protocol <> VStr "tcp-passive") /\
  truthy (dict_search ["tls"; "dh_params"] demo_client) = false.
Proof.
  split; [repeat split; vm_compute; reflexivity |].
  apply (proj2 (client_mode_accepted demo_externals demo_client eq_refl eq_refl) empty_world).
  vm_compute; reflexivity.
Defined.

(** ** Site-to-site mode (lines 208-267) *)

Lemma py_iter_returned_inv v w l w' :
  py_iter v w = (Returned l, w') ->
  w' = w /\ forall w0, py_iter v w0 = (Returned l, w0).
Proof.
  destruct v; simpl; intros H; inversion H; subst; auto.
Qed.

Lemma contains_returned_inv a b w r w' :
  contains a b w = (Returned r, w') ->
  w' = w /\ forall w0, contains a b w0 = (Returned r, w0).
Proof.
  unfold contains.
  destruct b as [ | s | vb | l | d]; try discriminate.
  - destruct a; try discriminate; intros H; inversion H; subst; auto.
  - intros H; inversion H; subst; auto.
  - destruct (hashable a); try discriminate. intros H; inversion H; subst; auto.
Qed.

Lemma subscript_returned_inv v k w r w' :
  subscript v k w = (Returned r, w') ->
  w' = w /\ forall w0, subscript v k w0 = (Returned r, w0).
Proof.
  unfold subscript.
  destruct v as [ | s | vb | l | d]; destruct k as [ | k | kb | kl | kd ]; try discriminate;
    intros H; apply orelse_returned_inv in H as [Ho ->]; rewrite Ho; auto.
Qed.

Lemma more_than_one_false p l :
  more_than_one p l = false <-> (length (List.filter p l) <= 1)%nat.
Proof. unfold more_than_one. rewrite Z.ltb_ge. lia. Qed.

(** A list with at most one element that holds a given element is the
    list of that element. *)
Lemma at_most_one_elem {A} (x : A) l : (length l <= 1)%nat -> In x l -> l = [x].
Proof.
  destruct l as [|y [|z l]]; simpl; intros Hlen Hin.
  - destruct Hin.
  - destruct Hin as [-> | []]. reflexivity.
  - lia.
Qed.

Lemma dict_get_in_keys k (d : dict) v :
  dict_get k d = Some v -> In (VStr k) (map (fun kv => VStr (fst kv)) d).
Proof.
  induction d as [|[k' v'] d IH]; simpl; [discriminate |].
  destruct (String.eqb_spec k k') as [->|Hne]; [now left | right; auto].
Qed.

(** Every accepted site-to-site configuration has a local address, even
    when the interface is a bridge member; it has at most one IPv4 and at
    most one IPv6 local address; on a tun device it has a remote address;
    on a tap device the entry of its IPv4 local address carries a subnet
    mask; and it lists no NCP ciphers. *)
Theorem site_to_site_accepted E c w :
  key_in "deleted" c = false ->
  dict_get "mode" c = Some (VStr "site-to-site") ->
  fst (verify E c w) = Returned tt ->
  exists local_address local_addrs device_type,
    dict_get "local_address" c = Some local_address /\
    (forall w0, py_iter local_address w0 = (Returned local_addrs, w0)) /\
    (length (List.filter is_ipv4 local_addrs) <= 1)%nat /\
    (length (List.filter (is_ipv6 E) local_addrs) <= 1)%nat /\
    dict_get "device_type" c = Some device_type /\
    (device_type = VStr "tun" -> key_in "remote_address" c = true) /\
    (device_type = VStr "tap" ->
     forall la k e, local_address = VDict la -> dict_get k la = Some (VDict e) ->
                    is_ipv4 (VStr k) = true -> key_in "subnet_mask" e = true) /\
    truthy (dict_search ["encryption"; "ncp_ciphers"] c) = false.
Proof.
  intros Hdel Hmode Hacc.
  destruct (accepted_stages E c w Hdel Hacc) as (mode & w1 & w2 & w3 & Hm & Hv & _).
  rewrite Hmode in Hm. injection Hm as <-.
  unfold verify_mode in Hv. cbn [is_str py_eqb String.eqb Ascii.eqb Bool.eqb] in Hv.
  unfold verify_site_to_site in Hv.
  inv_seq Hv as u1 x1 H1. inv_seq Hv as local_address x2 Hla.
  apply getitem_returned_inv in Hla as [Hla ->].
  inv_seq Hv as local_addrs x3 Hiter. apply py_iter_returned_inv in Hiter as [-> Hiter].
  inv_seq Hv as u2 x4 Hv4. apply when_reject_returned_inv in Hv4 as [Hv4 ->].
  inv_seq Hv as u3 x5 Hv6. apply when_reject_returned_inv in Hv6 as [Hv6 ->].
  inv_seq Hv as device_type x6 Hdt. apply getitem_returned_inv in Hdt as [Hdt ->].
  inv_seq Hv as u4 x7 Htun. inv_seq Hv as u5 x8 Hrem.
  inv_seq Hv as device_type' x9 Hdt'. apply getitem_returned_inv in Hdt' as [Hdt' ->].
  rewrite Hdt in Hdt'. injection Hdt' as <-.
  inv_seq Hv as u6 x10 Htap. apply when_reject_returned_inv in Hv as [Hncp _].
  exists local_address, local_addrs, device_type.
  apply more_than_one_false in Hv4, Hv6.
  repeat split; auto.
  - intros ->. cbn in Htun. apply when_reject_returned_inv in Htun as [Hra _].
    now destruct (key_in "remote_address" c).
  - intros -> la k e -> Hk Hip. cbn [is_str py_eqb String.eqb Ascii.eqb Bool.eqb when] in Htap.
    unfold verify_tap_subnet_mask in Htap.
    inv_seq Htap as la' y1 Hla'. apply getitem_returned_inv in Hla' as [Hla' ->].
    rewrite Hla in Hla'. injection Hla' as <-.
    inv_seq Htap as ls y2 Hit. rewrite Hiter in Hit. injection Hit as <- <-.
    inv_seq Htap as la' y3 Hla'. apply getitem_returned_inv in Hla' as [Hla' ->].
    rewrite Hla in Hla'. injection Hla' as <-.
    specialize (Hiter x7). cbn [py_iter] in Hiter. injection Hiter as <-.
    assert (Hone : List.filter is_ipv4 (map (fun kv => VStr (fst kv)) la) = [VStr k]).
    { apply at_most_one_elem; [exact Hv4 |].
      apply filter_In. split; [eapply dict_get_in_keys; eassumption | exact Hip]. }
    rewrite Hone in Htap.
    inv_seq Htap as b y4 Hc. cbn in Hc. unfold key_in in Hc. rewrite Hk in Hc.
    injection Hc as <- <-. cbn [when] in Htap.
    inv_seq Htap as entry y5 Hentry. cbn in Hentry. rewrite Hk in Hentry.
    injection Hentry as <- <-.
    inv_seq Htap as b y6 Hmask. cbn in Hmask. injection Hmask as <- <-.
    apply when_reject_returned_inv in Htap as [Hb _].
    now destruct (key_in "subnet_mask" e).
Qed.

(** The theorem at a tun peer with a shared secret. *)
Lemma site_to_site_accepted_witness :
  (key_in "deleted" site_to_site_with_secret = false /\
   dict_get "mode" site_to_site_with_secret = Some (VStr "site-to-site") /\
   fst (verify demo_externals site_to_site_with_secret empty_world) = Returned tt) /\
  exists local_address local_addrs device_type,
    dict_get "local_address" site_to_site_with_secret = Some local_address /\
    (forall w0, py_iter local_address w0 = (Returned local_addrs, w0)) /\
    (length (List.filter is_ipv4 local_addrs) <= 1)%nat /\
    (length (List.filter (is_ipv6 demo_externals) local_addrs) <= 1)%nat /\
    dict_get "device_type" site_to_site_with_secret = Some device_type /\
    (device_type = VStr "tun" -> key_in "remote_address" site_to_site_with_secret = true) /\
    (device_type = VStr "tap" ->
     forall la k e, local_address = VDict la -> dict_get k la = Some (VDict e) ->
                    is_ipv4 (VStr k) = true -> key_in "subnet_mask" e = true) /\
    truthy (dict_search ["encryption"; "ncp_ciphers"] site_to_site_with_secret) = false.
Proof.
  split; [repeat split; vm_compute; reflexivity |].
  apply (site_to_site_accepted demo_externals site_to_site_with_secret empty_world);
    vm_compute; reflexivity.
Defined.

(** Truthiness of a list. *)
Lemma truthy_list_nil (l : list pyval) : truthy (VList l) = false <-> l = [].
Proof. destruct l; simpl; split; intros H; congruence. Qed.

(** Every accepted site-to-site configuration with a remote address has
    exactly one IPv4 local address and exactly one IPv4 remote address,
    and the two differ: a pair without IPv4 addresses does not pass the
    comparison of the two (empty) IPv4 lists.  It has at most one IPv6
    remote address, IPv6 on both sides or on none, and neither its local
    host among its local addresses nor its remote host among its remote
    addresses. *)
Theorem site_to_site_remote_address_accepted E c w :
  key_in "deleted" c = false ->
  dict_get "mode" c = Some (VStr "site-to-site") ->
  key_in "remote_address" c = true ->
  fst (verify E c w) = Returned tt ->
  exists la ls ra rs,
    dict_get "local_address" c = Some la /\
    (forall w0, py_iter la w0 = (Returned ls, w0)) /\
    dict_get "remote_address" c = Some ra /\
    (forall w0, py_iter ra w0 = (Returned rs, w0)) /\
    length (List.filter is_ipv4 ls) = 1%nat /\
    length (List.filter is_ipv4 rs) = 1%nat /\
    py_eqb (VList (List.filter is_ipv4 ls)) (VList (List.filter is_ipv4 rs)) = false /\
    (length (List.filter (is_ipv6 E) rs) <= 1)%nat /\
    (List.filter (is_ipv6 E) ls = [] <-> List.filter (is_ipv6 E) rs = []) /\
    (forall w0, contains (py_get "local_host" c) la w0 = (Returned false, w0)) /\
    (forall w0, contains (py_get "remote_host" c) ra w0 = (Returned false, w0)).
Proof.
  intros Hdel Hmode Hra Hacc.
  destruct (accepted_stages E c w Hdel Hacc) as (mode & w1 & w2 & w3 & Hm & Hv & _).
  rewrite Hmode in Hm. injection Hm as <-.
  unfold verify_mode in Hv. cbn [is_str py_eqb String.eqb Ascii.eqb Bool.eqb] in Hv.
  unfold verify_site_to_site in Hv.
  inv_seq Hv as u1 x1 H1. inv_seq Hv as la x2 Hla.
  apply getitem_returned_inv in Hla as [Hla ->].
  inv_seq Hv as ls x3 Hiter. apply py_iter_returned_inv in Hiter as [-> Hiter].
  inv_seq Hv as u2 x4 Hv4. apply when_reject_returned_inv in Hv4 as [Hv4 ->].
  inv_seq Hv as u3 x5 Hv6. apply when_reject_returned_inv in Hv6 as [Hv6 ->].
  inv_seq Hv as device_type x6 Hdt. inv_seq Hv as u4 x7 Htun.
  inv_seq Hv as u5 x8 Hrem. clear Hv.
  rewrite Hra in Hrem. cbn [when] in Hrem. unfold verify_remote_address in Hrem.
  inv_seq Hrem as ra y1 Hget. apply getitem_returned_inv in Hget as [Hget ->].
  inv_seq Hrem as rs y2 Hit. apply py_iter_returned_inv in Hit as [-> Hit].
  inv_seq Hrem as u6 y3 Hr4. apply when_reject_returned_inv in Hr4 as [Hr4 ->].
  inv_seq Hrem as u7 y4 Hr6. apply when_reject_returned_inv in Hr6 as [Hr6 ->].
  inv_seq Hrem as u8 y5 Hloc. apply when_reject_returned_inv in Hloc as [_ ->].
  inv_seq Hrem as u9 y6 Hp4. inv_seq Hrem as u10 y7 Hp6.
  inv_seq Hrem as u11 y8 Hsame. apply when_reject_returned_inv in Hsame as [Hsame ->].
  inv_seq Hrem as b1 y9 Hc1. apply contains_returned_inv in Hc1 as [-> Hc1].
  inv_seq Hrem as u12 y10 Hb1. apply when_reject_returned_inv in Hb1 as [-> ->].
  inv_seq Hrem as b2 y11 Hc2. apply contains_returned_inv in Hc2 as [-> Hc2].
  apply when_reject_returned_inv in Hrem as [-> _].
  apply more_than_one_false in Hv4, Hv6, Hr4, Hr6.
  apply orb_false_elim in Hsame as [Hsame _].
  assert (Hpair4 : truthy (VList (List.filter is_ipv4 ls))
                   = truthy (VList (List.filter is_ipv4 rs))).
  { destruct (truthy (VList (List.filter is_ipv4 ls))),
             (truthy (VList (List.filter is_ipv4 rs)));
      cbn in Hp4; try reflexivity; discriminate. }
  assert (Hpair6 : truthy (VList (List.filter (is_ipv6 E) ls))
                   = truthy (VList (List.filter (is_ipv6 E) rs))).
  { destruct (truthy (VList (List.filter (is_ipv6 E) ls))),
             (truthy (VList (List.filter (is_ipv6 E) rs)));
      cbn in Hp6; try reflexivity; discriminate. }
  assert (Hne : List.filter is_ipv4 ls <> [] /\ List.filter is_ipv4 rs <> []).
  { destruct (List.filter is_ipv4 ls) as [|a l4], (List.filter is_ipv4 rs) as [|b r4];
      cbn in Hpair4, Hsame; try discriminate. split; discriminate. }
  exists la, ls, ra, rs.
  assert (Hsl : dict_search ["local_address"] c = la)
    by (cbn; unfold py_get; now rewrite Hla).
  assert (Hsr : dict_search ["remote_address"] c = ra)
    by (cbn; unfold py_get; now rewrite Hget).
  rewrite Hsl in Hc1. rewrite Hsr in Hc2.
  repeat split; auto.
  - destruct Hne as [Hne _]. destruct (List.filter is_ipv4 ls) as [|a [|b l4]];
      simpl in *; try lia. congruence.
  - destruct Hne as [_ Hne]. destruct (List.filter is_ipv4 rs) as [|a [|b l4]];
      simpl in *; try lia. congruence.
  - intros H6. rewrite H6 in Hpair6. symmetry in Hpair6.
    now apply truthy_list_nil in Hpair6.
  - intros H6. rewrite H6 in Hpair6. now apply truthy_list_nil in Hpair6.
Qed.

(** The theorem at a tun peer with a shared secret. *)
Lemma site_to_site_remote_address_accepted_witness :
  (key_in "deleted" site_to_site_with_secret = false /\
   dict_get "mode" site_to_site_with_secret = Some (VStr "site-to-site") /\
   key_in "remote_address" site_to_site_with_secret = true /\
   fst (verify demo_externals site_to_site_with_secret empty_world) = Returned tt) /\
  exists la ls ra rs,
    dict_get "local_address" site_to_site_with_secret = Some la /\
    (forall w0, py_iter la w0 = (Returned ls, w0)) /\
    dict_get "remote_address" site_to_site_with_secret = Some ra /\
    (forall w0, py_iter ra w0 = (Returned rs, w0)) /\
    length (List.filter is_ipv4 ls) = 1%nat /\
    length (List.filter is_ipv4 rs) = 1%nat /\
    py_eqb (VList (List.filter is_ipv4 ls)) (VList (List.filter is_ipv4 rs)) = false /\
    (length (List.filter (is_ipv6 demo_externals) rs) <= 1)%nat /\
    (List.filter (is_ipv6 demo_externals) ls = [] <->
     List.filter (is_ipv6 demo_externals) rs = []) /\
    (forall w0, contains (py_get "local_host" site_to_site_with_secret) la w0
                = (Returned false, w0)) /\
    (forall w0, contains (py_get "remote_host" site_to_site_with_secret) ra w0
                = (Returned false, w0)).
Proof.
  split; [repeat split; vm_compute; reflexivity |].
  apply (site_to_site_remote_address_accepted demo_externals site_to_site_with_secret
           empty_world); vm_compute; reflexivity.
Defined.

(** ** Server mode (lines 269-320) *)

(** A loop that returned ran its body to the end on every element. *)
Lemma for_each_returned_inv {A} (l : list A) (body : A -> M unit) :
  forall w u w', for_each l body w = (Returned u, w') ->
  forall x, In x l -> exists w1 w2, body x w1 = (Returned tt, w2).
Proof.
  induction l as [|y l IH]; intros w u w' H x Hin; [destruct Hin |].
  cbn [for_each] in H. inv_seq H as u1 w1 Hy.
  destruct Hin as [<- | Hin].
  - destruct u1. eauto.
  - eapply IH; eassumption.
Qed.

(** The stages of the server group. *)
Lemma verify_server_stages E c w w' :
  verify_server E c w = (Returned tt, w') ->
  exists w1 w2 w3 w4 size,
    (exists protocol, dict_get "protocol" c = Some protocol /\
                      protocol <> VStr "tcp-active") /\
    key_in "remote_port" c = false /\
    key_in "remote_host" c = false /\
    verify_server_subnet E c w = (Returned tt, w1) /\
    verify_server_clients c w1 = (Returned tt, w2) /\
    verify_client_ip_pool c w2 = (Returned size, w3) /\
    verify_ipv6_pool E c size w3 = (Returned tt, w4) /\
    update_otp_file E c w4 = (Returned tt, w').
Proof.
  intros H. unfold verify_server in H.
  inv_seq H as protocol x1 Hp. apply getitem_returned_inv in Hp as [Hp ->].
  inv_seq H as u1 x2 Ha. apply when_reject_returned_inv in Ha as [Ha ->].
  inv_seq H as u2 x3 Hrp. apply when_reject_returned_inv in Hrp as [Hrp ->].
  inv_seq H as u3 x4 Hrh. apply when_reject_returned_inv in Hrh as [Hrh ->].
  inv_seq H as u4 x5 Hsub. inv_seq H as u5 x6 Hcl.
  inv_seq H as size x7 Hpool. inv_seq H as u6 x8 H6.
  destruct u4, u5, u6.
  exists x5, x6, x7, x8, size. repeat split; auto.
  eexists. split; [eassumption |]. now apply is_str_neq.
Qed.

(** The server group of an accepted server. *)
Lemma accepted_server E c w :
  key_in "deleted" c = false ->
  dict_get "mode" c = Some (VStr "server") ->
  fst (verify E c w) = Returned tt ->
  exists w0 w1 w2 w3,
    verify_mode E c (VStr "server") w0 = (Returned tt, w1) /\
    verify_server E c w1 = (Returned tt, w2) /\
    verify_rest E c (VStr "server") w2 = (Returned tt, w3).
Proof.
  intros Hdel Hmode Hacc.
  destruct (accepted_stages E c w Hdel Hacc) as (mode & w1 & w2 & w3 & Hm & Hv & Hs & Hr).
  rewrite Hmode in Hm. injection Hm as <-. eauto 10.
Qed.

(** Every accepted server has neither a local nor a remote address, a
    protocol other than tcp-active, neither a remote port nor a remote
    host, and server subnets unless the interface is a bridge member. *)
Theorem server_mode_accepted E c w :
  key_in "deleted" c = false ->
  dict_get "mode" c = Some (VStr "server") ->
  fst (verify E c w) = Returned tt ->
  key_in "local_address" c = false /\
  key_in "remote_address" c = false /\
  (exists protocol, dict_get "protocol" c = Some protocol /\
                    protocol <> VStr "tcp-active") /\
  key_in "remote_port" c = false /\
  key_in "remote_host" c = false /\
  (truthy (dict_search ["server"; "subnet"] c) = true \/
   key_in "is_bridge_member" c = true).
Proof.
  intros Hdel Hmode Hacc.
  destruct (accepted_server E c w Hdel Hmode Hacc) as (w0 & w1 & w2 & w3 & Hv & Hs & _).
  unfold verify_mode in Hv. cbn [is_str py_eqb String.eqb Ascii.eqb Bool.eqb] in Hv.
  unfold verify_no_addresses in Hv. apply when_reject_returned_inv in Hv as [Haddr _].
  apply orb_false_elim in Haddr as [Hla Hra].
  apply verify_server_stages in Hs
    as (x1 & x2 & x3 & x4 & size & Hp & Hrp & Hrh & Hsub & _).
  repeat split; auto.
  unfold verify_server_subnet in Hsub.
  destruct (truthy (dict_search ["server"; "subnet"] c)); [now left | right].
  apply when_reject_returned_inv in Hsub as [Hb _].
  now destruct (key_in "is_bridge_member" c).
Qed.

(** The theorem at the server of the examples. *)
Lemma server_mode_accepted_witness :
  (key_in "deleted" totp_server = false /\
   dict_get "mode" totp_server = Some (VStr "server") /\
   fst (verify demo_externals totp_server empty_world) = Returned tt) /\
  key_in "local_address" totp_server = false /\
  key_in "remote_address" totp_server = false /\
  (exists protocol, dict_get "protocol" totp_server = Some protocol /\
                    protocol <> VStr "tcp-active") /\
  key_in "remote_port" totp_server = false /\
  key_in "remote_host" totp_server = false /\
  (truthy (dict_search ["server"; "subnet"] totp_server) = true \/
   key_in "is_bridge_member" totp_server = true).
Proof.
  split; [repeat split; vm_compute; reflexivity |].
  apply (server_mode_accepted demo_externals totp_server empty_world);
    vm_compute; reflexivity.
Defined.

(** Every accepted server with server subnets has at most one IPv4 and at
    most one IPv6 subnet, no IPv6 subnet without an IPv4 one, and every
    IPv4 subnet is a network without host bits whose prefix is at most
    /29 on a tun device and at most /30 on a tap device. *)
Theorem server_subnets_accepted E c w :
  key_in "deleted" c = false ->
  dict_get "mode" c = Some (VStr "server") ->
  truthy (dict_search ["server"; "subnet"] c) = true ->
  fst (verify E c w) = Returned tt ->
  exists subnets,
    (forall w0, py_iter (dict_search ["server"; "subnet"] c) w0 = (Returned subnets, w0)) /\
    (length (List.filter is_ipv4 subnets) <= 1)%nat /\
    (length (List.filter (is_ipv6 E) subnets) <= 1)%nat /\
    (List.filter (is_ipv6 E) subnets <> [] -> List.filter is_ipv4 subnets <> []) /\
    forall s, In s subnets -> is_ipv4 s = true ->
      exists net device_type,
        IPv4Network s = Some net /\
        dict_get "device_type" c = Some device_type /\
        (device_type = VStr "tun" -> net_prefixlen net <= 29) /\
        (device_type = VStr "tap" -> net_prefixlen net <= 30).
Proof.
  intros Hdel Hmode Hsub Hacc.
  destruct (accepted_server E c w Hdel Hmode Hacc) as (w0 & w1 & w2 & w3 & _ & Hs & _).
  apply verify_server_stages in Hs
    as (x1 & x2 & x3 & x4 & size & _ & _ & _ & Hv & _).
  unfold verify_server_subnet in Hv. rewrite Hsub in Hv.
  inv_seq Hv as subnets y1 Hit. apply py_iter_returned_inv in Hit as [-> Hit].
  inv_seq Hv as u1 y2 H4. apply when_reject_returned_inv in H4 as [H4 ->].
  inv_seq Hv as u2 y3 H6. apply when_reject_returned_inv in H6 as [H6 ->].
  inv_seq Hv as u3 y4 H64. apply when_reject_returned_inv in H64 as [H64 ->].
  apply Z.ltb_ge in H4, H6.
  exists subnets. repeat split; auto; try lia.
  - intros Hv6 Hv4. rewrite Hv4 in H64. cbn [length] in H64.
    destruct (List.filter (is_ipv6 E) subnets); [congruence |].
    cbn [length] in H64. rewrite Nat2Z.inj_succ in H64.
    apply andb_false_iff in H64 as [H64 | H64]; [apply Z.ltb_ge in H64; lia | discriminate].
  - intros s Hin Hip.
    destruct (for_each_returned_inv _ _ _ _ _ Hv s Hin) as (z1 & z2 & Hbody).
    rewrite Hip in Hbody. cbn [when] in Hbody.
    inv_seq Hbody as net z3 Hnet. apply orelse_returned_inv in Hnet as [Hnet ->].
    inv_seq Hbody as device_type z4 Hdt. apply getitem_returned_inv in Hdt as [Hdt ->].
    inv_seq Hbody as u4 z5 Hlen. clear Hbody.
    exists net, device_type. repeat split; auto.
    + intros ->. cbn [is_str py_eqb String.eqb Ascii.eqb Bool.eqb andb] in Hlen.
      destruct (29 <? net_prefixlen net) eqn:Hlt; [discriminate |].
      now apply Z.ltb_ge in Hlt.
    + intros ->. cbn [is_str py_eqb String.eqb Ascii.eqb Bool.eqb andb] in Hlen.
      inv_seq Hlen as dt z6 Hdt'. apply getitem_returned_inv in Hdt' as [Hdt' ->].
      rewrite Hdt in Hdt'. injection Hdt' as <-.
      cbn [is_str py_eqb String.eqb Ascii.eqb Bool.eqb andb] in Hlen.
      destruct (30 <? net_prefixlen net) eqn:Hlt; [discriminate |].
      now apply Z.ltb_ge in Hlt.
Qed.

(** The theorem at the server of the examples. *)
Lemma server_subnets_accepted_witness :
  (key_in "deleted" totp_server = false /\
   dict_get "mode" totp_server = Some (VStr "server") /\
   truthy (dict_search ["server"; "subnet"] totp_server) = true /\
   fst (verify demo_externals totp_server empty_world) = Returned tt) /\
  exists subnets,
    (forall w0, py_iter (dict_search ["server"; "subnet"] totp_server) w0
                = (Returned subnets, w0)) /\
    (length (List.filter is_ipv4 subnets) <= 1)%nat /\
    (length (List.filter (is_ipv6 demo_externals) subnets) <= 1)%nat /\
    (List.filter (is_ipv6 demo_externals) subnets <> [] ->
     List.filter is_ipv4 subnets <> []) /\
    forall s, In s subnets -> is_ipv4 s = true ->
      exists net device_type,
        IPv4Network s = Some net /\
        dict_get "device_type" totp_server = Some device_type /\
        (device_type = VStr "tun" -> net_prefixlen net <= 29) /\
        (device_type = VStr "tap" -> net_prefixlen net <= 30).
Proof.
  split; [repeat split; vm_compute; reflexivity |].
  apply (server_subnets_accepted demo_externals totp_server empty_world);
    vm_compute; reflexivity.
Defined.

Lemma more_than_one_ip_list k client l w r w' :
  py_get k client = VList l ->
  more_than_one_ip k client w = (Returned r, w') ->
  r = (1 <? Z.of_nat (length l)).
Proof.
  intros Hk H. unfold more_than_one_ip in H. rewrite Hk in H.
  destruct l as [|x l]; cbn [truthy] in H; [now inversion H |].
  inv_seq H as v w1 Hget. apply getitem_returned_inv in Hget as [Hget ->].
  unfold py_get in Hk. rewrite Hget in Hk. subst v.
  cbn in H. now inversion H.
Qed.

(** Every client record of an accepted server has at most one IPv4 and
    at most one IPv6 address of its own. *)
Theorem server_clients_accepted E c w :
  key_in "deleted" c = false ->
  dict_get "mode" c = Some (VStr "server") ->
  fst (verify E c w) = Returned tt ->
  forall clients name v,
    dict_search ["server"; "client"] c = VDict clients ->
    In (name, v) clients ->
    exists client,
      v = VDict client /\
      (forall l, py_get "ip" client = VList l -> (length l <= 1)%nat) /\
      (forall l, py_get "ipv6_ip" client = VList l -> (length l <= 1)%nat).
Proof.
  intros Hdel Hmode Hacc clients name v Hsc Hin.
  destruct (accepted_server E c w Hdel Hmode Hacc) as (w0 & w1 & w2 & w3 & _ & Hs & _).
  apply verify_server_stages in Hs
    as (x1 & x2 & x3 & x4 & size & _ & _ & _ & _ & Hv & _).
  unfold verify_server_clients in Hv. rewrite Hsc in Hv.
  destruct (for_each_returned_inv _ _ _ _ _ Hv _ Hin) as (z1 & z2 & Hbody).
  cbn [fst snd] in Hbody.
  destruct v as [ | | | | client]; try discriminate.
  exists client. split; [reflexivity |].
  inv_seq Hbody as many4 z3 H4. inv_seq Hbody as many z4 H6.
  apply when_reject_returned_inv in Hbody as [-> _].
  destruct many4; [now inversion H6 |].
  split; intros l Hl.
  - apply (more_than_one_ip_list _ _ _ _ _ _ Hl) in H4.
    symmetry in H4. apply Z.ltb_ge in H4. lia.
  - apply (more_than_one_ip_list _ _ _ _ _ _ Hl) in H6.
    symmetry in H6. apply Z.ltb_ge in H6. lia.
Qed.

(** The theorem at the server of the examples and its client. *)
Lemma server_clients_accepted_witness :
  (key_in "deleted" totp_server = false /\
   dict_get "mode" totp_server = Some (VStr "server") /\
   fst (verify demo_externals totp_server empty_world) = Returned tt /\
   dict_search ["server"; "client"] totp_server = VDict [alice] /\
   In alice [alice]) /\
  exists client,
    snd alice = VDict client /\
    (forall l, py_get "ip" client = VList l -> (length l <= 1)%nat) /\
    (forall l, py_get "ipv6_ip" client = VList l -> (length l <= 1)%nat).
Proof.
  split; [repeat split; first [vm_compute; reflexivity | now left] |].
  apply (server_clients_accepted demo_externals totp_server empty_world
           eq_refl eq_refl ltac:(vm_compute; reflexivity) [alice] "alice" (snd alice)
           eq_refl).
  now left.
Defined.

(** ** Client and site-to-site modes (lines 397-403) *)

(** The group for the modes other than server passes exactly on the
    records whose entry [server reject-unconfigured-clients] is absent
    or falsy and whose [replace-default-route] comes with a remote host;
    so every accepted configuration that is not a server is of this
    kind.  The entry is tested for truth, not for presence: a record
    that sets the option as the valueless node it is, an empty
    dictionary, passes this test. *)
Theorem non_server_accepted E c :
  key_in "deleted" c = false ->
  let rules :=
    truthy (dict_search ["server"; "reject_unconfigured_clients"] c) = false /\
    (key_in "replace_default_route" c = true -> key_in "remote_host" c = true) in
  (forall w, verify_not_server c w = (Returned tt, w) <-> rules) /\
  (forall w mode, dict_get "mode" c = Some mode -> mode <> VStr "server" ->
                  fst (verify E c w) = Returned tt -> rules) /\
  (forall server,
     dict_get "server" c = Some (VDict server) ->
     dict_get "reject_unconfigured_clients" server = Some (VDict []) ->
     truthy (dict_search ["server"; "reject_unconfigured_clients"] c) = false).
Proof.
  intros Hdel rules.
  assert (Hnode : forall server,
     dict_get "server" c = Some (VDict server) ->
     dict_get "reject_unconfigured_clients" server = Some (VDict []) ->
     truthy (dict_search ["server"; "reject_unconfigured_clients"] c) = false).
  { intros server Hs Hr. cbn [dict_search]. rewrite Hs. unfold py_get. now rewrite Hr. }
  assert (Hblock : forall w w', verify_not_server c w = (Returned tt, w') -> rules).
  { intros w w' H. unfold verify_not_server in H. inv_checks. split; [assumption |].
    intros Hr. rewrite Hr in *. now destruct (key_in "remote_host" c). }
  split.
  - intros w. split; [apply Hblock |]. intros [Hr Hd].
    unfold verify_not_server. rewrite Hr. cbn.
    destruct (key_in "replace_default_route" c); [| reflexivity].
    now rewrite Hd.
  - split; [| exact Hnode].
    intros w mode Hmode Hne Hacc.
    destruct (accepted_stages E c w Hdel Hacc) as (mode' & w1 & w2 & w3 & Hm & _ & Hs & _).
    rewrite Hmode in Hm. injection Hm as <-.
    apply is_str_neq in Hne. rewrite Hne in Hs. exact (Hblock _ _ Hs).
Qed.

(** The theorem at a client that is accepted. *)
Lemma non_server_accepted_witness :
  (key_in "deleted" demo_client = false /\
   dict_get "mode" demo_client = Some (VStr "client") /\
   VStr "client" <> VStr "server" /\
   fst (verify demo_externals demo_client empty_world) = Returned tt) /\
  truthy (dict_search ["server"; "reject_unconfigured_clients"] demo_client) = false /\
  (key_in "replace_default_route" demo_client = true ->
   key_in "remote_host" demo_client = true).
Proof.
  split; [repeat split; first [vm_compute; reflexivity | discriminate] |].
  apply (proj1 (proj2 (non_server_accepted demo_externals demo_client eq_refl))
           empty_world (VStr "client") eq_refl); [discriminate |].
  vm_compute; reflexivity.
Defined.

(** ** Local host, transport and cipher (lines 410-429) *)

(** Every accepted configuration has its local host, if any, assigned
    to an interface of the system; with the protocol tcp-active it has a
    remote host and no local port; with a shared secret its cipher is not
    one of the GCM ciphers. *)
Theorem transport_accepted E c w :
  key_in "deleted" c = false ->
  fst (verify E c w) = Returned tt ->
  (forall local_host, dict_get "local_host" c = Some local_host ->
                      ext_is_addr_assigned E local_host = true) /\
  (exists protocol, dict_get "protocol" c = Some protocol /\
     (protocol = VStr "tcp-active" ->
      key_in "local_port" c = false /\ key_in "remote_host" c = true)) /\
  (key_in "shared_secret_key" c = true ->
   forall cipher, In cipher ["aes128gcm"; "aes192gcm"; "aes256gcm"] ->
                  dict_search ["encryption"; "cipher"] c <> VStr cipher).
Proof.
  intros Hdel Hacc.
  destruct (accepted_stages E c w Hdel Hacc) as (mode & w1 & w2 & w3 & _ & _ & _ & Hr).
  apply verify_rest_stages in Hr as (x1 & x2 & x3 & x4 & Hc & _).
  unfold verify_common in Hc.
  inv_seq Hc as u1 y1 Hlh. inv_seq Hc as protocol y2 Hp.
  apply getitem_returned_inv in Hp as [Hp ->].
  inv_seq Hc as u2 y3 Htcp.
  split; [| split].
  - intros local_host Hget. unfold key_in, getitem in Hlh. rewrite Hget in Hlh.
    cbn [when orelse] in Hlh. rewrite bind_ret_l in Hlh.
    apply when_reject_returned_inv in Hlh as [Hlh _].
    now destruct (ext_is_addr_assigned E local_host).
  - exists protocol. split; [exact Hp |]. intros ->.
    cbn [is_str py_eqb String.eqb Ascii.eqb Bool.eqb when] in Htcp.
    inv_checks. split; [assumption |]. now destruct (key_in "remote_host" c).
  - intros Hsk cipher Hin. rewrite Hsk in Hc. cbn [when] in Hc.
    apply when_reject_returned_inv in Hc as [Hc _].
    apply orb_false_elim in Hc as [Hc H256]. apply orb_false_elim in Hc as [H128 H192].
    apply is_str_neq.
    destruct Hin as [<- | [<- | [<- | []]]]; assumption.
Qed.

(** The theorem at a peer with a shared secret. *)
Lemma transport_accepted_witness :
  (key_in "deleted" site_to_site_with_secret = false /\
   fst (verify demo_externals site_to_site_with_secret empty_world) = Returned tt) /\
  (forall local_host, dict_get "local_host" site_to_site_with_secret = Some local_host ->
                      ext_is_addr_assigned demo_externals local_host = true) /\
  (exists protocol, dict_get "protocol" site_to_site_with_secret = Some protocol /\
     (protocol = VStr "tcp-active" ->
      key_in "local_port" site_to_site_with_secret = false /\
      key_in "remote_host" site_to_site_with_secret = true)) /\
  (key_in "shared_secret_key" site_to_site_with_secret = true ->
   forall cipher, In cipher ["aes128gcm"; "aes192gcm"; "aes256gcm"] ->
                  dict_search ["encryption"; "cipher"] site_to_site_with_secret
                  <> VStr cipher).
Proof.
  split; [repeat split; vm_compute; reflexivity |].
  apply (transport_accepted demo_externals site_to_site_with_secret empty_world);
    vm_compute; reflexivity.
Defined.

(** ** User name and password (lines 470-476) *)

(** The check of the authentication block passes exactly when the user
    name and the password are both set or both unset; so every accepted
    configuration has both or neither. *)
Theorem authentication_pair_accepted E c :
  (forall w, verify_auth c w = (Returned tt, w) <->
             truthy (dict_search ["authentication"; "username"] c)
             = truthy (dict_search ["authentication"; "password"] c)) /\
  (forall w, key_in "deleted" c = false ->
             fst (verify E c w) = Returned tt ->
             truthy (dict_search ["authentication"; "username"] c)
             = truthy (dict_search ["authentication"; "password"] c)).
Proof.
  assert (Hblock : forall w w', verify_auth c w = (Returned tt, w') ->
            truthy (dict_search ["authentication"; "username"] c)
            = truthy (dict_search ["authentication"; "password"] c)).
  { intros w w' H. unfold verify_auth in H. inv_checks.
    destruct (truthy (dict_search ["authentication"; "username"] c)),
             (truthy (dict_search ["authentication"; "password"] c));
      cbn in *; congruence. }
  split.
  - intros w. split; [apply Hblock |]. intros Heq.
    unfold verify_auth. rewrite Heq.
    now destruct (truthy (dict_search ["authentication"; "password"] c)).
  - intros w Hdel Hacc.
    destruct (accepted_stages E c w Hdel Hacc) as (mode & w1 & w2 & w3 & _ & _ & _ & Hr).
    apply verify_rest_stages in Hr as (x1 & x2 & x3 & x4 & _ & _ & _ & Ha & _).
    exact (Hblock _ _ Ha).
Qed.

(** The theorem at a client that is accepted. *)
Lemma authentication_pair_accepted_witness :
  (key_in "deleted" demo_client = false /\
   fst (verify demo_externals demo_client empty_world) = Returned tt) /\
  truthy (dict_search ["authentication"; "username"] demo_client)
  = truthy (dict_search ["authentication"; "password"] demo_client).
Proof.
  split; [repeat split; vm_compute; reflexivity |].
  apply (proj2 (authentication_pair_accepted demo_externals demo_client) empty_world);
    vm_compute; reflexivity.
Defined.

(** ** The TLS block (lines 431-453) *)

Lemma existsb_key k (t : dict) :
  existsb (py_eqb (VStr k)) (map (fun kv => VStr (fst kv)) t) = key_in k t.
Proof.
  unfold key_in. induction t as [|[k' v] t IH]; simpl; [reflexivity |].
  destruct (String.eqb k k'); simpl; [reflexivity | exact IH].
Qed.

Lemma keys_hashable (t : dict) :
  forallb hashable (map (fun kv => VStr (fst kv)) t) = true.
Proof. induction t as [|[k v] t IH]; simpl; auto. Qed.

(** Every accepted configuration with a [tls] block has not both an
    auth key and a crypt key in it; with the role active its protocol is
    not tcp-passive and it has no DH parameters; with the role passive
    its protocol is not tcp-active and it has DH parameters. *)
Theorem tls_block_accepted E c w :
  key_in "deleted" c = false ->
  fst (verify E c w) = Returned tt ->
  forall t, dict_get "tls" c = Some (VDict t) ->
    key_in "auth_key" t && key_in "crypt_key" t = false /\
    exists protocol,
      dict_get "protocol" c = Some protocol /\
      (dict_search ["tls"; "role"] c = VStr "active" ->
       protocol <> VStr "tcp-passive" /\
       truthy (dict_search ["tls"; "dh_params"] c) = false) /\
      (dict_search ["tls"; "role"] c = VStr "passive" ->
       protocol <> VStr "tcp-active" /\
       truthy (dict_search ["tls"; "dh_params"] c) = true).
Proof.
  intros Hdel Hacc t Htls.
  destruct (accepted_stages E c w Hdel Hacc) as (mode & w1 & w2 & w3 & _ & _ & _ & Hr).
  apply verify_rest_stages in Hr as (x1 & x2 & x3 & x4 & Hc & Hv & _).
  assert (Hproto : exists protocol, dict_get "protocol" c = Some protocol).
  { unfold verify_common in Hc. inv_seq Hc as u1 y1 Hlh. inv_seq Hc as protocol y2 Hp.
    apply getitem_returned_inv in Hp as [Hp _]. eauto. }
  destruct Hproto as [protocol Hp].
  unfold verify_tls in Hv. unfold key_in at 1 in Hv. rewrite Htls in Hv. cbn [when] in Hv.
  unfold getitem at 1 in Hv. rewrite Htls in Hv. cbn [orelse] in Hv. rewrite bind_ret_l in Hv.
  inv_seq Hv as keys y0 Hset.
  unfold py_set, py_iter in Hset. rewrite bind_ret_l, keys_hashable in Hset.
  injection Hset as <- <-. rewrite !existsb_key in Hv.
  inv_seq Hv as u1 y1 Hboth. apply when_reject_returned_inv in Hboth as [Hboth ->].
  inv_seq Hv as u2 y2 Hrole. clear Hv.
  split; [exact Hboth |].
  exists protocol. split; [exact Hp |].
  unfold verify_tls_role in Hrole. split; intros Hr; rewrite Hr in Hrole;
    cbn [truthy String.eqb negb when is_str py_eqb Ascii.eqb Bool.eqb] in Hrole;
    inv_seq Hrole as u3 y3 Hcs; unfold getitem in Hrole; rewrite Hp in Hrole;
    cbn [orelse] in Hrole; rewrite bind_ret_l in Hrole; inv_checks.
  - split; [now apply is_str_neq | assumption].
  - split; [now apply is_str_neq |].
    now destruct (truthy (dict_search ["tls"; "dh_params"] c)).
Qed.

(** The theorem at a peer with an active TLS role. *)
Lemma tls_block_accepted_witness :
  (key_in "deleted" site_to_site_with_role = false /\
   fst (verify demo_externals site_to_site_with_role empty_world) = Returned tt /\
   dict_search ["tls"; "role"] site_to_site_with_role = VStr "active") /\
  exists t,
    dict_get "tls" site_to_site_with_role = Some (VDict t) /\
    key_in "auth_key" t && key_in "crypt_key" t = false /\
    exists protocol,
      dict_get "protocol" site_to_site_with_role = Some protocol /\
      (dict_search ["tls"; "role"] site_to_site_with_role = VStr "active" ->
       protocol <> VStr "tcp-passive" /\
       truthy (dict_search ["tls"; "dh_params"] site_to_site_with_role) = false) /\
      (dict_search ["tls"; "role"] site_to_site_with_role = VStr "passive" ->
       protocol <> VStr "tcp-active" /\
       truthy (dict_search ["tls"; "dh_params"] site_to_site_with_role) = true).
Proof.
  split; [repeat split; vm_compute; reflexivity |].
  eexists. split; [reflexivity |].
  apply (tls_block_accepted demo_externals site_to_site_with_role empty_world
           eq_refl ltac:(vm_compute; reflexivity) _ eq_refl).
Defined.

(** ** The PKI bindings ([verify_pki], lines 107-176) *)

(** The first checks of [verify_pki] and what follows them. *)
Lemma verify_pki_stages E c w w' :
  verify_pki E c w = (Returned tt, w') ->
  exists pki interface mode w1 w2,
    dict_get "pki" c = Some pki /\
    dict_get "ifname" c = Some interface /\
    dict_get "mode" c = Some mode /\
    xorb (truthy (dict_search ["shared_secret_key"] c)) (truthy (dict_search ["tls"] c)) = true /\
    (is_str mode "server" || is_str mode "client") && negb (truthy (dict_search ["tls"] c))
      = false /\
    truthy pki = true /\
    (truthy (dict_search ["tls"] c) = true ->
     verify_pki_tls E pki interface mode (dict_search ["tls"] c) w1 = (Returned tt, w2)).
Proof.
  intros H. unfold verify_pki, dict_search_args in H.
  inv_seq H as pki x1 Hpki. apply getitem_returned_inv in Hpki as [Hpki ->].
  inv_seq H as interface x2 Hif. apply getitem_returned_inv in Hif as [Hif ->].
  inv_seq H as mode x3 Hmode. apply getitem_returned_inv in Hmode as [Hmode ->].
  inv_seq H as u1 x4 Hxor. apply when_reject_returned_inv in Hxor as [Hxor ->].
  inv_seq H as u2 x5 Hreq. apply when_reject_returned_inv in Hreq as [Hreq ->].
  inv_seq H as u3 x6 Hp. apply when_reject_returned_inv in Hp as [Hp ->].
  inv_seq H as u4 x7 Hs.
  exists pki, interface, mode, x7, w'. repeat split; auto.
  - now destruct (xorb _ _).
  - now destruct (truthy pki).
  - intros Ht. rewrite Ht in H. exact H.
Qed.

(** The PKI validator of an accepted configuration returned. *)
Lemma accepted_pki E c w :
  key_in "deleted" c = false ->
  fst (verify E c w) = Returned tt ->
  exists w1 w2, verify_pki E c w1 = (Returned tt, w2).
Proof.
  intros Hdel Hacc.
  destruct (accepted_stages E c w Hdel Hacc) as (mode & w1 & w2 & w3 & _ & _ & _ & Hr).
  apply verify_rest_stages in Hr as (x1 & x2 & x3 & x4 & _ & _ & Hp & _). eauto.
Qed.

(** Every accepted configuration comes with a PKI subtree that is not
    empty; in server and in client mode it has a [tls] block and no
    shared secret, so a shared secret is for site-to-site only. *)
Theorem pki_mechanism_accepted E c w :
  key_in "deleted" c = false ->
  fst (verify E c w) = Returned tt ->
  exists pki mode,
    dict_get "pki" c = Some pki /\ truthy pki = true /\
    dict_get "mode" c = Some mode /\
    (mode = VStr "server" \/ mode = VStr "client" ->
     truthy (dict_search ["tls"] c) = true /\
     truthy (dict_search ["shared_secret_key"] c) = false).
Proof.
  intros Hdel Hacc.
  destruct (accepted_pki E c w Hdel Hacc) as (w1 & w2 & Hp).
  apply verify_pki_stages in Hp
    as (pki & interface & mode & x1 & x2 & Hpki & _ & Hmode & Hxor & Hreq & Htr & _).
  exists pki, mode. split; [exact Hpki |]. split; [exact Htr |]. split; [exact Hmode |].
  intros Hm.
  assert (Ht : truthy (dict_search ["tls"] c) = true).
  { destruct Hm as [-> | ->];
      cbn [is_str py_eqb String.eqb Ascii.eqb Bool.eqb orb andb] in Hreq;
      destruct (truthy (dict_search ["tls"] c)); [reflexivity | discriminate
                                                  | reflexivity | discriminate]. }
  split; [exact Ht |].
  rewrite Ht in Hxor. now destruct (truthy (dict_search ["shared_secret_key"] c)).
Qed.

(** The theorem at the server of the examples. *)
Lemma pki_mechanism_accepted_witness :
  (key_in "deleted" totp_server = false /\
   fst (verify demo_externals totp_server empty_world) = Returned tt) /\
  exists pki mode,
    dict_get "pki" totp_server = Some pki /\ truthy pki = true /\
    dict_get "mode" totp_server = Some mode /\
    (mode = VStr "server" \/ mode = VStr "client" ->
     truthy (dict_search ["tls"] totp_server) = true /\
     truthy (dict_search ["shared_secret_key"] totp_server) = false).
Proof.
  split; [repeat split; vm_compute; reflexivity |].
  apply (pki_mechanism_accepted demo_externals totp_server empty_world);
    vm_compute; reflexivity.
Defined.

(** A shared secret named on a site-to-site peer without TLS passes the
    PKI validator exactly when the PKI subtree holds a shared secret of
    that name.  When the subtree holds shared secrets but none of that
    name, the rejection names the interface; when it holds no shared
    secret at all, the rejection says so, or says that PKI is not
    configured when the subtree is empty.  A configuration that fails
    here is never accepted. *)
Theorem shared_secret_resolves E c pki secrets k interface mode :
  key_in "deleted" c = false ->
  dict_get "pki" c = Some pki ->
  (dict_search_val pki ["openvpn"; "shared_secret"] = VDict secrets \/
   (dict_search_val pki ["openvpn"; "shared_secret"] = VNone /\ secrets = [])) ->
  dict_get "shared_secret_key" c = Some (VStr k) -> k <> "" ->
  truthy (dict_search ["tls"] c) = false ->
  dict_get "ifname" c = Some interface ->
  dict_get "mode" c = Some mode ->
  mode <> VStr "server" -> mode <> VStr "client" ->
  (forall w, verify_pki E c w =
             match secrets with
             | [] => (Rejected (if truthy pki then ErrNoSharedSecrets
                                else ErrPkiNotConfigured), w)
             | _ => if key_in k secrets then (Returned tt, w)
                    else (Rejected (ErrInvalidSharedSecret interface), w)
             end) /\
  (key_in k secrets = false -> forall w, fst (verify E c w) <> Returned tt).
Proof.
  intros Hdel Hpki Hsec Hk Hkne Htls Hif Hmode Hns Hnc.
  assert (Hrun : forall w, verify_pki E c w =
             match secrets with
             | [] => (Rejected (if truthy pki then ErrNoSharedSecrets
                                else ErrPkiNotConfigured), w)
             | _ => if key_in k secrets then (Returned tt, w)
                    else (Rejected (ErrInvalidSharedSecret interface), w)
             end).
  { intros w. unfold verify_pki, getitem, dict_search_args.
    rewrite Hpki, Hif, Hmode. cbn [orelse]. rewrite !bind_ret_l.
    assert (Hs : dict_search ["shared_secret_key"] c = VStr k)
      by (cbn; unfold py_get; now rewrite Hk).
    rewrite Hs, Htls.
    assert (Hkt : truthy (VStr k) = true)
      by (cbn; apply String.eqb_neq in Hkne; now rewrite Hkne).
    rewrite Hkt.
    apply is_str_neq in Hns, Hnc. rewrite Hns, Hnc.
    destruct secrets as [|kv secrets].
    { assert (Hf : truthy (dict_search_val pki ["openvpn"; "shared_secret"]) = false)
        by (destruct Hsec as [-> | [-> _]]; reflexivity).
      rewrite Hf. destruct (truthy pki); reflexivity. }
    destruct Hsec as [Hsec | [_ Habs]]; [| discriminate Habs].
    rewrite Hsec.
    assert (Hst : truthy (VDict (kv :: secrets)) = true) by reflexivity.
    rewrite Hst.
    destruct pki as [ | | | | p]; try discriminate Hsec.
    cbn [dict_search_val dict_search] in Hsec.
    destruct (dict_get "openvpn" p) as [[ | | | | o]|] eqn:Ho; try discriminate Hsec.
    assert (Hp : truthy (VDict p) = true) by (destruct p; [discriminate Ho | reflexivity]).
    rewrite Hp.
    unfold py_get in Hsec. destruct (dict_get "shared_secret" o) as [v|] eqn:Hss;
      [| discriminate Hsec]. subst v.
    unfold bind, when, orelse, subscript, contains, has_key.
    cbn [ret reject throw orelse hashable negb xorb andb orb]. rewrite Ho.
    cbn [ret reject throw orelse hashable negb xorb andb orb]. rewrite Hss.
    cbn [ret reject throw orelse hashable negb xorb andb orb].
    destruct (key_in k (kv :: secrets)); reflexivity. }
  split; [exact Hrun |].
  intros Hmiss w Hacc.
  destruct (accepted_pki E c w Hdel Hacc) as (w1 & w2 & Hp).
  rewrite Hrun, Hmiss in Hp. destruct secrets; discriminate.
Qed.

(** The theorem at a peer with the shared secret [s1]. *)
Lemma shared_secret_resolves_witness :
  (key_in "deleted" site_to_site_with_secret = false /\
   dict_get "pki" site_to_site_with_secret = Some demo_pki /\
   dict_search_val demo_pki ["openvpn"; "shared_secret"]
     = VDict [("s1", VDict [("key", VStr "K")])] /\
   dict_get "shared_secret_key" site_to_site_with_secret = Some (VStr "s1") /\
   truthy (dict_search ["tls"] site_to_site_with_secret) = false /\
   dict_get "ifname" site_to_site_with_secret = Some (VStr "vtun1") /\
   dict_get "mode" site_to_site_with_secret = Some (VStr "site-to-site")) /\
  forall w, verify_pki demo_externals site_to_site_with_secret w = (Returned tt, w).
Proof.
  split; [repeat split; vm_compute; reflexivity |].
  apply (proj1 (shared_secret_resolves demo_externals site_to_site_with_secret demo_pki
                  [("s1", VDict [("key", VStr "K")])] "s1" (VStr "vtun1")
                  (VStr "site-to-site") eq_refl eq_refl (or_introl eq_refl)
                  eq_refl ltac:(discriminate) eq_refl eq_refl eq_refl
                  ltac:(discriminate) ltac:(discriminate))).
Defined.

(** ** Checks that only read the record *)

Lemma reads_only_ret {A} (a : A) : reads_only_record (ret a).
Proof. now exists (Returned a). Qed.

Lemma reads_only_throw {A} x : reads_only_record (@throw A x).
Proof. now exists (Raised x). Qed.

Lemma reads_only_reject {A} e : reads_only_record (@reject A e).
Proof. now exists (Rejected e). Qed.

Lemma reads_only_bind {A B} (m : M A) (k : A -> M B) :
  reads_only_record m -> (forall a, reads_only_record (k a)) ->
  reads_only_record (bind m k).
Proof.
  intros [r Hm] Hk. destruct r as [a|e|x].
  - destruct (Hk a) as [r' Hr']. exists r'. intros w. unfold bind. now rewrite Hm.
  - exists (Rejected e). intros w. unfold bind. now rewrite Hm.
  - exists (Raised x). intros w. unfold bind. now rewrite Hm.
Qed.

Lemma reads_only_when b (m : M unit) :
  reads_only_record m -> reads_only_record (when b m).
Proof. destruct b; [auto | intros _; apply reads_only_ret]. Qed.

Lemma reads_only_orelse {A} x (o : option A) : reads_only_record (orelse x o).
Proof. destruct o; [apply reads_only_ret | apply reads_only_throw]. Qed.

Lemma reads_only_for_each {A} (l : list A) (body : A -> M unit) :
  (forall x, reads_only_record (body x)) -> reads_only_record (for_each l body).
Proof.
  intros H. induction l as [|x l IH]; simpl; [apply reads_only_ret |].
  apply reads_only_bind; [apply H | intros _; exact IH].
Qed.

Ltac ro_step :=
  lazymatch goal with
  | |- reads_only_record (ret _) => apply reads_only_ret
  | |- reads_only_record (throw _) => apply reads_only_throw
  | |- reads_only_record (reject _) => apply reads_only_reject
  | |- reads_only_record (orelse _ _) => apply reads_only_orelse
  | |- reads_only_record (when _ _) => apply reads_only_when
  | |- reads_only_record (for_each _ _) => apply reads_only_for_each; intros ?
  | |- reads_only_record (bind _ _) => apply reads_only_bind; [ | intros ? ]
  | |- reads_only_record (match ?x with _ => _ end) => destruct x
  | |- reads_only_record (let _ := _ in _) => cbv zeta
  end.

Create HintDb reads_only_db discriminated.

Ltac ro_steps :=
  repeat first [ assumption | solve [auto 1 with reads_only_db nocore] | ro_step ].

Lemma reads_only_py_iter v : reads_only_record (py_iter v).
Proof. unfold py_iter. ro_steps. Qed.

Lemma reads_only_py_len v : reads_only_record (py_len v).
Proof. unfold py_len. ro_steps. Qed.

Lemma reads_only_getitem k d : reads_only_record (getitem k d).
Proof. unfold getitem. ro_steps. Qed.

Lemma reads_only_subscript v key : reads_only_record (subscript v key).
Proof. unfold subscript. ro_steps. Qed.

Lemma reads_only_index0 v : reads_only_record (index0 v).
Proof. unfold index0. ro_steps. Qed.

Lemma reads_only_contains a b : reads_only_record (contains a b).
Proof. unfold contains. ro_steps. Qed.

Lemma reads_only_has_key k v : reads_only_record (has_key k v).
Proof. apply reads_only_contains. Qed.

Lemma reads_only_py_set v : reads_only_record (py_set v).
Proof. unfold py_set. ro_steps. apply reads_only_py_iter. Qed.

#[local] Hint Resolve reads_only_py_iter reads_only_py_len reads_only_getitem
  reads_only_subscript reads_only_index0 reads_only_contains reads_only_has_key
  reads_only_py_set : reads_only_db.

Lemma reads_only_is_ec_private_key E pki name :
  reads_only_record (is_ec_private_key E pki name).
Proof. unfold is_ec_private_key. ro_steps. Qed.
#[local] Hint Resolve reads_only_is_ec_private_key : reads_only_db.

Lemma reads_only_verify_pki_tls E pki interface mode tls :
  reads_only_record (verify_pki_tls E pki interface mode tls).
Proof. unfold verify_pki_tls. ro_steps. Qed.
#[local] Hint Resolve reads_only_verify_pki_tls : reads_only_db.

Lemma reads_only_verify_pki E c : reads_only_record (verify_pki E c).
Proof. unfold verify_pki. ro_steps. Qed.

(** What a check that only reads the record returned in one world it
    returns in every world. *)
Lemma reads_only_returned {A} (m : M A) w a w' :
  reads_only_record m -> m w = (Returned a, w') ->
  w' = w /\ forall w0, m w0 = (Returned a, w0).
Proof.
  intros [r Hr] H. rewrite Hr in H. injection H as -> ->. auto.
Qed.

Lemma contains_dict_true item d w w' :
  contains item (VDict d) w = (Returned true, w') ->
  exists n, item = VStr n /\ key_in n d = true.
Proof.
  unfold contains. destruct (hashable item); [| discriminate].
  intros H. injection H as H _. destruct item; try discriminate. eauto.
Qed.

Lemma when_negb_reject_inv (b : bool) e w u w' :
  when (negb b) (reject e) w = (Returned u, w') -> b = true /\ w' = w.
Proof.
  intros H. apply when_reject_returned_inv in H as [H ->].
  split; [now destruct b | reflexivity].
Qed.

(** The TLS binding and the PKI subtree of a run of the TLS checks that
    returned are dictionaries. *)
Lemma verify_pki_tls_shapes E pki interface mode tls w w' :
  verify_pki_tls E pki interface mode tls w = (Returned tt, w') ->
  exists t p, tls = VDict t /\ pki = VDict p.
Proof.
  intros H. unfold verify_pki_tls in H.
  inv_seq H as c1 x1 Hc1. inv_seq H as u1 x2 Hw1.
  inv_seq H as ca x3 Hca. inv_seq H as cas x4 Hcas. clear H.
  destruct tls as [ | | | | t]; try discriminate Hca.
  destruct pki as [ | | | | p]; try discriminate Hcas.
  eauto.
Qed.

(** Every accepted configuration with a [tls] block names a CA
    certificate that the PKI subtree holds; it names a certificate,
    unless it is a client with an auth key; the certificate it names is
    held by the PKI subtree and the entry [password_protected] of its
    private key is absent or falsy (the entry is tested for truth, not
    for presence); an auth key or a crypt key it names is one of the
    shared secrets of the PKI subtree. *)
Theorem tls_bindings_accepted E c w :
  key_in "deleted" c = false ->
  fst (verify E c w) = Returned tt ->
  truthy (dict_search ["tls"] c) = true ->
  exists t p mode ca,
    dict_get "tls" c = Some (VDict t) /\
    dict_get "pki" c = Some (VDict p) /\
    dict_get "mode" c = Some mode /\
    dict_get "ca_certificate" t = Some ca /\
    (forall cas, dict_get "ca" p = Some (VDict cas) ->
                 exists n, ca = VStr n /\ key_in n cas = true) /\
    (key_in "certificate" t = true \/
     (mode = VStr "client" /\ key_in "auth_key" t = true)) /\
    (forall cert certs,
       dict_get "certificate" t = Some cert ->
       dict_get "certificate" p = Some (VDict certs) ->
       exists n, cert = VStr n /\ key_in n certs = true /\
                 truthy (dict_search ["certificate"; n; "private"; "password_protected"] p)
                 = false) /\
    (forall kind key secrets,
       kind = "auth_key" \/ kind = "crypt_key" ->
       dict_get kind t = Some key ->
       dict_search ["openvpn"; "shared_secret"] p = VDict secrets ->
       exists n, key = VStr n /\ key_in n secrets = true).
Proof.
  intros Hdel Hacc Htls.
  destruct (accepted_pki E c w Hdel Hacc) as (w1 & w2 & Hp).
  apply verify_pki_stages in Hp
    as (pki & interface & mode & x1 & x2 & Hpki & _ & Hmode & _ & _ & _ & Hv).
  specialize (Hv Htls).
  destruct (verify_pki_tls_shapes _ _ _ _ _ _ _ Hv) as (t & p & Ht & ->).
  assert (Hgt : dict_get "tls" c = Some (VDict t)).
  { cbn in Ht. unfold py_get in Ht. destruct (dict_get "tls" c); [now subst | discriminate]. }
  rewrite Ht in Hv. clear Ht.
  unfold verify_pki_tls in Hv.
  inv_seq Hv as c1 y1 Hc1. cbn in Hc1. injection Hc1 as <- <-.
  inv_seq Hv as u1 y2 Hw1. apply when_negb_reject_inv in Hw1 as [Hca_in ->].
  inv_seq Hv as ca y3 Hca. cbn [subscript] in Hca. apply orelse_returned_inv in Hca as [Hca ->].
  inv_seq Hv as cas y4 Hcas. cbn [subscript] in Hcas.
  apply orelse_returned_inv in Hcas as [Hcas ->].
  inv_seq Hv as c2 y5 Hc2. inv_seq Hv as u2 y6 Hw2.
  apply when_negb_reject_inv in Hw2 as [-> ->].
  inv_seq Hv as cwa y7 Hcwa. inv_seq Hv as u3 y8 Hneed.
  inv_seq Hv as c3 y9 Hc3. cbn in Hc3. injection Hc3 as <- <-.
  inv_seq Hv as u4 y10 Hcert. inv_seq Hv as c4 y11 Hc4. inv_seq Hv as u5 y12 Hdh.
  inv_seq Hv as has_auth y13 Hha. cbn in Hha. injection Hha as <- <-.
  inv_seq Hv as auth_or_crypt y14 Haoc. inv_seq Hv as u6 y15 Hnonempty.
  inv_seq Hv as c5 y16 Hc5. cbn in Hc5. injection Hc5 as <- <-.
  inv_seq Hv as u7 y17 Hauth.
  inv_seq Hv as c6 y18 Hc6. cbn in Hc6. injection Hc6 as <- <-.
  exists t, p, mode, ca. repeat split; auto.
  - intros cas' Hcas'. rewrite Hcas in Hcas'. injection Hcas' as ->.
    eapply contains_dict_true. eassumption.
  - destruct (key_in "certificate" t) eqn:Hk; [now left | right].
    destruct cwa.
    + destruct (is_str mode "client") eqn:Hm; [| now inversion Hcwa].
      apply is_str_eq in Hm. cbn in Hcwa. injection Hcwa as Hcwa _. auto.
    + cbn [negb when] in Hneed. inv_seq Hneed as c7 z1 Hc7.
      cbn in Hc7. injection Hc7 as <- <-. rewrite Hk in Hneed. discriminate.
  - intros cert certs Hcert_t Hcerts.
    unfold key_in in Hcert. rewrite Hcert_t in Hcert. cbn [when] in Hcert.
    inv_seq Hcert as cert' z1 Hs1. cbn [subscript] in Hs1. rewrite Hcert_t in Hs1.
    injection Hs1 as <- <-.
    inv_seq Hcert as certs' z2 Hs2. cbn [subscript] in Hs2. rewrite Hcerts in Hs2.
    injection Hs2 as <- <-.
    inv_seq Hcert as c7 z3 Hin. inv_seq Hcert as u8 z4 Hw.
    apply when_negb_reject_inv in Hw as [-> ->].
    apply contains_dict_true in Hin as (n & -> & Hn).
    inv_seq Hcert as u9 z5 Hprot. apply when_reject_returned_inv in Hprot as [Hprot _].
    exists n. auto.
  - intros kind key secrets Hkind Hkey Hsec.
    assert (Hsub : forall v z z', subscript (VDict p) (VStr "openvpn") z = (Returned v, z') ->
              forall s z1 z2, subscript v (VStr "shared_secret") z1 = (Returned s, z2) ->
              s = VDict secrets).
    { intros v z z' Hv1 s z1 z2 Hv2. cbn [subscript] in Hv1.
      apply orelse_returned_inv in Hv1 as [Hv1 _].
      cbn [dict_search] in Hsec. rewrite Hv1 in Hsec.
      destruct v as [ | | | | o]; try discriminate Hsec.
      cbn [subscript] in Hv2. apply orelse_returned_inv in Hv2 as [Hv2 _].
      unfold py_get in Hsec. rewrite Hv2 in Hsec. exact Hsec. }
    destruct Hkind as [-> | ->].
    + unfold key_in in Hauth. rewrite Hkey in Hauth. cbn [when] in Hauth.
      inv_seq Hauth as k z1 Hk. cbn [subscript] in Hk. rewrite Hkey in Hk.
      injection Hk as <- <-.
      inv_seq Hauth as o z2 Ho. inv_seq Hauth as s z3 Hs.
      rewrite (Hsub _ _ _ Ho _ _ _ Hs) in Hauth.
      inv_seq Hauth as c7 z4 Hin. apply when_negb_reject_inv in Hauth as [-> _].
      eapply contains_dict_true. eassumption.
    + unfold key_in in Hv. rewrite Hkey in Hv. cbn [when] in Hv.
      inv_seq Hv as k z1 Hk. cbn [subscript] in Hk. rewrite Hkey in Hk.
      injection Hk as <- <-.
      inv_seq Hv as o z2 Ho. inv_seq Hv as s z3 Hs.
      rewrite (Hsub _ _ _ Ho _ _ _ Hs) in Hv.
      inv_seq Hv as c7 z4 Hin. apply when_negb_reject_inv in Hv as [-> _].
      eapply contains_dict_true. eassumption.
Qed.

(** The theorem at the server of the examples. *)
Lemma tls_bindings_accepted_witness :
  (key_in "deleted" totp_server = false /\
   fst (verify demo_externals totp_server empty_world) = Returned tt /\
   truthy (dict_search ["tls"] totp_server) = true) /\
  exists t p mode ca,
    dict_get "tls" totp_server = Some (VDict t) /\
    dict_get "pki" totp_server = Some (VDict p) /\
    dict_get "mode" totp_server = Some mode /\
    dict_get "ca_certificate" t = Some ca /\
    (forall cas, dict_get "ca" p = Some (VDict cas) ->
                 exists n, ca = VStr n /\ key_in n cas = true) /\
    (key_in "certificate" t = true \/
     (mode = VStr "client" /\ key_in "auth_key" t = true)) /\
    (forall cert certs,
       dict_get "certificate" t = Some cert ->
       dict_get "certificate" p = Some (VDict certs) ->
       exists n, cert = VStr n /\ key_in n certs = true /\
                 truthy (dict_search ["certificate"; n; "private"; "password_protected"] p)
                 = false) /\
    (forall kind key secrets,
       kind = "auth_key" \/ kind = "crypt_key" ->
       dict_get kind t = Some key ->
       dict_search ["openvpn"; "shared_secret"] p = VDict secrets ->
       exists n, key = VStr n /\ key_in n secrets = true).
Proof.
  split; [repeat split; vm_compute; reflexivity |].
  apply (tls_bindings_accepted demo_externals totp_server empty_world);
    vm_compute; reflexivity.
Defined.

(** Every accepted configuration that names DH parameters names a set
    that the PKI subtree holds, and the modulus of that set has at least
    2048 bits. *)
Theorem dh_params_accepted E c w :
  key_in "deleted" c = false ->
  fst (verify E c w) = Returned tt ->
  forall t dh,
    dict_get "tls" c = Some (VDict t) ->
    dict_get "dh_params" t = Some dh ->
    exists p dhs,
      dict_get "pki" c = Some (VDict p) /\
      dict_get "dh" p = Some dhs /\
      forall d, dhs = VDict d ->
        exists n pki_dh params bits,
          dh = VStr n /\
          dict_get n d = Some (VDict pki_dh) /\
          dict_get "parameters" pki_dh = Some params /\
          ext_dh_bits E params = Some bits /\
          2048 <= bits.
Proof.
  intros Hdel Hacc t dh Hgt Hdh_t.
  assert (Htls : dict_search ["tls"] c = VDict t)
    by (cbn; unfold py_get; now rewrite Hgt).
  assert (Htr : truthy (dict_search ["tls"] c) = true).
  { rewrite Htls. destruct t; [discriminate Hdh_t | reflexivity]. }
  destruct (accepted_pki E c w Hdel Hacc) as (w1 & w2 & Hp).
  apply verify_pki_stages in Hp
    as (pki & interface & mode & x1 & x2 & Hpki & _ & Hmode & _ & _ & _ & Hv).
  specialize (Hv Htr).
  destruct (verify_pki_tls_shapes _ _ _ _ _ _ _ Hv) as (t' & p & Ht & ->).
  rewrite Htls in Ht. injection Ht as <-. rewrite Htls in Hv.
  unfold verify_pki_tls in Hv.
  do 10 (apply bind_returned_inv in Hv; destruct Hv as (? & ? & _ & Hv)).
  inv_seq Hv as c4 y11 Hc4. cbn in Hc4. injection Hc4 as <- <-.
  inv_seq Hv as u5 y12 Hdh. clear Hv.
  unfold key_in in Hdh. rewrite Hdh_t in Hdh. cbn [when] in Hdh.
  inv_seq Hdh as c5 z1 Hc5. cbn in Hc5. injection Hc5 as <- <-.
  inv_seq Hdh as u6 z2 Hhas. apply when_negb_reject_inv in Hhas as [Hhas ->].
  inv_seq Hdh as dh' z3 Hs1. cbn [subscript] in Hs1. rewrite Hdh_t in Hs1.
  injection Hs1 as <- <-.
  inv_seq Hdh as dhs z4 Hs2. cbn [subscript] in Hs2.
  apply orelse_returned_inv in Hs2 as [Hdhs ->].
  exists p, dhs. split; [exact Hpki |]. split; [exact Hdhs |].
  intros d ->.
  inv_seq Hdh as c6 z5 Hin. inv_seq Hdh as u7 z6 Hw.
  apply when_negb_reject_inv in Hw as [-> ->].
  apply contains_dict_true in Hin as (n & -> & Hn).
  inv_seq Hdh as pki_dh z7 Hs3. cbn [subscript] in Hs3.
  apply orelse_returned_inv in Hs3 as [Hs3 ->].
  inv_seq Hdh as params z8 Hs4.
  destruct pki_dh as [ | | | | pd]; try discriminate Hs4.
  cbn [subscript] in Hs4. apply orelse_returned_inv in Hs4 as [Hs4 ->].
  inv_seq Hdh as bits z9 Hbits. apply orelse_returned_inv in Hbits as [Hbits ->].
  apply when_reject_returned_inv in Hdh as [Hsmall _]. apply Z.ltb_ge in Hsmall.
  exists n, pd, params, bits. auto.
Qed.

(** The theorem at the server of the examples. *)
Lemma dh_params_accepted_witness :
  (key_in "deleted" totp_server = false /\
   fst (verify demo_externals totp_server empty_world) = Returned tt /\
   dict_get "tls" totp_server = Some demo_tls /\
   dict_search ["tls"; "dh_params"] totp_server = VStr "dh1") /\
  exists p dhs,
    dict_get "pki" totp_server = Some (VDict p) /\
    dict_get "dh" p = Some dhs /\
    forall d, dhs = VDict d ->
      exists n pki_dh params bits,
        VStr "dh1" = VStr n /\
        dict_get n d = Some (VDict pki_dh) /\
        dict_get "parameters" pki_dh = Some params /\
        ext_dh_bits demo_externals params = Some bits /\
        2048 <= bits.
Proof.
  split; [repeat split; vm_compute; reflexivity |].
  apply (dh_params_accepted demo_externals totp_server empty_world eq_refl
           ltac:(vm_compute; reflexivity) _ (VStr "dh1") eq_refl eq_refl).
Defined.

(** Every accepted server has a [tls] block that names a certificate,
    and either names DH parameters or the private key of that
    certificate is an EC key. *)
Theorem server_dh_or_ec_accepted E c w :
  key_in "deleted" c = false ->
  dict_get "mode" c = Some (VStr "server") ->
  fst (verify E c w) = Returned tt ->
  exists t pki cert,
    dict_get "tls" c = Some (VDict t) /\
    dict_get "pki" c = Some pki /\
    dict_get "certificate" t = Some cert /\
    (key_in "dh_params" t = true \/
     forall w0, is_ec_private_key E pki cert w0 = (Returned true, w0)).
Proof.
  intros Hdel Hmode Hacc.
  destruct (accepted_pki E c w Hdel Hacc) as (w1 & w2 & Hp).
  apply verify_pki_stages in Hp
    as (pki & interface & mode & x1 & x2 & Hpki & _ & Hmode' & _ & Hreq & _ & Hv).
  rewrite Hmode in Hmode'. injection Hmode' as <-.
  cbn [is_str py_eqb String.eqb Ascii.eqb Bool.eqb orb andb] in Hreq.
  assert (Htr : truthy (dict_search ["tls"] c) = true)
    by (now destruct (truthy (dict_search ["tls"] c))).
  specialize (Hv Htr).
  destruct (verify_pki_tls_shapes _ _ _ _ _ _ _ Hv) as (t & p & Ht & ->).
  assert (Hgt : dict_get "tls" c = Some (VDict t)).
  { cbn in Ht. unfold py_get in Ht. destruct (dict_get "tls" c); [now subst | discriminate]. }
  rewrite Ht in Hv. clear Ht.
  unfold verify_pki_tls in Hv.
  do 6 (apply bind_returned_inv in Hv; destruct Hv as (? & ? & _ & Hv)).
  cbn [is_str py_eqb String.eqb Ascii.eqb Bool.eqb] in Hv. rewrite bind_ret_l in Hv.
  cbn [negb when] in Hv.
  inv_seq Hv as u3 y8 Hneed.
  inv_seq Hneed as c7 z1 Hc7. cbn in Hc7. injection Hc7 as <- <-.
  apply when_negb_reject_inv in Hneed as [Hcert_in ->].
  inv_seq Hv as c3 y9 Hc3. cbn in Hc3. injection Hc3 as <- <-.
  inv_seq Hv as u4 y10 Hcert. clear Hv.
  rewrite Hcert_in in Hcert. cbn [when] in Hcert.
  inv_seq Hcert as cert z2 Hs1. cbn [subscript] in Hs1.
  apply orelse_returned_inv in Hs1 as [Hs1 ->].
  do 4 (apply bind_returned_inv in Hcert; destruct Hcert as (? & ? & _ & Hcert)).
  inv_seq Hcert as need_dh z3 Hnd. apply when_reject_returned_inv in Hcert as [-> _].
  exists t, (VDict p), cert. repeat split; auto.
  inv_seq Hnd as c8 z4 Hc8. cbn in Hc8. injection Hc8 as <- <-.
  destruct (key_in "dh_params" t); [now left | right].
  cbn [negb] in Hnd. inv_seq Hnd as ec z5 Hec. destruct ec; [| discriminate].
  apply (reads_only_returned _ _ _ _ (reads_only_is_ec_private_key E _ _) Hec).
Qed.

(** The theorem at the server of the examples. *)
Lemma server_dh_or_ec_accepted_witness :
  (key_in "deleted" totp_server = false /\
   dict_get "mode" totp_server = Some (VStr "server") /\
   fst (verify demo_externals totp_server empty_world) = Returned tt) /\
  exists t pki cert,
    dict_get "tls" totp_server = Some (VDict t) /\
    dict_get "pki" totp_server = Some pki /\
    dict_get "certificate" t = Some cert /\
    (key_in "dh_params" t = true \/
     forall w0, is_ec_private_key demo_externals pki cert w0 = (Returned true, w0)).
Proof.
  split; [repeat split; vm_compute; reflexivity |].
  apply (server_dh_or_ec_accepted demo_externals totp_server empty_world);
    vm_compute; reflexivity.
Defined.

(** ** [is_ec_private_key] (lines 94-105) *)

(** [is_ec_private_key] only reads its arguments and never rejects.  It
    answers False when the PKI subtree has no certificates, when it has
    none of the given name, and when the certificate has no private key;
    when the certificate has key material the answer is whether the key
    loaded from it is an EC key. *)
Theorem is_ec_private_key_cases E p n :
  reads_only_record (is_ec_private_key E (VDict p) (VStr n)) /\
  (forall w e, fst (is_ec_private_key E (VDict p) (VStr n) w) <> Rejected e) /\
  (key_in "certificate" p = false ->
   forall w, is_ec_private_key E (VDict p) (VStr n) w = (Returned false, w)) /\
  (forall certs, dict_get "certificate" p = Some (VDict certs) ->
     (dict_get n certs = None ->
      forall w, is_ec_private_key E (VDict p) (VStr n) w = (Returned false, w)) /\
     (forall pki_cert, dict_get n certs = Some (VDict pki_cert) ->
        (dict_get "private" pki_cert = None ->
         forall w, is_ec_private_key E (VDict p) (VStr n) w = (Returned false, w)) /\
        (forall priv, dict_get "private" pki_cert = Some (VDict priv) ->
           forall w, is_ec_private_key E (VDict p) (VStr n) w =
                     (Returned match dict_get "key" priv with
                               | Some key => ext_is_ec_key E key
                               | None => false
                               end, w)))).
Proof.
  split; [apply reads_only_is_ec_private_key |].
  split.
  { intros w e H.
    exact (proj2 (respects_is_ec_private_key E (fun _ _ => True) (fun _ => False)
                    (fun _ => I) (fun _ _ _ _ _ => I) (VDict p) (VStr n) w) e H). }
  assert (Hp : forall v, dict_get "certificate" p = Some v -> truthy (VDict p) = true)
    by (intros v Hv; destruct p; [discriminate Hv | reflexivity]).
  split.
  { intros Hno w. unfold is_ec_private_key.
    destruct (truthy (VDict p)); [| reflexivity]. cbn [negb].
    unfold has_key, contains. cbn [hashable]. rewrite bind_ret_l, Hno. reflexivity. }
  intros certs Hcerts.
  assert (Hstart : forall w, is_ec_private_key E (VDict p) (VStr n) w =
            (if negb (key_in n certs) then ret false else
             pki_cert <- subscript (VDict certs) (VStr n) ;;
             c <- has_key "private" pki_cert ;;
             if negb c then ret false else
             priv <- subscript pki_cert (VStr "private") ;;
             c <- has_key "key" priv ;;
             if negb c then ret false else
             key <- subscript priv (VStr "key") ;;
             ret (ext_is_ec_key E key)) w).
  { intros w. unfold is_ec_private_key. rewrite (Hp _ Hcerts). cbn [negb].
    unfold has_key at 1. unfold contains at 1. cbn [hashable]. rewrite bind_ret_l.
    unfold key_in at 1. rewrite Hcerts. cbn [negb].
    unfold subscript at 1. rewrite Hcerts. cbn [orelse]. rewrite bind_ret_l.
    unfold contains at 1. cbn [hashable]. rewrite bind_ret_l. reflexivity. }
  split.
  { intros Hnone w. rewrite Hstart. unfold key_in. now rewrite Hnone. }
  intros pki_cert Hcert.
  assert (Hnext : forall w, is_ec_private_key E (VDict p) (VStr n) w =
            (if negb (key_in "private" pki_cert) then ret false else
             priv <- subscript (VDict pki_cert) (VStr "private") ;;
             c <- has_key "key" priv ;;
             if negb c then ret false else
             key <- subscript priv (VStr "key") ;;
             ret (ext_is_ec_key E key)) w).
  { intros w. rewrite Hstart. unfold key_in at 1. rewrite Hcert. cbn [negb].
    unfold subscript at 1. rewrite Hcert. cbn [orelse]. rewrite bind_ret_l.
    unfold has_key at 1. unfold contains at 1. cbn [hashable]. rewrite bind_ret_l.
    reflexivity. }
  split.
  { intros Hnone w. rewrite Hnext. unfold key_in. now rewrite Hnone. }
  intros priv Hpriv w. rewrite Hnext. unfold key_in at 1. rewrite Hpriv. cbn [negb].
  unfold subscript at 1. rewrite Hpriv. cbn [orelse]. rewrite bind_ret_l.
  unfold has_key, contains. cbn [hashable]. rewrite bind_ret_l.
  unfold key_in, subscript. destruct (dict_get "key" priv); reflexivity.
Qed.

(** The theorem at the PKI subtree of the examples. *)
Lemma is_ec_private_key_cases_witness :
  dict_search_val demo_pki ["certificate"; "srv"; "private"; "key"] = VStr "KEY" /\
  forall w, is_ec_private_key demo_externals demo_pki (VStr "srv") w = (Returned false, w).
Proof.
  split; [reflexivity |].
  intros w. unfold demo_pki.
  lazymatch goal with
  | |- is_ec_private_key _ (VDict ?p) _ _ = _ =>
      destruct (is_ec_private_key_cases demo_externals p "srv") as (_ & _ & _ & H)
  end.
  destruct (H _ eq_refl) as [_ H1]. destruct (H1 _ eq_refl) as [_ H2].
  exact (H2 _ eq_refl w).
Defined.

(** * The TOTP user file (lines 368-395) *)

(** The world after [n] draws from the random source. *)
Lemma random_index_run n w :
  random_index n w =
  (Returned (entropy w (drawn w) `mod` n)%nat,
   mkWorld (fs w) (calls w) (netifs w) (stdout w) (entropy w) (S (drawn w)) (exit_status w)).
Proof. reflexivity. Qed.

(** A generated secret: its value, and the world after it was drawn. *)
Lemma random_secret_run n : forall w,
  exists s,
    random_secret n w =
    (Returned s,
     mkWorld (fs w) (calls w) (netifs w) (stdout w) (entropy w) (drawn w + n)%nat
             (exit_status w)) /\
    String.length s = n /\
    Forall (fun ch => In ch secret_chars) (list_ascii_of_string s).
Proof.
  induction n as [|n IH]; intros w.
  - exists EmptyString. cbn [random_secret]. unfold ret. rewrite Nat.add_0_r.
    destruct w; repeat split; constructor.
  - cbn [random_secret].
    rewrite (bind_returned _ _ _ _ _ (random_index_run (length secret_chars) w)).
    set (w1 := mkWorld (fs w) (calls w) (netifs w) (stdout w) (entropy w) (S (drawn w))
                       (exit_status w)).
    destruct (IH w1) as (s & Hrun & Hlen & Hchars).
    rewrite (bind_returned _ _ _ _ _ Hrun).
    eexists. split; [| split].
    + unfold ret. cbn [fs calls netifs stdout entropy drawn exit_status w1].
      rewrite <- Nat.add_succ_comm. reflexivity.
    + cbn [String.length]. now rewrite Hlen.
    + cbn [list_ascii_of_string]. constructor; [| exact Hchars].
      apply nth_In. apply Nat.mod_upper_bound. discriminate.
Qed.

(** A generated secret has the length asked for and consists of
    characters of the base32 alphabet; generating it consumes one draw
    of the random source per character and changes nothing else. *)
Theorem random_secret_shape n w :
  exists s,
    random_secret n w =
    (Returned s,
     mkWorld (fs w) (calls w) (netifs w) (stdout w) (entropy w) (drawn w + n)%nat
             (exit_status w)) /\
    String.length s = n /\
    Forall (fun ch => In ch secret_chars) (list_ascii_of_string s).
Proof. apply random_secret_run. Qed.

(** The lines written for clients whose pattern finds nothing in the
    name of the service account: one line per client, each with a secret
    of its own. *)
Lemma totp_clients_fresh E users names : forall w,
  Forall (fun c => re_search_client E c user = ret false) names ->
  exists secrets,
    totp_clients E (map VStr names) users w =
    (Returned (zip_with totp_line names secrets),
     mkWorld (fs w) (calls w) (netifs w) (stdout w) (entropy w)
             (drawn w + 16 * length names)%nat (exit_status w)) /\
    length secrets = length names /\
    Forall (fun s => String.length s = 16%nat /\
                     Forall (fun ch => In ch secret_chars) (list_ascii_of_string s))
           secrets.
Proof.
  induction names as [|c names IH]; intros w Hlit.
  - exists []. cbn [map totp_clients zip_with length]. unfold ret.
    rewrite Nat.mul_0_r, Nat.add_0_r. destruct w; repeat split; constructor.
  - inversion Hlit as [|? ? Hc Hrest]; subst.
    cbn [map totp_clients].
    destruct (random_secret_run 16 w) as (s & Hrun & Hlen & Hchars).
    assert (Hone : totp_client E (VStr c) users w =
              (Returned [totp_line c s],
               mkWorld (fs w) (calls w) (netifs w) (stdout w) (entropy w)
                       (drawn w + 16)%nat (exit_status w))).
    { rewrite totp_client_always_fresh by exact Hc.
      rewrite (bind_returned _ _ _ _ _ Hrun). reflexivity. }
    rewrite (bind_returned _ _ _ _ _ Hone).
    destruct (IH (mkWorld (fs w) (calls w) (netifs w) (stdout w) (entropy w)
                          (drawn w + 16)%nat (exit_status w)) Hrest)
      as (secrets & Hmore & Hlens & Hall).
    rewrite (bind_returned _ _ _ _ _ Hmore).
    exists (s :: secrets). split; [| split].
    + unfold ret. cbn [fs calls netifs stdout entropy drawn exit_status zip_with app length].
      do 2 f_equal. lia.
    + cbn [length]. now rewrite Hlens.
    + constructor; auto.
Qed.

(** Creating the directories [ps] where no regular file is in the way
    returns, creates no regular file and touches no other path. *)
Lemma mkdirs_run ps : forall w,
  Forall (fun d => is_file d (fs w) = false) ps ->
  exists f,
    mkdirs ps w = (Returned tt, with_fs f w) /\
    (forall p, p ∉ ps -> f !! p = fs w !! p) /\
    (forall p, is_file p f = is_file p (fs w)).
Proof.
  induction ps as [|d ps IH]; intros w Hok.
  - exists (fs w). cbn [mkdirs]. rewrite with_fs_same. auto.
  - inversion Hok as [|? ? Hd Hrest]; subst. cbn [mkdirs].
    rewrite (bind_returned get_world _ w w w eq_refl).
    unfold is_file in Hd.
    destruct (fs w !! d) as [[o|t o m]|] eqn:Hlook; [| discriminate |].
    + destruct (IH w Hrest) as (f & Hrun & Hout & Hfiles).
      exists f. split; [exact Hrun |]. split; [| exact Hfiles].
      intros p Hp. apply Hout. intros Hin. apply Hp. now right.
    + set (w1 := with_fs (<[d := Dir None]> (fs w)) w).
      assert (Hset : set_fs (insert d (Dir None)) w = (Returned tt, w1)) by reflexivity.
      rewrite (bind_returned _ _ _ _ _ Hset).
      assert (Hfiles1 : forall p, is_file p (fs w1) = is_file p (fs w)).
      { intros p. unfold is_file. cbn [fs w1 with_fs].
        destruct (decide (d = p)) as [<-|Hne].
        - now rewrite lookup_insert_eq, Hlook.
        - now rewrite lookup_insert_ne. }
      assert (Hrest1 : Forall (fun d => is_file d (fs w1) = false) ps).
      { eapply Forall_impl; [exact Hrest |]. intros q Hq. cbn beta. now rewrite Hfiles1. }
      destruct (IH w1 Hrest1) as (f & Hrun & Hout & Hfiles).
      exists f. split; [exact Hrun |]. split.
      * intros p Hp. rewrite Hout by (intros Hin; apply Hp; now right).
        cbn [fs w1 with_fs]. apply lookup_insert_ne. intros ->. apply Hp. now left.
      * intros p. now rewrite Hfiles, Hfiles1.
Qed.

Lemma otp_file_not_a_directory_of_it name :
  otp_file name ∉ ["/config"; "/config/auth"; otp_path].
Proof.
  unfold otp_file, otp_path. rewrite !elem_of_cons.
  intros [H | [H | [H | H]]]; try (cbn [String.append] in H; discriminate H).
  now apply not_elem_of_nil in H.
Qed.

(** ** Reading a file line by line and writing it back *)

Lemma append_cons ch s t : String ch s +:+ t = String ch (s +:+ t).
Proof. reflexivity. Qed.

Lemma append_nil_l t : "" +:+ t = t.
Proof. reflexivity. Qed.

Lemma append_nil_r s : s +:+ "" = s.
Proof.
  induction s as [|c s IH]; [reflexivity |]. now rewrite append_cons, IH.
Qed.

Lemma append_assoc a b c : (a +:+ b) +:+ c = a +:+ (b +:+ c).
Proof.
  induction a as [|x a IH]; [reflexivity |]. now rewrite !append_cons, IH.
Qed.

Lemma concat_nil_cons x l : String.concat "" (x :: l) = x +:+ String.concat "" l.
Proof.
  destruct l; cbn [String.concat]; [now rewrite append_nil_r | now rewrite append_nil_l].
Qed.

Lemma readlines_go_nil cur :
  readlines_go cur EmptyString = match cur with EmptyString => [] | _ => [cur] end.
Proof. reflexivity. Qed.

(** One step of the reader, by the character it meets. *)
Lemma readlines_go_cons cur c s :
  readlines_go cur (String c s) =
  if Ascii.eqb c (ascii_of_nat 10)
  then (cur +:+ newline) :: readlines_go EmptyString s
  else if Ascii.eqb c (ascii_of_nat 13)
  then match s with
       | String c' _ =>
           if Ascii.eqb c' (ascii_of_nat 10)
           then readlines_go cur s
           else (cur +:+ newline) :: readlines_go EmptyString s
       | EmptyString => (cur +:+ newline) :: readlines_go EmptyString s
       end
  else readlines_go (cur +:+ String c EmptyString) s.
Proof. destruct s; reflexivity. Qed.

(** A text without a carriage return is read as it is. *)
Lemma readlines_go_concat s : forall cur,
  ~ In (ascii_of_nat 13) (list_ascii_of_string s) ->
  String.concat "" (readlines_go cur s) = cur +:+ s.
Proof.
  induction s as [|c s IH]; intros cur Hcr.
  - rewrite readlines_go_nil.
    destruct cur; [reflexivity |]. cbn [String.concat]. now rewrite append_nil_r.
  - cbn [list_ascii_of_string In] in Hcr. rewrite readlines_go_cons.
    destruct (Ascii.eqb_spec c (ascii_of_nat 10)) as [-> | _].
    + rewrite concat_nil_cons, IH, append_nil_l, append_assoc by tauto. reflexivity.
    + destruct (Ascii.eqb_spec c (ascii_of_nat 13)) as [-> | _]; [tauto |].
      rewrite IH, append_assoc by tauto. reflexivity.
Qed.

(** The reader passes over a string without a line ending. *)
Lemma readlines_go_body body : forall cur rest,
  ~ In (ascii_of_nat 10) (list_ascii_of_string body) ->
  ~ In (ascii_of_nat 13) (list_ascii_of_string body) ->
  readlines_go cur (body +:+ rest) = readlines_go (cur +:+ body) rest.
Proof.
  induction body as [|c body IH]; intros cur rest Hlf Hcr.
  - now rewrite append_nil_l, append_nil_r.
  - cbn [list_ascii_of_string In] in Hlf, Hcr.
    rewrite append_cons, readlines_go_cons.
    destruct (Ascii.eqb_spec c (ascii_of_nat 10)) as [-> | _]; [tauto |].
    destruct (Ascii.eqb_spec c (ascii_of_nat 13)) as [-> | _]; [tauto |].
    rewrite IH by tauto. now rewrite append_assoc.
Qed.

Lemma in_append_chars ch a b :
  In ch (list_ascii_of_string (a +:+ b)) <->
  In ch (list_ascii_of_string a) \/ In ch (list_ascii_of_string b).
Proof.
  induction a as [|x a IH]; [rewrite append_nil_l; cbn; tauto |].
  rewrite append_cons. cbn [list_ascii_of_string In]. rewrite IH. tauto.
Qed.

(** The three line endings. *)
Lemma readlines_go_lf cur s :
  readlines_go cur (newline +:+ s) = (cur +:+ newline) :: readlines_go EmptyString s.
Proof. reflexivity. Qed.

Lemma readlines_go_crlf cur s :
  readlines_go cur (carriage_return +:+ newline +:+ s)
  = (cur +:+ newline) :: readlines_go EmptyString s.
Proof. reflexivity. Qed.

Lemma readlines_go_cr cur s :
  String.prefix newline s = false ->
  readlines_go cur (carriage_return +:+ s)
  = (cur +:+ newline) :: readlines_go EmptyString s.
Proof.
  destruct s as [|c s]; [reflexivity |]. intros H.
  change (carriage_return +:+ String c s) with (String (ascii_of_nat 13) (String c s)).
  rewrite readlines_go_cons.
  change (Ascii.eqb (ascii_of_nat 13) (ascii_of_nat 10)) with false.
  change (Ascii.eqb (ascii_of_nat 13) (ascii_of_nat 13)) with true. cbv iota.
  destruct (Ascii.eqb_spec c (ascii_of_nat 10)) as [-> | _]; [| reflexivity].
  unfold newline in H. cbn [String.prefix] in H.
  destruct (ascii_dec (ascii_of_nat 10) (ascii_of_nat 10)) as [_ | Hne];
    [| now destruct Hne].
  destruct s; discriminate H.
Qed.

Lemma readlines_line_endings body rest :
  ~ In (ascii_of_nat 10) (list_ascii_of_string body) ->
  ~ In (ascii_of_nat 13) (list_ascii_of_string body) ->
  readlines (body +:+ newline +:+ rest) = (body +:+ newline) :: readlines rest /\
  readlines (body +:+ carriage_return +:+ newline +:+ rest)
  = (body +:+ newline) :: readlines rest /\
  (String.prefix newline rest = false ->
   readlines (body +:+ carriage_return +:+ rest) = (body +:+ newline) :: readlines rest).
Proof.
  intros Hlf Hcr. unfold readlines.
  rewrite (readlines_go_body body EmptyString (newline +:+ rest)) by assumption.
  rewrite (readlines_go_body body EmptyString (carriage_return +:+ newline +:+ rest))
    by assumption.
  rewrite (readlines_go_body body EmptyString (carriage_return +:+ rest)) by assumption.
  rewrite !append_nil_l.
  split; [apply readlines_go_lf |]. split; [apply readlines_go_crlf |].
  apply readlines_go_cr.
Qed.

(** The lines written for the clients, by what is in them. *)
Lemma secret_char_plain ch :
  In ch secret_chars -> ch <> ascii_of_nat 10 /\ ch <> ascii_of_nat 13.
Proof.
  cbn. intros H. repeat (destruct H as [<- | H]; [split; discriminate |]). destruct H.
Qed.

Lemma totp_line_split name secret :
  totp_line name secret
  = (name +:+ " otp totp:sha1:base32:" +:+ secret +:+ "::xxx *") +:+ newline.
Proof. unfold totp_line. now rewrite !append_assoc. Qed.

Lemma totp_line_body name secret ch :
  ch = ascii_of_nat 10 \/ ch = ascii_of_nat 13 ->
  ~ In ch (list_ascii_of_string name) ->
  Forall (fun x => In x secret_chars) (list_ascii_of_string secret) ->
  ~ In ch (list_ascii_of_string (name +:+ " otp totp:sha1:base32:" +:+ secret +:+ "::xxx *")).
Proof.
  intros Hch Hname Hsecret. rewrite !in_append_chars. intros [H | [H | [H | H]]].
  - now apply Hname.
  - cbn in H. destruct Hch as [-> | ->];
      repeat (destruct H as [H | H]; [discriminate H |]); exact H.
  - rewrite List.Forall_forall in Hsecret.
    destruct (secret_char_plain _ (Hsecret _ H)) as [H10 H13]. destruct Hch; contradiction.
  - cbn in H. destruct Hch as [-> | ->];
      repeat (destruct H as [H | H]; [discriminate H |]); exact H.
Qed.

(** The text written for clients whose names have no carriage return
    has none. *)
Lemma totp_lines_no_carriage_return names : forall secrets,
  Forall (fun name => ~ In (ascii_of_nat 13) (list_ascii_of_string name)) names ->
  Forall (fun s => Forall (fun ch => In ch secret_chars) (list_ascii_of_string s)) secrets ->
  ~ In (ascii_of_nat 13)
       (list_ascii_of_string (String.concat "" (zip_with totp_line names secrets))).
Proof.
  induction names as [|name names IH]; intros secrets Hnames Hsecrets; [cbn; tauto |].
  destruct secrets as [|s secrets]; [cbn; tauto |].
  inversion Hnames as [|? ? Hname Hnames']; subst.
  inversion Hsecrets as [|? ? Hs Hsecrets']; subst.
  cbn [zip_with]. rewrite concat_nil_cons, in_append_chars. intros [H | H].
  - rewrite totp_line_split, in_append_chars in H. destruct H as [H | H].
    + exact (totp_line_body name s _ (or_intror eq_refl) Hname Hs H).
    + cbn in H. destruct H as [H | H]; [discriminate H | exact H].
  - exact (IH secrets Hnames' Hsecrets' H).
Qed.

(** With TOTP switched on, for clients whose names have no carriage
    return and are either made of literal characters and dots or
    patterns that the regular-expression engine does not find in the
    name of the service account, on a system where the user file of the
    interface exists and is text in the encoding of the locale, or where
    it can be created (nothing at its path and no regular file in place
    of a directory leading to it), the update returns and leaves in the
    file exactly one line per client of [server.client], in their order,
    each with a newly generated secret of 16 characters of the base32
    alphabet; what the file held before is not kept.  The file belongs
    to the service account; no path other than the file and the
    directories leading to it is touched, and nothing is run or
    printed. *)
Theorem otp_file_rewritten E c w name clients :
  truthy (dict_search ["server"; "2fa"; "totp"] c) = true ->
  dict_get "ifname" c = Some (VStr name) ->
  dict_search ["server"; "client"] c = VDict clients ->
  Forall (fun kv =>
            ~ In (ascii_of_nat 13) (list_ascii_of_string (fst kv)) /\
            (regex_plain (fst kv) = true \/
             ext_re_search E ("^" +:+ fst kv +:+ " ") user = Some false)) clients ->
  ((exists t o m, fs w !! otp_file name = Some (File t o m) /\ decodes E t = true) \/
   (fs w !! otp_file name = None /\
    Forall (fun d => is_file d (fs w) = false) ["/config"; "/config/auth"; otp_path])) ->
  exists secrets mode w',
    update_otp_file E c w = (Returned tt, w') /\
    fs w' !! otp_file name
      = Some (File (String.concat "" (zip_with totp_line (map fst clients) secrets))
                   (Some (user, group)) mode) /\
    length secrets = length clients /\
    Forall (fun s => String.length s = 16%nat /\
                     Forall (fun ch => In ch secret_chars) (list_ascii_of_string s))
           secrets /\
    (forall p, p ∉ otp_paths c -> fs w' !! p = fs w !! p) /\
    calls w' = calls w /\ netifs w' = netifs w /\ stdout w' = stdout w /\
    drawn w' = (drawn w + 16 * length clients)%nat.
Proof.
  intros Htotp Hif Hclients Hlit Hfs.
  set (path := otp_file name) in *.
  (* the file exists, and is text, once the creation block is through *)
  assert (Hprep : exists f1 t o m,
            when (negb (is_file path (fs w)))
                 (mkdirs ["/config"; "/config/auth"; otp_path] ;; touch path) w
            = (Returned tt, with_fs f1 w) /\
            f1 !! path = Some (File t o m) /\
            decodes E t = true /\
            (forall p, p ∉ otp_paths c -> f1 !! p = fs w !! p)).
  { destruct Hfs as [(t & o & m & Hlook & Hdec) | [Hnone Hdirs]].
    - assert (Hfile : is_file path (fs w) = true) by (unfold is_file; now rewrite Hlook).
      rewrite Hfile. cbn [negb when].
      exists (fs w), t, o, m. rewrite with_fs_same. auto.
    - assert (Hnf : is_file path (fs w) = false) by (unfold is_file; now rewrite Hnone).
      rewrite Hnf. cbn [negb when].
      destruct (mkdirs_run _ w Hdirs) as (f & Hrun & Hout & Hfiles).
      rewrite (bind_returned _ _ _ _ _ Hrun).
      assert (Hp : f !! path = None).
      { rewrite Hout; [exact Hnone | apply otp_file_not_a_directory_of_it]. }
      unfold touch. rewrite (bind_returned get_world _ _ _ _ eq_refl).
      cbn [fs with_fs]. rewrite Hp.
      exists (<[path := File EmptyString None None]> f), EmptyString, None, None.
      split; [reflexivity |]. split; [apply lookup_insert_eq |]. split; [reflexivity |].
      intros p Hnot. unfold otp_paths in Hnot. rewrite Hif in Hnot.
      rewrite !elem_of_cons in Hnot.
      rewrite lookup_insert_ne by (intros <-; tauto).
      apply Hout. rewrite !elem_of_cons. tauto. }
  destruct Hprep as (f1 & t & o & m & Hprep & Hlook1 & Hdec & Hout1).
  set (w1 := with_fs f1 w) in *.
  set (names := map fst clients).
  assert (Hiter : py_iter_or_empty (dict_search ["server"; "client"] c) w1
                  = (Returned (map VStr names), w1)).
  { rewrite Hclients. unfold py_iter_or_empty, names.
    destruct clients; [reflexivity |]. cbn [truthy py_iter]. now rewrite map_map. }
  assert (Hnames : Forall (fun c => re_search_client E c user = ret false) names).
  { unfold names. apply Forall_map. eapply Forall_impl; [exact Hlit |].
    intros kv [_ [Hplain | Hext]]; cbn beta.
    - now apply plain_client_misses_user.
    - destruct (regex_plain (fst kv)) eqn:Hp; [now apply plain_client_misses_user |].
      unfold re_search_client. now rewrite Hp, Hext. }
  assert (Hcr : Forall (fun n => ~ In (ascii_of_nat 13) (list_ascii_of_string n)) names).
  { unfold names. apply Forall_map. eapply Forall_impl; [exact Hlit |].
    now intros kv [Hkv _]. }
  destruct (totp_clients_fresh E (readlines t) names w1 Hnames)
    as (secrets & Hrun & Hlen & Hall).
  set (text := String.concat "" (zip_with totp_line names secrets)).
  assert (Hback : String.concat "" (readlines text) = text).
  { unfold readlines. rewrite readlines_go_concat; [apply append_nil_l |].
    apply totp_lines_no_carriage_return; [exact Hcr |].
    eapply Forall_impl; [exact Hall |]. now intros s [_ Hs]. }
  set (w2 := mkWorld (fs w1) (calls w1) (netifs w1) (stdout w1) (entropy w1)
                     (drawn w1 + 16 * length names)%nat (exit_status w1)) in *.
  exists secrets, m,
    (with_fs (<[path := File text (Some (user, group)) m]>
                (<[path := File text o m]> f1)) w2).
  split.
  { unfold update_otp_file. rewrite Htotp. cbn [when].
    rewrite (interface_name_eq _ _ Hif), bind_ret_l. fold path.
    rewrite (bind_returned get_world _ w w w eq_refl).
    rewrite (bind_returned _ _ _ _ _ Hprep).
    assert (Hread : read_text E path w1 = (Returned t, w1)).
    { unfold read_text. rewrite (bind_returned get_world _ w1 w1 w1 eq_refl).
      cbn [fs w1 with_fs]. now rewrite Hlook1, Hdec. }
    rewrite (bind_returned _ _ _ _ _ Hread).
    rewrite (bind_returned _ _ _ _ _ Hiter).
    rewrite (bind_returned _ _ _ _ _ Hrun).
    cbv zeta. fold text. rewrite Hback.
    assert (Hwrite : write_text path text w2
                     = (Returned tt, with_fs (<[path := File text o m]> f1) w2)).
    { unfold write_text. rewrite (bind_returned get_world _ w2 w2 w2 eq_refl).
      cbn [fs w2 w1 with_fs]. now rewrite Hlook1. }
    rewrite (bind_returned _ _ _ _ _ Hwrite).
    unfold chown. rewrite (bind_returned get_world _ _ _ _ eq_refl).
    cbn [fs with_fs]. rewrite lookup_insert_eq. reflexivity. }
  cbn [fs calls netifs stdout drawn with_fs w2 w1].
  split; [apply lookup_insert_eq |].
  assert (Hlc : length names = length clients) by (unfold names; apply length_map).
  rewrite <- Hlc.
  repeat split; auto.
  intros p Hp. rewrite <- Hout1 by exact Hp.
  assert (Hne : path <> p).
  { intros <-. apply Hp. unfold otp_paths. rewrite Hif, !elem_of_cons. tauto. }
  now rewrite !lookup_insert_ne.
Qed.

(** The theorem at the server of the examples, on a system where the
    file holds an entry for [alice] and on the empty system. *)
Lemma otp_file_rewritten_witness :
  (truthy (dict_search ["server"; "2fa"; "totp"] totp_server) = true /\
   dict_get "ifname" totp_server = Some (VStr "vtun0") /\
   dict_search ["server"; "client"] totp_server = VDict [alice] /\
   regex_plain "alice" = true /\
   is_file (otp_file "vtun0") (fs world_with_otp_file) = true /\
   fs empty_world !! otp_file "vtun0" = None) /\
  (exists secrets mode w',
     update_otp_file demo_externals totp_server world_with_otp_file = (Returned tt, w') /\
     fs w' !! otp_file "vtun0"
       = Some (File (String.concat "" (zip_with totp_line ["alice"] secrets))
                    (Some (user, group)) mode) /\
     length secrets = 1%nat) /\
  (exists secrets mode w',
     update_otp_file demo_externals totp_server empty_world = (Returned tt, w') /\
     fs w' !! otp_file "vtun0"
       = Some (File (String.concat "" (zip_with totp_line ["alice"] secrets))
                    (Some (user, group)) mode) /\
     length secrets = 1%nat).
Proof.
  split; [repeat split; vm_compute; reflexivity |].
  assert (Hlit : Forall (fun kv : string * pyval =>
                           ~ In (ascii_of_nat 13) (list_ascii_of_string (fst kv)) /\
                           (regex_plain (fst kv) = true \/
                            ext_re_search demo_externals ("^" +:+ fst kv +:+ " ") user
                            = Some false)) [alice]).
  { constructor; [| constructor]. split; [| now left].
    cbn. intros H. repeat (destruct H as [H | H]; [discriminate H |]). exact H. }
  split.
  - destruct (otp_file_rewritten demo_externals totp_server world_with_otp_file "vtun0"
                [alice] eq_refl eq_refl eq_refl Hlit
                (or_introl (ex_intro _ _ (ex_intro _ _ (ex_intro _ _
                              (conj eq_refl eq_refl))))))
      as (secrets & mode & w' & Hrun & Hfile & Hlen & _).
    exists secrets, mode, w'. auto.
  - assert (Hdirs : Forall (fun d => is_file d (fs empty_world) = false)
                      ["/config"; "/config/auth"; otp_path])
      by (repeat constructor).
    destruct (otp_file_rewritten demo_externals totp_server empty_world "vtun0"
                [alice] eq_refl eq_refl eq_refl Hlit (or_intror (conj eq_refl Hdirs)))
      as (secrets & mode & w' & Hrun & Hfile & Hlen & _).
    exists secrets, mode, w'. auto.
Defined.

(** Reading a file in text mode line by line: a text without a carriage
    return is read as it is, the lines put together are the text.  A
    line ends at a line feed, at a carriage return followed by a line
    feed, and at a carriage return alone, and comes back ending in a
    line feed in all three cases.  The lines written for clients whose
    names have neither a line feed nor a carriage return in them are
    read back one by one as they were written. *)
Theorem readlines_round_trip :
  (forall text,
     ~ In (ascii_of_nat 13) (list_ascii_of_string text) ->
     String.concat "" (readlines text) = text) /\
  (forall body rest,
     ~ In (ascii_of_nat 10) (list_ascii_of_string body) ->
     ~ In (ascii_of_nat 13) (list_ascii_of_string body) ->
     readlines (body +:+ newline +:+ rest) = (body +:+ newline) :: readlines rest /\
     readlines (body +:+ carriage_return +:+ newline +:+ rest)
     = (body +:+ newline) :: readlines rest /\
     (String.prefix newline rest = false ->
      readlines (body +:+ carriage_return +:+ rest)
      = (body +:+ newline) :: readlines rest)) /\
  (forall names secrets,
     Forall (fun name => ~ In (ascii_of_nat 10) (list_ascii_of_string name) /\
                         ~ In (ascii_of_nat 13) (list_ascii_of_string name)) names ->
     Forall (fun s => Forall (fun ch => In ch secret_chars) (list_ascii_of_string s))
            secrets ->
     readlines (String.concat "" (zip_with totp_line names secrets))
     = zip_with totp_line names secrets).
Proof.
  split.
  { intros text Hcr. unfold readlines.
    rewrite readlines_go_concat by exact Hcr. apply append_nil_l. }
  split; [exact readlines_line_endings |].
  induction names as [|name names IH]; intros secrets Hnames Hsecrets; [reflexivity |].
  destruct secrets as [|s secrets]; [reflexivity |].
  inversion Hnames as [|? ? [Hlf Hcr] Hnames']; subst.
  inversion Hsecrets as [|? ? Hs Hsecrets']; subst.
  cbn [zip_with]. rewrite concat_nil_cons, totp_line_split, append_assoc.
  destruct (readlines_line_endings
              (name +:+ " otp totp:sha1:base32:" +:+ s +:+ "::xxx *")
              (String.concat "" (zip_with totp_line names secrets))) as [Hline _].
  - exact (totp_line_body name s _ (or_introl eq_refl) Hlf Hs).
  - exact (totp_line_body name s _ (or_intror eq_refl) Hcr Hs).
  - rewrite Hline. f_equal. now apply IH.
Qed.

(** The theorem at the line of [alice]. *)
Lemma readlines_round_trip_witness :
  readlines (String.concat "" (zip_with totp_line ["alice"] ["ABCDEFGHIJKLMNOP"]))
  = [totp_line "alice" "ABCDEFGHIJKLMNOP"].
Proof.
  apply (proj2 (proj2 readlines_round_trip) ["alice"] ["ABCDEFGHIJKLMNOP"]).
  - constructor; [| constructor]. split; cbn; intros H;
      repeat (destruct H as [H | H]; [discriminate H |]); exact H.
  - constructor; [| constructor].
    repeat (constructor; [cbn; tauto |]). constructor.
Defined.

(** * The generator and the applier *)

Lemma changes_files_only_refl P D w : changes_files_only P D w w.
Proof. split; [now rewrite with_fs_same | auto]. Qed.

Lemma changes_files_only_trans P D a b c :
  changes_files_only P D a b -> changes_files_only P D b c -> changes_files_only P D a c.
Proof.
  intros [Hb Hfb] [Hc Hfc]. split.
  - rewrite Hc, Hb. reflexivity.
  - intros p Hp.
    destruct (Hfc p Hp) as [-> | Hgone]; [exact (Hfb p Hp) | now right].
Qed.

Lemma changes_files_only_weaken (P P' D : string -> Prop) w w' :
  (forall p, P p -> P' p) -> changes_files_only P D w w' -> changes_files_only P' D w w'.
Proof. intros HP [Hw Hf]. split; [exact Hw |]. intros p Hp. apply Hf. auto. Qed.

(** Writing to one path that [P] allows. *)
Lemma changes_files_only_write (P D : string -> Prop) p :
  P p ->
  forall w (f : gmap string node),
    (forall q, q ∉ [p] -> f !! q = fs w !! q) ->
    changes_files_only P D w
      (mkWorld f (calls w) (netifs w) (stdout w) (entropy w) (drawn w) (exit_status w)).
Proof.
  intros Hp w f Hf. split; [reflexivity |].
  intros q Hq. left. apply Hf. rewrite list_elem_of_singleton. intros ->. contradiction.
Qed.

Section GeneratorLogic.

Variable E : externals.
Variable P D : string -> Prop.

Lemma writes_only_ret {A} (a : A) : writes_only P D (ret a).
Proof. apply respects_ret, (changes_files_only_refl P). Qed.

Lemma writes_only_throw {A} x : writes_only P D (@throw A x).
Proof. apply respects_throw, (changes_files_only_refl P). Qed.

Lemma writes_only_bind {A B} (m : M A) (k : A -> M B) :
  writes_only P D m -> (forall a, writes_only P D (k a)) -> writes_only P D (bind m k).
Proof. apply respects_bind, (changes_files_only_trans P). Qed.

Lemma writes_only_when (b : bool) (m : M unit) :
  (b = true -> writes_only P D m) -> writes_only P D (when b m).
Proof. apply respects_when, (changes_files_only_refl P). Qed.

Lemma writes_only_for_each {A} (l : list A) (body : A -> M unit) :
  (forall x, writes_only P D (body x)) -> writes_only P D (for_each l body).
Proof.
  apply respects_for_each;
    [apply (changes_files_only_refl P) | apply (changes_files_only_trans P)].
Qed.

Lemma writes_only_get_world : writes_only P D get_world.
Proof. apply respects_get_world, (changes_files_only_refl P). Qed.

Lemma writes_only_orelse {A} x (o : option A) : writes_only P D (orelse x o).
Proof. apply respects_orelse, (changes_files_only_refl P). Qed.

Lemma writes_only_getitem k d : writes_only P D (getitem k d).
Proof. apply respects_getitem, (changes_files_only_refl P). Qed.

Lemma writes_only_subscript v key : writes_only P D (subscript v key).
Proof. apply respects_subscript, (changes_files_only_refl P). Qed.

Lemma writes_only_contains a b : writes_only P D (contains a b).
Proof. apply respects_contains, (changes_files_only_refl P). Qed.

Lemma writes_only_has_key k v : writes_only P D (has_key k v).
Proof. apply respects_has_key, (changes_files_only_refl P). Qed.

Lemma writes_only_py_iter v : writes_only P D (py_iter v).
Proof. apply respects_py_iter, (changes_files_only_refl P). Qed.

Lemma writes_only_interface_name c : writes_only P D (interface_name c).
Proof.
  apply respects_interface_name;
    [apply (changes_files_only_refl P) | apply (changes_files_only_trans P)].
Qed.

Lemma writes_only_write_text p t : P p -> writes_only P D (write_text p t).
Proof.
  intros Hp.
  apply (respects_write_text _ _ (changes_files_only_refl P D) (changes_files_only_trans P D) [p]
           (changes_files_only_write P D p Hp)).
  apply list_elem_of_singleton. reflexivity.
Qed.

Lemma writes_only_chown p u g : P p -> writes_only P D (chown p u g).
Proof.
  intros Hp.
  apply (respects_chown _ _ (changes_files_only_refl P D) (changes_files_only_trans P D) [p]
           (changes_files_only_write P D p Hp)).
  apply list_elem_of_singleton. reflexivity.
Qed.

Lemma writes_only_mkdirs ps : (forall p, In p ps -> P p) -> writes_only P D (mkdirs ps).
Proof.
  induction ps as [|p ps IH]; intros Hps; cbn [mkdirs]; [apply writes_only_ret |].
  apply writes_only_bind; [apply writes_only_get_world |]. intros w0.
  assert (Hrest : writes_only P D (mkdirs ps)) by (apply IH; intros q Hq; apply Hps; now right).
  destruct (fs w0 !! p) as [[o|t o m]|]; [exact Hrest | apply writes_only_throw |].
  apply writes_only_bind; [| intros _; exact Hrest].
  apply (respects_set_fs_insert _ _ [p]
           (changes_files_only_write P D p (Hps p (or_introl eq_refl)))).
  apply list_elem_of_singleton. reflexivity.
Qed.

Lemma writes_only_set_fs (g : gmap string node -> gmap string node) :
  (forall f p, ~ P p -> g f !! p = f !! p \/ (D p /\ g f !! p = None)) ->
  writes_only P D (set_fs g).
Proof.
  intros Hg w. cbn. split; [| discriminate].
  split; [reflexivity |]. intros p Hp. cbn. now apply Hg.
Qed.

Lemma writes_only_chmod p mode : P p -> writes_only P D (chmod p mode).
Proof.
  intros Hp. unfold chmod.
  apply writes_only_bind; [apply writes_only_get_world |]. intros w0.
  destruct (fs w0 !! p) as [[o|t o m]|]; try apply writes_only_ret.
  apply writes_only_set_fs. intros f q Hq. left.
  apply lookup_insert_ne. intros ->. contradiction.
Qed.

Lemma writes_only_unlink p : P p \/ D p -> writes_only P D (unlink p).
Proof.
  intros Hp. unfold unlink.
  apply writes_only_bind; [apply writes_only_get_world |]. intros w0.
  destruct (fs w0 !! p) as [[o|t o m]|]; try apply writes_only_throw.
  apply writes_only_set_fs. intros f q Hq.
  destruct (decide (q = p)) as [-> | Hne].
  - right. split; [tauto | apply lookup_delete_eq].
  - left. now apply lookup_delete_ne.
Qed.

Lemma writes_only_rmtree dir :
  (forall p, under dir p = true -> P p \/ D p) -> writes_only P D (rmtree dir).
Proof.
  intros Hdir. unfold rmtree. apply writes_only_set_fs. intros f p Hp.
  destruct (under dir p) eqn:Hu.
  - right. split; [destruct (Hdir p Hu); tauto |].
    apply map_lookup_filter_None. right. intros n _ H. cbn [fst] in H. congruence.
  - left. destruct (f !! p) as [n|] eqn:Hlook.
    + apply map_lookup_filter_Some. split; [exact Hlook | exact Hu].
    + apply map_lookup_filter_None. left. exact Hlook.
Qed.

Lemma writes_only_render destination template content formater permission :
  P destination -> writes_only P D (render E destination template content formater permission).
Proof.
  intros Hp. unfold render.
  apply writes_only_bind; [now apply writes_only_write_text |]. intros _.
  apply writes_only_bind; [| intros _; now apply writes_only_chown].
  destruct permission; [now apply writes_only_chmod | apply writes_only_ret].
Qed.

End GeneratorLogic.

Ltac wo_step :=
  lazymatch goal with
  | |- writes_only _ _ (ret _) => apply writes_only_ret
  | |- writes_only _ _ (throw _) => apply writes_only_throw
  | |- writes_only _ _ (orelse _ _) => apply writes_only_orelse
  | |- writes_only _ _ get_world => apply writes_only_get_world
  | |- writes_only _ _ (when _ _) => apply writes_only_when; intros ?
  | |- writes_only _ _ (for_each _ _) => apply writes_only_for_each; intros ?
  | |- writes_only _ _ (bind _ _) => apply writes_only_bind; [ | intros ? ]
  | |- writes_only _ _ (match ?x with _ => _ end) => destruct x
  | |- writes_only _ _ (let _ := _ in _) => cbv zeta
  end.

Create HintDb writes_only_db discriminated.

#[local] Hint Resolve writes_only_getitem writes_only_subscript writes_only_contains
  writes_only_has_key writes_only_py_iter writes_only_interface_name : writes_only_db.

Ltac wo_steps :=
  repeat first [ assumption | solve [auto 1 with writes_only_db nocore] | wo_step ].

Lemma writes_only_write_wrapped E P D path kind material :
  P path -> writes_only P D material -> writes_only P D (write_wrapped E path kind material).
Proof.
  intros Hp Hm. unfold write_wrapped.
  pose proof (fun t => writes_only_write_text P D path t Hp). wo_steps.
Qed.

Lemma writes_only_set_tls_flag P D flag c : writes_only P D (set_tls_flag flag c).
Proof. unfold set_tls_flag. wo_steps. Qed.
#[local] Hint Resolve writes_only_set_tls_flag : writes_only_db.

Lemma in_pki_paths name suffix :
  In suffix pki_suffixes -> In (pki_path name suffix) (pki_paths name).
Proof. intros H. unfold pki_paths. now apply in_map. Qed.

Section CredentialFiles.

Variable E : externals.
Variable P D : string -> Prop.
Variable ifname : string.
Hypothesis P_pki : forall p, In p (pki_paths ifname) -> P p.

Lemma writes_only_pki_file suffix kind material :
  In suffix pki_suffixes -> writes_only P D material ->
  writes_only P D (write_wrapped E (pki_path ifname suffix) kind material).
Proof.
  intros Hs Hm. apply writes_only_write_wrapped; [| exact Hm].
  apply P_pki, in_pki_paths, Hs.
Qed.

Ltac pki_file :=
  apply writes_only_pki_file; [cbn; tauto | wo_steps].

Lemma writes_only_generate_shared_secret pki st :
  writes_only P D (generate_shared_secret E ifname pki st).
Proof. unfold generate_shared_secret. wo_steps. pki_file. Qed.

Lemma writes_only_generate_ca pki st : writes_only P D (generate_ca E ifname pki st).
Proof. unfold generate_ca. wo_steps; pki_file. Qed.

Lemma writes_only_generate_certificate pki st :
  writes_only P D (generate_certificate E ifname pki st).
Proof. unfold generate_certificate. wo_steps; pki_file. Qed.

Lemma writes_only_generate_dh pki st : writes_only P D (generate_dh E ifname pki st).
Proof. unfold generate_dh. wo_steps; pki_file. Qed.

Lemma writes_only_generate_tls_key pki key suffix st :
  In suffix pki_suffixes ->
  writes_only P D (generate_tls_key E ifname pki key suffix st).
Proof.
  intros Hs. unfold generate_tls_key. wo_steps.
  apply writes_only_pki_file; [exact Hs | wo_steps].
Qed.

End CredentialFiles.

Lemma interface_name_returned_inv c w name w' :
  interface_name c w = (Returned name, w') ->
  dict_get "ifname" c = Some (VStr name) /\ w' = w.
Proof.
  unfold interface_name. intros H. inv_seq H as v w1 Hget.
  apply getitem_returned_inv in Hget as [Hget ->].
  destruct v; try discriminate H. inversion H; subst. auto.
Qed.

(** What follows the reading of the interface name only matters for a
    record whose interface name is a string. *)
Lemma writes_only_with_interface_name P D c {A} (k : string -> M A) :
  (forall name, dict_get "ifname" c = Some (VStr name) -> writes_only P D (k name)) ->
  writes_only P D (bind (interface_name c) k).
Proof.
  intros H w. pose proof (writes_only_interface_name P D c w) as [HR HQ].
  unfold bind. destruct (interface_name c w) as [[name|e|x] w1] eqn:Hrun; cbn [fst snd] in *.
  - apply interface_name_returned_inv in Hrun as [Hget ->]. exact (H name Hget w).
  - destruct (HQ e eq_refl).
  - split; [exact HR | discriminate].
Qed.

(** [generate_pki_files] stays within the credential files of the
    interface. *)
Lemma writes_only_generate_pki_files E (P D : string -> Prop) c :
  (forall name, dict_get "ifname" c = Some (VStr name) ->
                forall p, In p (pki_paths name) -> P p) ->
  writes_only P D (generate_pki_files E c).
Proof.
  intros HP. unfold generate_pki_files.
  apply writes_only_bind; [wo_steps |]. intros pki.
  destruct (negb (truthy pki)); [apply writes_only_ret |].
  apply writes_only_with_interface_name. intros name Hname.
  specialize (HP name Hname).
  pose proof (writes_only_generate_shared_secret E P D name HP pki).
  pose proof (writes_only_generate_ca E P D name HP pki).
  pose proof (writes_only_generate_certificate E P D name HP pki).
  pose proof (writes_only_generate_dh E P D name HP pki).
  assert (Hauth : forall st,
            writes_only P D (generate_tls_key E name pki "auth_key" "_auth.key" st))
    by (intros st; apply writes_only_generate_tls_key; [exact HP | cbn; tauto]).
  assert (Hcrypt : forall st,
            writes_only P D (generate_tls_key E name pki "crypt_key" "_crypt.key" st))
    by (intros st; apply writes_only_generate_tls_key; [exact HP | cbn; tauto]).
  wo_steps.
Qed.

Lemma writes_only_for_each_in P D {A} (l : list A) (body : A -> M unit) :
  (forall x, In x l -> writes_only P D (body x)) -> writes_only P D (for_each l body).
Proof.
  induction l as [|x l IH]; intros H; cbn [for_each]; [apply writes_only_ret |].
  apply writes_only_bind; [apply H; now left |]. intros _.
  apply IH. intros y Hy. apply H. now right.
Qed.

(** A sequence, when what follows only matters for the values the first
    half can return. *)
Lemma writes_only_bind_returned P D {A B} (m : M A) (k : A -> M B) :
  writes_only P D m ->
  (forall a w w', m w = (Returned a, w') -> writes_only P D (k a)) ->
  writes_only P D (bind m k).
Proof.
  intros Hm Hk w. destruct (Hm w) as [HR HQ]. unfold bind.
  destruct (m w) as [[a|e|x] w1] eqn:Hrun; cbn [fst snd] in *.
  - destruct (Hk a w w1 Hrun w1) as [HR' HQ'].
    split; [eapply changes_files_only_trans; eauto | exact HQ'].
  - destruct (HQ e eq_refl).
  - split; [exact HR | discriminate].
Qed.

Lemma writes_only_generate_clients E (P D : string -> Prop) ccd_dir server_subnet clients :
  (forall client v, In (client, v) clients -> P (path_join ccd_dir [client])) ->
  writes_only P D (generate_clients E ccd_dir server_subnet clients).
Proof.
  induction clients as [|[client client_config] clients IH]; intros HP;
    cbn [generate_clients]; [apply writes_only_ret |].
  assert (Hrest : writes_only P D (generate_clients E ccd_dir server_subnet clients))
    by (apply IH; intros c' v' Hin; apply (HP c' v'); now right).
  assert (Hfile : P (path_join ccd_dir [client])) by (apply (HP client client_config); now left).
  pose proof (fun t c f p => writes_only_render E P D _ t c f p Hfile).
  wo_steps.
Qed.

Lemma tls_frame_other_key c c1 k : tls_frame c c1 -> k <> "tls" -> dict_get k c1 = dict_get k c.
Proof. intros (H & _) Hk. now apply H. Qed.

(** The files [generate_pki_files] reports are credential files of the
    interface. *)
Ltac listed_paths :=
  cbn [fst snd]; intros p Hin;
  repeat (rewrite in_app_iff in Hin; cbn [In] in Hin);
  repeat match goal with
         | H : _ \/ _ |- _ => destruct H as [H | H]
         | H : False |- _ => destruct H
         | H : In _ (map _ _) |- _ =>
             apply in_map_iff in H; destruct H as (? & H & _)
         end;
  subst; first [ now left | right; apply in_pki_paths; cbn; tauto ].

Lemma generate_shared_secret_listed E name pki st w st' w' :
  generate_shared_secret E name pki st w = (Returned st', w') ->
  forall p, In p (snd st') -> In p (snd st) \/ In p (pki_paths name).
Proof. unfold generate_shared_secret. intros H. inv_all; listed_paths. Qed.

Lemma generate_ca_listed E name pki st w st' w' :
  generate_ca E name pki st w = (Returned st', w') ->
  forall p, In p (snd st') -> In p (snd st) \/ In p (pki_paths name).
Proof. unfold generate_ca. intros H. inv_all; listed_paths. Qed.

Lemma generate_certificate_listed E name pki st w st' w' :
  generate_certificate E name pki st w = (Returned st', w') ->
  forall p, In p (snd st') -> In p (snd st) \/ In p (pki_paths name).
Proof. unfold generate_certificate. intros H. inv_all; listed_paths. Qed.

Lemma generate_dh_listed E name pki st w st' w' :
  generate_dh E name pki st w = (Returned st', w') ->
  forall p, In p (snd st') -> In p (snd st) \/ In p (pki_paths name).
Proof. unfold generate_dh. intros H. inv_all; listed_paths. Qed.

Lemma generate_tls_key_listed E name pki key suffix st w st' w' :
  In suffix pki_suffixes ->
  generate_tls_key E name pki key suffix st w = (Returned st', w') ->
  forall p, In p (snd st') -> In p (snd st) \/ In p (pki_paths name).
Proof.
  unfold generate_tls_key. intros Hs H. inv_all;
    cbn [fst snd]; intros p Hin; try (now left).
  rewrite in_app_iff in Hin. destruct Hin as [Hin | [<- | []]]; [now left |].
  right. now apply in_pki_paths.
Qed.

Lemma generate_pki_files_listed E c name w files c1 w' :
  dict_get "ifname" c = Some (VStr name) ->
  generate_pki_files E c w = (Returned (Some files, c1), w') ->
  forall p, In p files -> In p (pki_paths name).
Proof.
  intros Hname H. unfold generate_pki_files in H.
  inv_seq H as pki w1 Hpki. destruct (negb (truthy pki)); [discriminate H |].
  rewrite (interface_name_eq _ _ Hname), bind_ret_l in H.
  inv_seq H as st1 w2 Hs0.
  pose proof (generate_shared_secret_listed _ _ _ _ _ _ _ Hs0) as Hs.
  inv_seq H as st2 w3 Ht. injection H as <- _ _.
  assert (Hst2 : forall p, In p (snd st2) -> In p (snd st1) \/ In p (pki_paths name)).
  { destruct (truthy (dict_search_args (fst st1) ["tls"])); [| inversion Ht; auto].
    assert (Hsuffix : forall s, In s ["_auth.key"; "_crypt.key"] -> In s pki_suffixes)
      by (cbn; tauto).
    inv_seq Ht as sa wa Ha0. pose proof (generate_ca_listed _ _ _ _ _ _ _ Ha0) as Ha.
    inv_seq Ht as sb wb Hb0. pose proof (generate_certificate_listed _ _ _ _ _ _ _ Hb0) as Hb.
    inv_seq Ht as sc wc Hc0. pose proof (generate_dh_listed _ _ _ _ _ _ _ Hc0) as Hc.
    inv_seq Ht as sd wd Hd0.
    pose proof (generate_tls_key_listed _ _ _ _ _ _ _ _ _
                  (Hsuffix _ (or_introl eq_refl)) Hd0) as Hd.
    pose proof (generate_tls_key_listed _ _ _ _ _ _ _ _ _
                  (Hsuffix _ (or_intror (or_introl eq_refl))) Ht) as He.
    intros p Hp.
    destruct (He p Hp) as [Hq | Hq]; [| tauto].
    destruct (Hd p Hq) as [Hq1 | Hq1]; [| tauto].
    destruct (Hc p Hq1) as [Hq2 | Hq2]; [| tauto].
    destruct (Hb p Hq2) as [Hq3 | Hq3]; [| tauto].
    exact (Ha p Hq3). }
  intros p Hp. destruct (Hst2 p Hp) as [Hq | Hq]; [| exact Hq].
  destruct (Hs p Hq) as [[] | Hq']. exact Hq'.
Qed.

(** The generator raises no [ConfigError] and does nothing to the
    system but change files: it writes the per-client directory of the
    interface and the directories leading to it, the credential files,
    the password file, the client fragments and the daemon
    configuration, and what else it touches lay under the per-client
    directory and is removed. *)
Lemma writes_only_generate E (P D : string -> Prop) c :
  (forall name, dict_get "ifname" c = Some (VStr name) ->
     let ccd_dir := path_join (dirname (cfg_file name)) ["ccd"; name] in
     (forall p, under ccd_dir p = true -> P p \/ D p) /\
     P ccd_dir /\
     (forall p, In p (ancestors ccd_dir) -> P p) /\
     (forall p, In p (pki_paths name) -> P p) /\
     (forall a, dict_get "auth_user_pass_file" c = Some (VStr a) -> P a) /\
     (forall clients client v,
        dict_search ["server"; "client"] c = VDict clients ->
        In (client, v) clients -> P (path_join ccd_dir [client])) /\
     P (cfg_file name)) ->
  writes_only P D (generate E c).
Proof.
  intros HP. unfold generate.
  apply writes_only_with_interface_name. intros name Hname.
  destruct (HP name Hname) as (Hunder & Hccd & Hanc & Hpki & Hauth & Hclients & Hcfg).
  clear HP. cbv zeta.
  set (ccd_dir := path_join (dirname (cfg_file name)) ["ccd"; name]) in *.
  apply writes_only_bind; [apply writes_only_get_world |]. intros w0.
  apply writes_only_bind.
  { apply writes_only_when. intros _. now apply writes_only_rmtree. }
  intros _.
  destruct (key_in "deleted" c || key_in "disable" c); [apply writes_only_ret |].
  apply writes_only_bind; [apply writes_only_get_world |]. intros w1.
  apply writes_only_bind.
  { apply writes_only_when. intros _.
    apply writes_only_bind; [now apply writes_only_mkdirs |]. intros _.
    now apply writes_only_chown. }
  intros _.
  apply writes_only_bind_returned.
  { apply writes_only_generate_pki_files. intros name' Hname'.
    rewrite Hname in Hname'. injection Hname' as <-. exact Hpki. }
  intros [fix_permissions c1] wa wb Hrun. cbn [fst snd].
  pose proof (generate_pki_files_frame _ _ _ _ _ _ Hrun) as Hframe.
  assert (Hauth1 : forall a, dict_get "auth_user_pass_file" c1 = Some (VStr a) -> P a).
  { intros a Ha. apply Hauth. rewrite <- Ha. symmetry.
    apply (tls_frame_other_key _ _ _ Hframe). discriminate. }
  assert (Hsc : dict_search ["server"; "client"] c1 = dict_search ["server"; "client"] c).
  { apply dict_search_below. apply (tls_frame_other_key _ _ _ Hframe). discriminate. }
  apply writes_only_bind.
  { assert (Hpath : forall k : string -> M unit,
              (forall a, dict_get "auth_user_pass_file" c1 = Some (VStr a) ->
                         writes_only P D (k a)) ->
              writes_only P D (auth_file <- getitem "auth_user_pass_file" c1 ;;
                             auth_file <- as_path auth_file ;; k auth_file)).
    { intros k Hk. apply writes_only_bind_returned; [wo_steps |].
      intros v wc wd Hv. apply getitem_returned_inv in Hv as [Hv _].
      destruct v; cbn [as_path];
        try (apply respects_bind_throw; apply changes_files_only_refl).
      apply respects_bind_ret. now apply Hk. }
    destruct (key_in "authentication" c1); apply Hpath; intros a Ha.
    - apply writes_only_render. now apply Hauth1.
    - apply writes_only_bind; [apply writes_only_get_world |]. intros w2.
      apply writes_only_when. intros _. apply writes_only_unlink. left. now apply Hauth1. }
  intros _.
  apply writes_only_bind.
  { unfold dict_search_args. rewrite Hsc.
    destruct (dict_search ["server"; "client"] c) as [ | s | b | l | clients] eqn:Hcl;
      try (destruct (truthy _); [apply writes_only_throw | apply writes_only_ret]).
    destruct (truthy (VDict clients)); [| apply writes_only_ret].
    apply writes_only_bind; [| intros; apply writes_only_ret].
    apply writes_only_generate_clients. intros client v Hin.
    exact (Hclients clients client v eq_refl Hin). }
  intros c2.
  apply writes_only_bind; [now apply writes_only_render |]. intros _.
  apply writes_only_bind; [| intros; apply writes_only_ret].
  destruct fix_permissions as [files|]; [| apply writes_only_throw].
  apply writes_only_for_each_in. intros file Hin.
  apply writes_only_chmod, Hpki.
  exact (generate_pki_files_listed _ _ _ _ _ _ _ Hname Hrun file Hin).
Qed.

(** In particular the generator raises no [ConfigError] and neither runs
    a command, nor touches an interface, nor prints, nor exits. *)
Lemma generate_changes_files_only E c w :
  changes_files_only (fun _ => True) (fun _ => False) w (snd (generate E c w)) /\
  forall e, fst (generate E c w) <> Rejected e.
Proof.
  assert (H : writes_only (fun _ => True) (fun _ => False) (generate E c))
    by (apply writes_only_generate; cbv zeta; auto 10).
  destruct (H w) as [HR HQ]. split; [exact HR |]. intros e He. exact (HQ e He).
Qed.

(** ** Quoting in the daemon configuration (line 631) *)

Lemma prefix_true_app a : forall s,
  String.prefix a s = true -> exists rest, s = a +:+ rest.
Proof.
  induction a as [|x a IH]; intros s H.
  - exists s. reflexivity.
  - destruct s as [|y s]; [discriminate H |]. cbn [String.prefix] in H.
    destruct (ascii_dec x y) as [<-|]; [| discriminate H].
    destruct (IH s H) as [rest ->]. exists rest. reflexivity.
Qed.

Lemma prefix_app a rest : String.prefix a (a +:+ rest) = true.
Proof.
  induction a as [|x a IH]; [now destruct rest |].
  rewrite append_cons. cbn [String.prefix].
  destruct (ascii_dec x x); [exact IH | congruence].
Qed.

(** The two steps of the replacement. *)
Lemma unquote_entity rest : unquote ("&quot;" +:+ rest) = dquote +:+ unquote rest.
Proof.
  unfold unquote. rewrite append_cons. cbn [replace_go].
  assert (Hp : String.prefix "&quot;" (String "&" ("quot;" +:+ rest)) = true)
    by exact (prefix_app "&quot;" rest).
  rewrite Hp. f_equal.
Qed.

Lemma unquote_other c s :
  String.prefix "&quot;" (String c s) = false ->
  unquote (String c s) = String c (unquote s).
Proof. intros H. unfold unquote. cbn [replace_go]. now rewrite H. Qed.

(** A text that starts [unquote s] and has no quote in it starts [s]. *)
Lemma prefix_unquote t : forall s,
  ~ In (ascii_of_nat 34) (list_ascii_of_string t) ->
  String.prefix t (unquote s) = true -> String.prefix t s = true.
Proof.
  induction t as [|a t IH]; intros s Hq H; [now destruct s |].
  cbn [list_ascii_of_string In] in Hq.
  destruct s as [|c s]; [discriminate H |].
  destruct (String.prefix "&quot;" (String c s)) eqn:Hp.
  - apply prefix_true_app in Hp as [rest Hrest]. rewrite Hrest, unquote_entity in H.
    unfold dquote in H. rewrite append_cons in H. cbn [String.prefix] in H.
    destruct (ascii_dec a (ascii_of_nat 34)) as [->|]; [| discriminate H].
    destruct Hq. now left.
  - rewrite unquote_other in H by exact Hp. cbn [String.prefix] in *.
    destruct (ascii_dec a c); [| discriminate H].
    apply IH; [tauto | exact H].
Qed.

Lemma unquote_no_entity_upto n : forall s,
  (String.length s <= n)%nat -> is_infix "&quot;" (unquote s) = false.
Proof.
  induction n as [|n IH]; intros s Hlen.
  - destruct s; [reflexivity | cbn in Hlen; lia].
  - destruct s as [|c s]; [reflexivity |].
    destruct (String.prefix "&quot;" (String c s)) eqn:Hp.
    + apply prefix_true_app in Hp as [rest Hrest]. rewrite Hrest, unquote_entity.
      unfold dquote. rewrite append_cons, append_nil_l. cbn [is_infix].
      rewrite IH; [reflexivity |].
      assert (Hl : String.length (String c s) = String.length ("&quot;" +:+ rest))
        by now rewrite Hrest.
      rewrite !append_cons, append_nil_l in Hl. cbn [String.length] in Hl, Hlen. lia.
    + rewrite unquote_other by exact Hp. cbn [is_infix].
      rewrite IH by (cbn [String.length] in Hlen; lia).
      rewrite orb_false_r.
      destruct (String.prefix "&quot;" (String c (unquote s))) eqn:Hq; [| reflexivity].
      cbn [String.prefix] in Hq, Hp.
      destruct (ascii_dec "&" c) as [<-|]; [| discriminate Hq].
      apply prefix_unquote in Hq; [congruence |].
      cbn. intros H. repeat (destruct H as [H | H]; [discriminate H |]). exact H.
Qed.

Lemma unquote_unchanged s : is_infix "&quot;" s = false -> unquote s = s.
Proof.
  induction s as [|c s IH]; intros H; [reflexivity |].
  cbn [is_infix] in H. apply orb_false_elim in H as [Hp Hrest].
  rewrite unquote_other by exact Hp. now rewrite IH.
Qed.

(** The formatter of the daemon configuration leaves no [&quot;] in the
    text, and a text without [&quot;] is left as it is. *)
Theorem unquote_leaves_no_entity :
  (forall s, is_infix "&quot;" (unquote s) = false) /\
  (forall s, is_infix "&quot;" s = false -> unquote s = s).
Proof.
  split; [intros s; now apply (unquote_no_entity_upto (String.length s)) |].
  apply unquote_unchanged.
Qed.

(** The theorem at a line of raw options. *)
Lemma unquote_leaves_no_entity_witness :
  is_infix "&quot;" "--push route" = false /\ unquote "--push route" = "--push route".
Proof.
  split; [reflexivity |].
  apply (proj2 unquote_leaves_no_entity). reflexivity.
Defined.

(** ** What the file operations leave behind *)

Lemma write_text_returned p t w u w' :
  write_text p t w = (Returned u, w') ->
  exists o m, w' = with_fs (<[p := File t o m]> (fs w)) w.
Proof.
  unfold write_text. rewrite (bind_returned get_world _ w w w eq_refl).
  destruct (fs w !! p) as [[o|t0 o m]|]; intros H; inversion H; eauto.
Qed.

Lemma chmod_run p mode w :
  chmod p mode w =
  (Returned tt,
   with_fs match fs w !! p with
           | Some (File t o _) => <[p := File t o (Some mode)]> (fs w)
           | _ => fs w
           end w).
Proof.
  unfold chmod. rewrite (bind_returned get_world _ w w w eq_refl).
  destruct (fs w !! p) as [[o|t o m]|]; try reflexivity; now rewrite with_fs_same.
Qed.

Lemma chown_run p u g w :
  chown p u g w =
  (Returned tt,
   with_fs match fs w !! p with
           | Some (File t _ m) => <[p := File t (Some (u, g)) m]> (fs w)
           | Some (Dir _) => <[p := Dir (Some (u, g))]> (fs w)
           | None => fs w
           end w).
Proof.
  unfold chown. rewrite (bind_returned get_world _ w w w eq_refl).
  destruct (fs w !! p) as [[o|t o m]|]; try reflexivity; now rewrite with_fs_same.
Qed.

(** A rendered file holds the formatted text and belongs to the service
    account. *)
Lemma render_written E destination template content formater permission w u w' :
  render E destination template content formater permission w = (Returned u, w') ->
  exists m, fs w' !! destination
            = Some (File (formater (ext_render E template content)) (Some (user, group)) m).
Proof.
  unfold render. intros H.
  inv_seq H as u1 w1 Hw. apply write_text_returned in Hw as (o & m & ->).
  inv_seq H as u2 w2 Hc.
  assert (Hfile : exists m', fs w2 !! destination
                    = Some (File (formater (ext_render E template content)) o m')).
  { destruct permission as [mode|].
    - rewrite chmod_run in Hc. injection Hc as _ <-. cbn [fs with_fs].
      rewrite lookup_insert_eq. cbn [fs with_fs]. rewrite lookup_insert_eq. eauto.
    - inversion Hc; subst. cbn [fs with_fs]. rewrite lookup_insert_eq. eauto. }
  destruct Hfile as [m' Hfile].
  rewrite chown_run, Hfile in H. injection H as _ <-.
  cbn [fs with_fs]. rewrite lookup_insert_eq. eauto.
Qed.

(** The loop that tightens the permissions returns; it leaves every
    file with its text and its owner, the files of the list with mode
    0600 and the others with their mode, and it touches nothing else. *)
Lemma chmod_600_loop l : forall w,
  exists w',
    for_each l chmod_600 w = (Returned tt, w') /\
    w' = with_fs (fs w') w /\
    (forall p t o m, fs w !! p = Some (File t o m) ->
       exists m', fs w' !! p = Some (File t o m') /\
                  (In p l -> m' = Some 384) /\ (~ In p l -> m' = m)) /\
    (forall p, is_file p (fs w) = false -> fs w' !! p = fs w !! p).
Proof.
  induction l as [|q l IH]; intros w.
  - exists w. cbn [for_each]. split; [reflexivity |]. split; [now rewrite with_fs_same |].
    split; [| auto]. intros p t o m Hp. exists m. cbn [In]. tauto.
  - cbn [for_each]. unfold chmod_600 at 1.
    rewrite (bind_returned _ _ _ _ _ (chmod_run q 384 w)).
    set (f1 := match fs w !! q with
               | Some (File t o _) => <[q := File t o (Some 384)]> (fs w)
               | _ => fs w
               end).
    destruct (IH (with_fs f1 w)) as (w' & Hrun & Hw' & Hfiles & Hothers).
    exists w'. split; [exact Hrun |]. split; [rewrite Hw' at 1; reflexivity |].
    cbn [fs with_fs] in Hfiles, Hothers.
    split.
    + intros p t o m Hp.
      destruct (decide (q = p)) as [->|Hne].
      * assert (Hf1 : f1 !! p = Some (File t o (Some 384)))
          by (unfold f1; rewrite Hp; apply lookup_insert_eq).
        destruct (Hfiles p t o (Some 384) Hf1) as (m' & Hm' & Hin & Hout).
        exists m'. split; [exact Hm' |]. split; [| intros Hn; destruct Hn; now left].
        intros _. destruct (in_dec string_dec p l) as [Hl | Hl]; auto.
      * assert (Hf1 : f1 !! p = Some (File t o m)).
        { unfold f1. destruct (fs w !! q) as [[?|? ? ?]|]; try exact Hp.
          now rewrite lookup_insert_ne. }
        destruct (Hfiles p t o m Hf1) as (m' & Hm' & Hin & Hout).
        exists m'. split; [exact Hm' |]. split.
        -- intros [Heq | Hl]; [contradiction | auto].
        -- intros Hn. apply Hout. intros Hl. apply Hn. now right.
    + intros p Hp.
      assert (Hf1 : f1 !! p = fs w !! p).
      { unfold f1. destruct (fs w !! q) as [[?|? ? ?]|] eqn:Hq; try reflexivity.
        apply lookup_insert_ne. intros ->. unfold is_file in Hp. now rewrite Hq in Hp. }
      rewrite Hothers; [exact Hf1 |]. unfold is_file in *. now rewrite Hf1.
Qed.

(** ** The daemon configuration (lines 628-631) *)

(** The generator of an interface that is neither deleted nor
    disabled, when it returns, has written the daemon configuration: the
    file [/run/openvpn/<ifname>.conf] holds the server template rendered
    on the record the generator returns, with every [&quot;] turned into
    a quote, and belongs to the service account. *)
Theorem daemon_configuration_written E c w name c' w' :
  dict_get "ifname" c = Some (VStr name) ->
  key_in "deleted" c || key_in "disable" c = false ->
  generate E c w = (Returned c', w') ->
  exists mode,
    fs w' !! cfg_file name
    = Some (File (unquote (ext_render E "openvpn/server.conf.tmpl" (VDict c')))
                 (Some (user, group)) mode) /\
    is_infix "&quot;" (unquote (ext_render E "openvpn/server.conf.tmpl" (VDict c'))) = false.
Proof.
  intros Hname Hen H. unfold generate in H.
  rewrite (interface_name_eq _ _ Hname), bind_ret_l in H.
  inv_seq H as w0 w1 Hget. inv_seq H as u w2 Hrm. rewrite Hen in H.
  inv_seq H as w3 w4 Hget'. inv_seq H as u' w5 Hmk. inv_seq H as r w6 Hpki.
  destruct r as [fix_permissions c1]. cbn [fst snd] in H.
  inv_seq H as u'' w7 Hauth. inv_seq H as c2 w8 Hclients.
  inv_seq H as u3 w9 Hrender. inv_seq H as u4 w10 Hperm.
  inversion H; subst; clear H.
  apply render_written in Hrender as [m Hfile].
  destruct fix_permissions as [files|]; [| discriminate Hperm].
  destruct (chmod_600_loop files w9) as (w'' & Hrun & _ & Hfiles & _).
  rewrite Hrun in Hperm. injection Hperm as _ ->.
  destruct (Hfiles _ _ _ _ Hfile) as (m' & Hm' & _).
  exists m'. split; [exact Hm' |]. apply (unquote_no_entity_upto _ _ (le_n _)).
Qed.

(** The theorem at the accepted TOTP server on an empty system. *)
Lemma daemon_configuration_written_witness :
  exists c' w' mode,
    generate demo_externals totp_server empty_world = (Returned c', w') /\
    fs w' !! cfg_file "vtun0"
    = Some (File (unquote (ext_render demo_externals "openvpn/server.conf.tmpl" (VDict c')))
                 (Some (user, group)) mode) /\
    is_infix "&quot;"
             (unquote (ext_render demo_externals "openvpn/server.conf.tmpl" (VDict c')))
    = false.
Proof.
  assert (H : exists c' w',
             generate demo_externals totp_server empty_world = (Returned c', w')).
  { vm_compute. eauto. }
  destruct H as (c' & w' & H). exists c', w'.
  destruct (daemon_configuration_written demo_externals totp_server empty_world
              "vtun0" c' w' eq_refl eq_refl H) as (mode & Hfile & Hquot).
  exists mode. auto.
Defined.

(** ** The applier (lines 639-661) *)

(** The applier on an interface that is neither deleted nor disabled. *)
Lemma apply_enabled_run c w name :
  dict_get "ifname" c = Some (VStr name) ->
  key_in "deleted" c || key_in "disable" c = false ->
  apply c w =
  (Returned tt,
   mkWorld (fs w)
           (calls w ++ ["systemctl stop openvpn@" +:+ name +:+ ".service";
                        "systemctl start openvpn@" +:+ name +:+ ".service"])%list
           (<[name := Some c]> (netifs w)) (stdout w) (entropy w) (drawn w)
           (exit_status w)).
Proof.
  intros Hname Hen. unfold apply.
  rewrite (interface_name_eq _ _ Hname), bind_ret_l, Hen.
  unfold call, set_netifs, modify, bind. cbn [fs calls netifs stdout entropy drawn exit_status].
  now rewrite <- app_assoc.
Qed.

(** The applier on a deleted or disabled interface with a plain name. *)
Lemma apply_deleted_run c w name :
  dict_get "ifname" c = Some (VStr name) ->
  key_in "deleted" c || key_in "disable" c = true ->
  apply c w =
  if plain_name name then
    (Returned tt,
     mkWorld (unlink_files (glob_runtime_files name (fs w)) (fs w))
             (calls w ++ ["systemctl stop openvpn@" +:+ name +:+ ".service"])%list
             (delete name (netifs w)) (stdout w) (entropy w) (drawn w) (exit_status w))
  else
    (Raised OutOfModel,
     mkWorld (fs w) (calls w ++ ["systemctl stop openvpn@" +:+ name +:+ ".service"])%list
             (netifs w) (stdout w) (entropy w) (drawn w) (exit_status w)).
Proof.
  intros Hname Hdel. unfold apply.
  rewrite (interface_name_eq _ _ Hname), bind_ret_l.
  set (cmd := "systemctl stop openvpn@" +:+ name +:+ ".service").
  set (w1 := mkWorld (fs w) (calls w ++ [cmd])%list (netifs w) (stdout w)
                     (entropy w) (drawn w) (exit_status w)).
  rewrite (bind_returned (call cmd) _ w tt w1 eq_refl).
  rewrite Hdel. destruct (plain_name name); [| reflexivity].
  cbn [negb when]. rewrite bind_ret_l.
  rewrite (bind_returned get_world _ w1 w1 w1 eq_refl).
  rewrite (bind_returned _ _ _ _ _ (cleanup_loop _ w1)).
  set (w2 := with_fs (unlink_files (glob_runtime_files name (fs w1)) (fs w1)) w1).
  rewrite (bind_returned get_world _ w2 w2 w2 eq_refl).
  unfold when. cbn [netifs w2 w1 with_fs].
  destruct (netifs w !! name) as [o|] eqn:Hn.
  - rewrite bool_decide_eq_true_2 by eauto. reflexivity.
  - rewrite bool_decide_eq_false_2 by (intros [? ?]; discriminate).
    cbn. now rewrite (delete_id _ _ Hn).
Qed.

(** The applier raises no [ConfigError] and calls no [exit]. *)
Lemma apply_effects c w :
  exit_status (snd (apply c w)) = exit_status w /\
  forall e, fst (apply c w) <> Rejected e.
Proof.
  destruct (dict_get "ifname" c) as [v|] eqn:Hget.
  2:{ unfold apply, interface_name, getitem. rewrite Hget. cbn.
      split; [reflexivity | discriminate]. }
  destruct (string_or_not v) as [[name ->]|Hv].
  2:{ unfold apply, interface_name, getitem. rewrite Hget.
      destruct v; cbn; try (split; [reflexivity | discriminate]). now destruct (Hv s). }
  destruct (key_in "deleted" c || key_in "disable" c) eqn:Hdel.
  - rewrite (apply_deleted_run _ _ _ Hget Hdel).
    destruct (plain_name name); cbn; split; try reflexivity; discriminate.
  - rewrite (apply_enabled_run _ _ _ Hget Hdel). cbn. split; [reflexivity | discriminate].
Qed.

(** ** The pipeline (lines 664-672) *)

(** The pipeline after validation accepted: the generator, then the
    applier on the record the generator returns. *)
Lemma main_accepted E c w :
  fst (verify E c w) = Returned tt ->
  main E c w = bind (generate E c) apply (snd (verify E c w)).
Proof.
  intros Hacc. apply fst_returned in Hacc. unfold main.
  rewrite (bind_returned _ _ _ _ _ Hacc).
  set (wv := snd (verify E c w)).
  destruct (generate_changes_files_only E c wv) as [_ Hgen].
  unfold bind. destruct (generate E c wv) as [[c'|e|x] w1] eqn:Hg; cbn [fst] in Hgen.
  - pose proof (apply_effects c' w1) as [_ Hap].
    destruct (apply c' w1) as [[u|e|x] w2]; cbn [fst] in Hap; try reflexivity.
    now destruct (Hap e).
  - now destruct (Hgen e).
  - reflexivity.
Qed.

Lemma main_raised E c w x :
  fst (verify E c w) = Raised x -> main E c w = (Raised x, snd (verify E c w)).
Proof.
  intros H. unfold main. destruct (verify E c w) as [r wv] eqn:Hv. cbn in H. subst r.
  rewrite (bind_raised _ _ _ _ _ Hv). reflexivity.
Qed.

(** A run never ends in an uncaught [ConfigError].  It ends with the
    exit status 1 exactly when validation rejected the configuration, in
    which case it returns; otherwise the exit status is left as it was:
    the generator and the applier raise no [ConfigError] and do not exit,
    and an exception raised by validation escapes. *)
Theorem exit_status_of_a_run E c w :
  (forall e, fst (main E c w) <> Rejected e) /\
  exit_status (snd (main E c w)) =
    match fst (verify E c w) with
    | Rejected _ => Some 1
    | _ => exit_status w
    end /\
  (forall e, fst (verify E c w) = Rejected e -> fst (main E c w) = Returned tt) /\
  (forall x, fst (verify E c w) = Raised x -> fst (main E c w) = Raised x).
Proof.
  destruct (verify_frame E c w) as (_ & _ & _ & Hexit).
  destruct (fst (verify E c w)) as [[]|e|x] eqn:Hv.
  - rewrite (main_accepted _ _ _ Hv).
    set (wv := snd (verify E c w)) in *.
    destruct (generate_changes_files_only E c wv) as [[Hw _] Hgen].
    unfold bind. destruct (generate E c wv) as [[c'|e|x] w1] eqn:Hg; cbn [fst snd] in *.
    + destruct (apply_effects c' w1) as [Hex Hap].
      repeat split; try discriminate.
      * exact Hap.
      * rewrite Hex, Hw. cbn. exact Hexit.
    + now destruct (Hgen e).
    + repeat split; try discriminate. rewrite Hw. cbn. exact Hexit.
  - rewrite (main_rejected _ _ _ _ Hv). cbn. repeat split; try discriminate.
  - rewrite (main_raised _ _ _ _ Hv). cbn. repeat split; try discriminate; auto.
Qed.

(** A run on an accepted configuration that comes to its end has run
    the command that stops the service and then, unless the interface is
    deleted or disabled, the command that starts it, and no other
    command; it has removed the interface object of a deleted or disabled
    interface, and otherwise pushed into the interface object the record
    the generator returned, which is the accepted record with the keys
    the generator writes. *)
Theorem commands_of_a_run E c w name :
  dict_get "ifname" c = Some (VStr name) ->
  fst (verify E c w) = Returned tt ->
  fst (main E c w) = Returned tt ->
  let stop := "systemctl stop openvpn@" +:+ name +:+ ".service" in
  let start := "systemctl start openvpn@" +:+ name +:+ ".service" in
  let w' := snd (main E c w) in
  if key_in "deleted" c || key_in "disable" c
  then calls w' = (calls w ++ [stop])%list /\
       netifs w' = delete name (netifs w)
  else calls w' = (calls w ++ [stop; start])%list /\
       fst (generate E c (snd (verify E c w))) = Returned (generated_record c) /\
       netifs w' = <[name := Some (generated_record c)]> (netifs w).
Proof.
  intros Hname Hacc Hret. cbv zeta.
  destruct (verify_frame E c w) as (_ & Hcalls & Hnet & _).
  rewrite (main_accepted _ _ _ Hacc) in *.
  set (wv := snd (verify E c w)) in *.
  destruct (generate_changes_files_only E c wv) as [[Hw _] _].
  unfold bind in *. destruct (generate E c wv) as [[c'|e|x] w1] eqn:Hg;
    cbn [fst snd] in *; try discriminate Hret.
  pose proof (generate_returned_record _ _ _ _ _ Hg) as Hrec.
  pose proof (generate_returned_exact _ _ _ _ _ Hg) as Hexact.
  destruct Hrec as (Hkeys & Hother & _).
  assert (Hname' : dict_get "ifname" c' = Some (VStr name))
    by (rewrite Hother; [exact Hname | discriminate | discriminate]).
  assert (Hdel' : key_in "deleted" c' || key_in "disable" c'
                  = key_in "deleted" c || key_in "disable" c) by (now rewrite !Hkeys).
  destruct (key_in "deleted" c || key_in "disable" c) eqn:Hdel.
  - rewrite (apply_deleted_run _ _ _ Hname' Hdel') in *.
    destruct (plain_name name); [| discriminate Hret].
    cbn [snd calls netifs]. rewrite Hw. cbn [calls netifs with_fs].
    now rewrite Hcalls, Hnet.
  - rewrite (apply_enabled_run _ _ _ Hname' Hdel'). cbn [snd calls netifs].
    rewrite Hw. cbn [calls netifs with_fs]. rewrite Hcalls, Hnet, Hexact.
    repeat split; reflexivity.
Qed.

(** The theorem at the server of the examples, started on the empty
    system. *)
Lemma commands_of_a_run_witness :
  (dict_get "ifname" totp_server = Some (VStr "vtun0") /\
   fst (verify demo_externals totp_server empty_world) = Returned tt /\
   fst (main demo_externals totp_server empty_world) = Returned tt /\
   key_in "deleted" totp_server || key_in "disable" totp_server = false) /\
  calls (snd (main demo_externals totp_server empty_world))
  = ["systemctl stop openvpn@vtun0.service"; "systemctl start openvpn@vtun0.service"].
Proof.
  split; [repeat split; vm_compute; reflexivity |].
  exact (proj1 (commands_of_a_run demo_externals totp_server empty_world "vtun0" eq_refl
                  ltac:(vm_compute; reflexivity) ltac:(vm_compute; reflexivity))).
Defined.

(** ** The generator on a deleted or disabled interface (lines 586-597) *)

(** For a deleted or disabled interface the generator returns the record
    as it is and writes nothing: when the per-client directory of the
    interface is a directory, it and everything below it is removed, and
    every other path is left as it was. *)
Theorem generate_deleted_interface E c w name :
  dict_get "ifname" c = Some (VStr name) ->
  key_in "deleted" c || key_in "disable" c = true ->
  let ccd_dir := path_join (dirname (cfg_file name)) ["ccd"; name] in
  exists w',
    generate E c w = (Returned c, w') /\
    w' = with_fs (fs w') w /\
    forall p, fs w' !! p =
              if is_dir ccd_dir (fs w) && under ccd_dir p then None else fs w !! p.
Proof.
  intros Hname Hdel ccd_dir. unfold generate.
  rewrite (interface_name_eq _ _ Hname), bind_ret_l. fold ccd_dir.
  rewrite (bind_returned get_world _ w w w eq_refl). rewrite Hdel.
  destruct (is_dir ccd_dir (fs w)) eqn:Hdir; cbn [when andb].
  - eexists. split; [reflexivity |]. split; [reflexivity |].
    intros p. cbn [fs].
    destruct (under ccd_dir p) eqn:Hu.
    + apply map_lookup_filter_None. right. intros n _ H. cbn [fst] in H. congruence.
    + destruct (fs w !! p) as [n|] eqn:Hp.
      * apply map_lookup_filter_Some. split; [exact Hp |]. exact Hu.
      * apply map_lookup_filter_None. now left.
  - exists w. rewrite bind_ret_l. split; [reflexivity |].
    split; [now rewrite with_fs_same | reflexivity].
Qed.

(** The theorem at a deleted interface whose client directory still
    holds a fragment. *)
Lemma generate_deleted_interface_witness :
  (dict_get "ifname" deleted_interface = Some (VStr "vtun0") /\
   key_in "deleted" deleted_interface || key_in "disable" deleted_interface = true) /\
  exists w',
    generate demo_externals deleted_interface world_with_client_fragments
    = (Returned deleted_interface, w') /\
    w' = with_fs (fs w') world_with_client_fragments /\
    forall p, fs w' !! p =
              if is_dir (path_join (dirname (cfg_file "vtun0")) ["ccd"; "vtun0"])
                        (fs world_with_client_fragments)
                 && under (path_join (dirname (cfg_file "vtun0")) ["ccd"; "vtun0"]) p
              then None else fs world_with_client_fragments !! p.
Proof.
  split; [split; reflexivity |].
  exact (generate_deleted_interface demo_externals deleted_interface
           world_with_client_fragments "vtun0" eq_refl eq_refl).
Defined.

(** * The record handed to the pipeline ([get_config], lines 69-92) *)

Lemma dict_get_set k k' v d :
  dict_get k (dict_set k' v d) = if String.eqb k k' then Some v else dict_get k d.
Proof.
  destruct (String.eqb_spec k k') as [->|Hne].
  - apply dict_get_set_eq.
  - now apply dict_get_set_ne.
Qed.

(** What [get_config] returns. *)
Lemma get_config_returns tmp_pki d w :
  (forall name, dict_get "ifname" d = Some (VStr name) ->
     exists c,
       get_config tmp_pki d w = (Returned c, w) /\
       dict_get "auth_user_pass_file" c
         = Some (VStr ("/run/openvpn/" +:+ name +:+ ".pw")) /\
       dict_get "daemon_user" c = Some (VStr "openvpn") /\
       dict_get "daemon_group" c = Some (VStr "openvpn") /\
       dict_get "pki" c = (if key_in "deleted" d then dict_get "pki" d else Some tmp_pki) /\
       (forall k, ~ In k ["pki"; "auth_user_pass_file"; "daemon_user"; "daemon_group"] ->
                  dict_get k c = dict_get k d)) /\
  (dict_get "ifname" d = None ->
   get_config tmp_pki d w = (Raised (KeyError "ifname"), w)).
Proof.
  set (d1 := if negb (key_in "deleted" d) then dict_set "pki" tmp_pki d else d).
  assert (Hif : dict_get "ifname" d1 = dict_get "ifname" d).
  { unfold d1. destruct (negb (key_in "deleted" d)); [| reflexivity].
    apply dict_get_set_ne. discriminate. }
  split.
  - intros name Hname. rewrite <- Hif in Hname.
    unfold get_config. fold d1. rewrite (interface_name_eq _ _ Hname), bind_ret_l.
    eexists. split; [reflexivity |].
    rewrite !dict_get_set. cbn [String.eqb Ascii.eqb Bool.eqb].
    repeat split.
    + unfold d1. destruct (key_in "deleted" d); cbn [negb]; [reflexivity |].
      apply dict_get_set_eq.
    + intros k Hk. cbn [In] in Hk. rewrite !dict_get_set.
      destruct (String.eqb_spec k "daemon_group") as [->|_]; [tauto |].
      destruct (String.eqb_spec k "daemon_user") as [->|_]; [tauto |].
      destruct (String.eqb_spec k "auth_user_pass_file") as [->|_]; [tauto |].
      unfold d1. destruct (negb (key_in "deleted" d)); [| reflexivity].
      apply dict_get_set_ne. intros ->. tauto.
  - intros Hnone. rewrite <- Hif in Hnone.
    unfold get_config. fold d1. unfold interface_name, getitem. rewrite Hnone. reflexivity.
Qed.

(** [get_config] neither reads nor changes the system.  To the record of
    the interface it adds the path of the password file,
    [/run/openvpn/<ifname>.pw], and the service account as the user and
    the group of the daemon; it adds the PKI subtree unless the interface
    is deleted; every other key keeps its value.  A record without an
    interface name makes it fail with a [KeyError]. *)
Theorem get_config_record tmp_pki d w :
  (forall name, dict_get "ifname" d = Some (VStr name) ->
     exists c,
       get_config tmp_pki d w = (Returned c, w) /\
       dict_get "auth_user_pass_file" c
         = Some (VStr ("/run/openvpn/" +:+ name +:+ ".pw")) /\
       dict_get "daemon_user" c = Some (VStr "openvpn") /\
       dict_get "daemon_group" c = Some (VStr "openvpn") /\
       dict_get "pki" c = (if key_in "deleted" d then dict_get "pki" d else Some tmp_pki) /\
       (forall k, ~ In k ["pki"; "auth_user_pass_file"; "daemon_user"; "daemon_group"] ->
                  dict_get k c = dict_get k d)) /\
  (dict_get "ifname" d = None ->
   get_config tmp_pki d w = (Raised (KeyError "ifname"), w)).
Proof. apply get_config_returns. Qed.

(** The theorem at the record of a deleted interface. *)
Lemma get_config_record_witness :
  dict_get "ifname" deleted_interface = Some (VStr "vtun0") /\
  exists c,
    get_config demo_pki deleted_interface empty_world = (Returned c, empty_world) /\
    dict_get "auth_user_pass_file" c = Some (VStr "/run/openvpn/vtun0.pw") /\
    dict_get "daemon_user" c = Some (VStr "openvpn") /\
    dict_get "daemon_group" c = Some (VStr "openvpn") /\
    dict_get "pki" c = None /\
    (forall k, ~ In k ["pki"; "auth_user_pass_file"; "daemon_user"; "daemon_group"] ->
               dict_get k c = dict_get k deleted_interface).
Proof.
  split; [reflexivity |].
  exact (proj1 (get_config_record demo_pki deleted_interface empty_world) "vtun0" eq_refl).
Defined.

(** ** Cleanup of what the generator wrote (lines 64, 88 and 645) *)

Lemma list_ascii_of_string_app a b :
  list_ascii_of_string (a +:+ b) = (list_ascii_of_string a ++ list_ascii_of_string b)%list.
Proof.
  induction a as [|x a IH]; [reflexivity |].
  rewrite append_cons. cbn [list_ascii_of_string app]. now rewrite IH.
Qed.

Lemma length_append a b : String.length (a +:+ b) = (String.length a + String.length b)%nat.
Proof.
  induction a as [|x a IH]; [reflexivity |].
  rewrite append_cons. cbn [String.length]. now rewrite IH.
Qed.

Lemma substring_all s : String.substring 0 (String.length s) s = s.
Proof. induction s as [|c s IH]; [reflexivity |]. cbn. now rewrite IH. Qed.

Lemma substring_app a b :
  String.substring (String.length a) (String.length (a +:+ b) - String.length a) (a +:+ b) = b.
Proof.
  rewrite length_append. replace (_ + _ - _)%nat with (String.length b) by lia.
  induction a as [|x a IH]; [rewrite append_nil_l; apply substring_all |].
  rewrite append_cons. cbn [String.length String.substring]. exact IH.
Qed.

(** A path made of the runtime directory, the interface name, a dot and
    an extension without a slash is matched by the pattern of the
    cleanup. *)
Lemma runtime_file_of_extension name ext :
  existsb (Ascii.eqb "/"%char) (list_ascii_of_string ext) = false ->
  runtime_file_of name ("/run/openvpn/" +:+ name +:+ "." +:+ ext) = true.
Proof.
  intros Hext. unfold runtime_file_of.
  set (stem := "/run/openvpn/" +:+ name +:+ ".").
  assert (Hp : "/run/openvpn/" +:+ name +:+ "." +:+ ext = stem +:+ ext).
  { unfold stem. now rewrite !append_assoc. }
  rewrite Hp, prefix_app, substring_app, Hext. reflexivity.
Qed.

(** After the applier ran for a deleted or disabled interface with a
    plain name, neither the daemon configuration of the interface nor
    the password file at the path [get_config] gave is a regular
    file. *)
Theorem cleanup_removes_configuration_and_password tmp_pki d w0 c name w :
  dict_get "ifname" d = Some (VStr name) ->
  plain_name name = true ->
  key_in "deleted" d || key_in "disable" d = true ->
  get_config tmp_pki d w0 = (Returned c, w0) ->
  exists w' auth_file,
    apply c w = (Returned tt, w') /\
    dict_get "auth_user_pass_file" c = Some (VStr auth_file) /\
    is_file auth_file (fs w') = false /\
    is_file (cfg_file name) (fs w') = false.
Proof.
  intros Hname Hplain Hdel Hget.
  destruct (proj1 (get_config_returns tmp_pki d w0) name Hname)
    as (c0 & Hrun & Hauth & _ & _ & _ & Hother).
  rewrite Hget in Hrun. injection Hrun as <-.
  assert (Hname' : dict_get "ifname" c = Some (VStr name)).
  { rewrite Hother; [exact Hname |]. cbn. intros [H|[H|[H|[H|[]]]]]; discriminate H. }
  assert (Hdel' : key_in "deleted" c || key_in "disable" c = true).
  { unfold key_in in *. rewrite !Hother; [exact Hdel | |];
      cbn; intros [H|[H|[H|[H|[]]]]]; discriminate H. }
  rewrite (apply_deleted_run _ _ _ Hname' Hdel'), Hplain.
  eexists _, _. split; [reflexivity |]. split; [exact Hauth |].
  cbn [fs].
  assert (Hgone : forall ext,
            existsb (Ascii.eqb "/"%char) (list_ascii_of_string ext) = false ->
            is_file ("/run/openvpn/" +:+ name +:+ "." +:+ ext)
                    (unlink_files (glob_runtime_files name (fs w)) (fs w)) = false).
  { intros ext Hext. set (p := "/run/openvpn/" +:+ name +:+ "." +:+ ext).
    destruct (is_file p (fs w)) eqn:Hf.
    - unfold is_file at 1. rewrite unlink_files_removed; [reflexivity | | exact Hf].
      apply in_glob_runtime_files. split; [now apply runtime_file_of_extension |].
      unfold is_file in Hf. destruct (fs w !! p); [eauto | discriminate].
    - unfold is_file at 1. rewrite unlink_files_kept by now right. exact Hf. }
  split.
  - exact (Hgone "pw" eq_refl).
  - exact (Hgone "conf" eq_refl).
Qed.

(** The theorem at the record of a deleted interface, on a system that
    holds its runtime files. *)
Lemma cleanup_removes_configuration_and_password_witness :
  (dict_get "ifname" deleted_interface = Some (VStr "vtun0") /\
   plain_name "vtun0" = true /\
   key_in "deleted" deleted_interface || key_in "disable" deleted_interface = true /\
   is_file "/run/openvpn/vtun0.pw" (fs world_with_runtime_files) = true /\
   is_file (cfg_file "vtun0") (fs world_with_runtime_files) = true) /\
  exists c w' auth_file,
    get_config demo_pki deleted_interface empty_world = (Returned c, empty_world) /\
    apply c world_with_runtime_files = (Returned tt, w') /\
    dict_get "auth_user_pass_file" c = Some (VStr auth_file) /\
    is_file auth_file (fs w') = false /\
    is_file (cfg_file "vtun0") (fs w') = false.
Proof.
  split; [repeat split; vm_compute; reflexivity |].
  eexists.
  destruct (cleanup_removes_configuration_and_password demo_pki deleted_interface
              empty_world _ "vtun0" world_with_runtime_files eq_refl eq_refl eq_refl eq_refl)
    as (w' & auth_file & H).
  exists w', auth_file. split; [reflexivity | exact H].
Defined.


(** ** What the generator leaves behind (lines 586-637) *)

Lemma plain_name_no_slash name :
  plain_name name = true -> ~ In "/"%char (list_ascii_of_string name).
Proof.
  unfold plain_name. induction name as [|x name IH]; cbn [list_ascii_of_string forallb In].
  - tauto.
  - intros H. apply andb_prop in H as [Hx Hrest]. intros [-> | Hin].
    + discriminate Hx.
    + now apply IH.
Qed.

Lemma upto_last_slash_none s :
  ~ In "/"%char (list_ascii_of_string s) -> upto_last_slash s = None.
Proof.
  induction s as [|x s IH]; cbn [list_ascii_of_string In upto_last_slash]; [reflexivity |].
  intros H. rewrite IH by tauto.
  destruct (Ascii.eqb_spec x "/") as [-> | _]; [tauto | reflexivity].
Qed.

Lemma upto_last_slash_cons x s :
  upto_last_slash (String x s)
  = match upto_last_slash s with
    | Some h => Some (String x h)
    | None => if Ascii.eqb x "/" then Some (String x EmptyString) else None
    end.
Proof. reflexivity. Qed.

Lemma upto_last_slash_last a s :
  upto_last_slash s = None -> upto_last_slash (a +:+ "/" +:+ s) = Some (a +:+ "/").
Proof.
  intros Hs. induction a as [|x a IH].
  - rewrite !append_nil_l, append_cons, append_nil_l, upto_last_slash_cons, Hs.
    reflexivity.
  - change (String x a +:+ "/" +:+ s) with (String x (a +:+ "/" +:+ s)).
    rewrite upto_last_slash_cons, IH. reflexivity.
Qed.

Lemma dirname_cfg_file_plain name :
  plain_name name = true -> dirname (cfg_file name) = "/run/openvpn".
Proof.
  intros Hplain. unfold dirname, cfg_file.
  change ("/run/openvpn/" +:+ name +:+ ".conf")
    with ("/run/openvpn" +:+ "/" +:+ (name +:+ ".conf")).
  rewrite upto_last_slash_last; [reflexivity |].
  apply upto_last_slash_none. rewrite list_ascii_of_string_app, in_app_iff.
  intros [H | H]; [exact (plain_name_no_slash _ Hplain H) |].
  cbn in H. repeat (destruct H as [H | H]; [discriminate H |]). exact H.
Qed.

Lemma starts_with_slash_plain name :
  plain_name name = true -> starts_with_slash name = false.
Proof.
  intros Hplain. destruct name as [|x name]; [reflexivity |].
  pose proof (plain_name_no_slash _ Hplain) as H. cbn [list_ascii_of_string In] in H.
  cbn [starts_with_slash].
  destruct x as [[] [] [] [] [] [] [] []]; try reflexivity. tauto.
Qed.

(** The per-client directory of an interface with a plain name. *)
Lemma ccd_dir_plain name :
  plain_name name = true ->
  path_join (dirname (cfg_file name)) ["ccd"; name] = "/run/openvpn/ccd/" +:+ name.
Proof.
  intros Hplain. rewrite (dirname_cfg_file_plain _ Hplain).
  unfold path_join. cbn [fold_left].
  change (starts_with_slash "ccd") with false. cbv iota.
  change (String.eqb "/run/openvpn" EmptyString || ends_with_slash "/run/openvpn")
    with false. cbv iota.
  rewrite (starts_with_slash_plain _ Hplain).
  change (("/run/openvpn" +:+ "/" +:+ "ccd")) with "/run/openvpn/ccd".
  change (String.eqb "/run/openvpn/ccd" EmptyString || ends_with_slash "/run/openvpn/ccd")
    with false.
  reflexivity.
Qed.

(** No entry of the runtime directory named after the interface lies in
    the per-client directory. *)
Lemma not_under_ccd_dir name suffix :
  plain_name name = true ->
  ~ In "/"%char (list_ascii_of_string suffix) ->
  under ("/run/openvpn/ccd/" +:+ name) ("/run/openvpn/" +:+ name +:+ suffix) = false.
Proof.
  intros Hplain Hsuffix.
  assert (Hno : forall rest, name +:+ suffix <> "ccd/" +:+ rest).
  { intros rest Heq. apply (f_equal list_ascii_of_string) in Heq.
    rewrite list_ascii_of_string_app in Heq.
    assert (Hin : In "/"%char (list_ascii_of_string name ++ list_ascii_of_string suffix)%list).
    { rewrite Heq, list_ascii_of_string_app. apply in_or_app. left. cbn. tauto. }
    apply in_app_iff in Hin as [Hin | Hin]; [| tauto].
    exact (plain_name_no_slash _ Hplain Hin). }
  destruct (under _ _) eqn:Hu; [| reflexivity]. exfalso.
  unfold under in Hu. apply orb_prop in Hu as [Heq | Hpre].
  - apply String.eqb_eq in Heq.
    change ("/run/openvpn/ccd/" +:+ name) with ("/run/openvpn/" +:+ "ccd/" +:+ name) in Heq.
    apply String.app_inj in Heq. exact (Hno _ Heq).
  - apply prefix_true_app in Hpre as [rest Heq].
    rewrite !append_assoc in Heq.
    change ("/run/openvpn/ccd/" +:+ name +:+ "/" +:+ rest)
      with ("/run/openvpn/" +:+ "ccd/" +:+ name +:+ "/" +:+ rest) in Heq.
    apply String.app_inj in Heq. exact (Hno _ Heq).
Qed.

(** What [os.makedirs] goes through are beginnings of the path. *)
Lemma ancestors_go_prefix s : forall seen a,
  In a (ancestors_go seen s) -> exists rest, seen +:+ s = a +:+ rest.
Proof.
  induction s as [|x s IH]; intros seen a Hin; cbn [ancestors_go] in Hin.
  - destruct seen; [destruct Hin |]. destruct Hin as [<- | []]. now exists EmptyString.
  - assert (Hrest : In a (ancestors_go (seen +:+ String x "") s) ->
                    exists rest, seen +:+ String x s = a +:+ rest).
    { intros H. destruct (IH _ _ H) as [rest Hr]. exists rest.
      rewrite <- Hr, append_assoc. reflexivity. }
    destruct (_ && _ && _); [| now apply Hrest].
    destruct Hin as [<- | Hin]; [now exists (String x s) | now apply Hrest].
Qed.

Lemma ancestor_under dir p :
  In p (ancestors dir) -> under dir p = true -> p = dir.
Proof.
  intros Hin Hu. apply ancestors_go_prefix in Hin as [rest Hrest].
  rewrite append_nil_l in Hrest.
  unfold under in Hu. apply orb_prop in Hu as [Heq | Hpre]; [now apply String.eqb_eq |].
  apply prefix_true_app in Hpre as [rest' ->].
  apply (f_equal String.length) in Hrest. rewrite !length_append in Hrest.
  cbn [String.length] in Hrest. lia.
Qed.

Lemma under_refl dir : under dir dir = true.
Proof. unfold under. now rewrite String.eqb_refl. Qed.

(** The paths the generator writes for the record [c] of the interface
    [name]. *)
Lemma writes_only_generate_paths E c name :
  dict_get "ifname" c = Some (VStr name) ->
  let ccd_dir := path_join (dirname (cfg_file name)) ["ccd"; name] in
  writes_only (generated_path c name) (fun p => under ccd_dir p = true) (generate E c).
Proof.
  intros Hname ccd_dir. apply writes_only_generate. intros name' Hname'.
  rewrite Hname in Hname'. injection Hname' as <-. cbv zeta. fold ccd_dir.
  unfold generated_path. fold ccd_dir.
  split; [intros p Hp; right; exact Hp |].
  split; [now left |].
  split; [intros p Hp; right; now left |].
  split; [intros p Hp; do 2 right; now left |].
  split; [intros a Ha; do 3 right; now left |].
  split; [| do 5 right; reflexivity].
  intros clients client v Hc Hin. do 4 right. left. eauto 10.
Qed.

(** Once the per-client directory is removed, the generator goes on as
    if it had never been there. *)
Lemma generate_after_rmtree E c w name :
  dict_get "ifname" c = Some (VStr name) ->
  let ccd_dir := path_join (dirname (cfg_file name)) ["ccd"; name] in
  is_dir ccd_dir (fs w) = true ->
  generate E c w
  = generate E c (with_fs (filter (fun kv => under ccd_dir (fst kv) = false) (fs w)) w).
Proof.
  intros Hname ccd_dir Hdir. unfold generate.
  rewrite (interface_name_eq _ _ Hname), !bind_ret_l. fold ccd_dir.
  set (w3 := with_fs _ w).
  rewrite (bind_returned get_world _ w w w eq_refl).
  rewrite (bind_returned get_world _ w3 w3 w3 eq_refl).
  rewrite Hdir.
  assert (Hgone : is_dir ccd_dir (fs w3) = false).
  { unfold is_dir, w3. cbn [fs with_fs].
    rewrite (proj2 (map_lookup_filter_None _ _ ccd_dir)); [reflexivity |].
    right. intros n _ H. cbn [fst] in H. rewrite under_refl in H. discriminate H. }
  rewrite Hgone.
  rewrite (bind_returned (when true (rmtree ccd_dir)) _ w tt w3 eq_refl).
  rewrite (bind_returned (when false (rmtree ccd_dir)) _ w3 tt w3 eq_refl).
  reflexivity.
Qed.

(** A run of the generator, whatever its outcome, changes nothing but
    files, raises no [ConfigError], and leaves every path as it was
    except the per-client directory of the interface and the directories
    leading to it, the credential files, the password file, the client
    fragments and the daemon configuration; anything else it touches lay
    under the per-client directory and is gone. *)
Theorem generate_touches_only_its_files E c w name :
  dict_get "ifname" c = Some (VStr name) ->
  let ccd_dir := path_join (dirname (cfg_file name)) ["ccd"; name] in
  let w' := snd (generate E c w) in
  (forall e, fst (generate E c w) <> Rejected e) /\
  w' = with_fs (fs w') w /\
  forall p,
    p <> ccd_dir ->
    ~ In p (ancestors ccd_dir) ->
    ~ In p (pki_paths name) ->
    dict_get "auth_user_pass_file" c <> Some (VStr p) ->
    (forall clients client v,
       dict_search ["server"; "client"] c = VDict clients ->
       In (client, v) clients -> p <> path_join ccd_dir [client]) ->
    p <> cfg_file name ->
    fs w' !! p = fs w !! p \/ (under ccd_dir p = true /\ fs w' !! p = None).
Proof.
  intros Hname ccd_dir w'.
  destruct (writes_only_generate_paths E c name Hname w) as [[Hw Hfs] HQ].
  split; [intros e He; exact (HQ e He) |]. split; [exact Hw |].
  intros p H1 H2 H3 H4 H5 H6. apply Hfs. unfold generated_path. fold ccd_dir.
  intros [H | [H | [H | [H | [H | H]]]]]; try tauto.
  destruct H as (clients & client & v & Hc & Hin & ->).
  exact (H5 clients client v Hc Hin eq_refl).
Qed.

(** The theorem at the accepted TOTP server. *)
Lemma generate_touches_only_its_files_witness :
  dict_get "ifname" totp_server = Some (VStr "vtun0") /\
  (forall e, fst (generate demo_externals totp_server world_with_client_fragments)
             <> Rejected e) /\
  snd (generate demo_externals totp_server world_with_client_fragments)
  = with_fs (fs (snd (generate demo_externals totp_server world_with_client_fragments)))
            world_with_client_fragments.
Proof.
  split; [reflexivity |].
  destruct (generate_touches_only_its_files demo_externals totp_server
              world_with_client_fragments "vtun0" eq_refl) as (H1 & H2 & _).
  split; [exact H1 | exact H2].
Defined.

(** When the per-client directory of an interface with a plain name
    exists, a run of the generator, whatever its outcome, leaves nothing
    under it but the fragments of the clients the record lists: what an
    earlier commit left there is gone. *)
Theorem stale_client_fragments_removed E c w name :
  dict_get "ifname" c = Some (VStr name) ->
  plain_name name = true ->
  dict_get "auth_user_pass_file" c = Some (VStr ("/run/openvpn/" +:+ name +:+ ".pw")) ->
  let ccd_dir := path_join (dirname (cfg_file name)) ["ccd"; name] in
  is_dir ccd_dir (fs w) = true ->
  forall p,
    under ccd_dir p = true -> p <> ccd_dir ->
    (forall clients client v,
       dict_search ["server"; "client"] c = VDict clients ->
       In (client, v) clients -> p <> path_join ccd_dir [client]) ->
    fs (snd (generate E c w)) !! p = None.
Proof.
  intros Hname Hplain Hauth ccd_dir Hdir p Hu Hne Hclients.
  rewrite (generate_after_rmtree E c w name Hname Hdir). fold ccd_dir.
  set (w3 := with_fs _ w).
  assert (Hgone : fs w3 !! p = None).
  { unfold w3. cbn [fs with_fs]. apply map_lookup_filter_None. right.
    intros n _ H. cbn [fst] in H. congruence. }
  destruct (writes_only_generate_paths E c name Hname w3) as [[_ Hfs] _].
  fold ccd_dir in Hfs.
  assert (Hccd : ccd_dir = "/run/openvpn/ccd/" +:+ name) by exact (ccd_dir_plain _ Hplain).
  assert (Hout : forall suffix, ~ In "/"%char (list_ascii_of_string suffix) ->
                                p <> "/run/openvpn/" +:+ name +:+ suffix).
  { intros suffix Hs ->. rewrite Hccd in Hu.
    rewrite (not_under_ccd_dir _ _ Hplain Hs) in Hu. discriminate Hu. }
  assert (Hslash : forall s, In s (".pw" :: ".conf" :: pki_suffixes) ->
                             ~ In "/"%char (list_ascii_of_string s)).
  { intros s Hs Hin. cbn in Hs.
    repeat (destruct Hs as [<- | Hs];
            [cbn in Hin; repeat (destruct Hin as [Hin | Hin]; [discriminate Hin |]);
             exact Hin |]).
    exact Hs. }
  assert (Hnot : ~ generated_path c name p).
  { unfold generated_path. fold ccd_dir.
    intros [H | [H | [H | [H | [H | H]]]]].
    - exact (Hne H).
    - exact (Hne (ancestor_under _ _ H Hu)).
    - unfold pki_paths in H. apply in_map_iff in H as (suffix & <- & Hs).
      assert (Hpre : String.prefix "_" suffix = true).
      { cbn in Hs. repeat (destruct Hs as [<- | Hs]; [reflexivity |]). destruct Hs. }
      rewrite (pki_path_plain _ _ Hplain Hpre) in Hout.
      apply (Hout suffix); [| reflexivity]. apply Hslash. now do 2 right.
    - rewrite Hauth in H. injection H as <-.
      apply (Hout ".pw"); [| reflexivity]. apply Hslash. now left.
    - destruct H as (clients & client & v & Hc & Hin & ->).
      exact (Hclients clients client v Hc Hin eq_refl).
    - subst p. apply (Hout ".conf"); [| reflexivity]. apply Hslash. right. now left. }
  destruct (Hfs p Hnot) as [-> | [_ H]]; [exact Hgone | exact H].
Qed.

(** The theorem at the TOTP server, whose only client is alice, on a
    system where the per-client directory holds a fragment for bob. *)
Lemma stale_client_fragments_removed_witness :
  (dict_get "ifname" totp_server = Some (VStr "vtun0") /\
   plain_name "vtun0" = true /\
   dict_get "auth_user_pass_file" totp_server = Some (VStr "/run/openvpn/vtun0.pw") /\
   is_dir "/run/openvpn/ccd/vtun0" (fs world_with_client_fragments) = true /\
   under "/run/openvpn/ccd/vtun0" "/run/openvpn/ccd/vtun0/bob" = true) /\
  fs (snd (generate demo_externals totp_server world_with_client_fragments))
    !! "/run/openvpn/ccd/vtun0/bob" = None.
Proof.
  split; [repeat split; reflexivity |].
  apply (stale_client_fragments_removed demo_externals totp_server
           world_with_client_fragments "vtun0" eq_refl eq_refl eq_refl eq_refl
           "/run/openvpn/ccd/vtun0/bob" eq_refl).
  - discriminate.
  - intros clients client v Hc Hin. vm_compute in Hc. injection Hc as <-.
    destruct Hin as [Hin | []]. injection Hin as <- _. discriminate.
Defined.

(** ** The credential files (lines 481-584) *)

(** A run of [generate_pki_files], whatever its outcome, raises no
    [ConfigError] and changes nothing of the system but the eight
    credential files of the interface; the files it reports for the
    permission fix are among them. *)
Theorem generate_pki_files_stays_within_credential_files E c w name :
  dict_get "ifname" c = Some (VStr name) ->
  let w' := snd (generate_pki_files E c w) in
  (forall e, fst (generate_pki_files E c w) <> Rejected e) /\
  w' = with_fs (fs w') w /\
  (forall p, ~ In p (pki_paths name) -> fs w' !! p = fs w !! p) /\
  (forall files c1,
     fst (generate_pki_files E c w) = Returned (Some files, c1) ->
     forall p, In p files -> In p (pki_paths name)).
Proof.
  intros Hname w'.
  assert (H : writes_only (fun p => In p (pki_paths name)) (fun _ => False)
                (generate_pki_files E c)).
  { apply writes_only_generate_pki_files. intros name' Hname'.
    rewrite Hname in Hname'. injection Hname' as <-. auto. }
  destruct (H w) as [[Hw Hfs] HQ].
  split; [intros e He; exact (HQ e He) |]. split; [exact Hw |]. split.
  - intros p Hp. destruct (Hfs p Hp) as [Heq | [[] _]]. exact Heq.
  - intros files c1 Hrun.
    destruct (generate_pki_files E c w) as [r w1] eqn:Hgen. cbn [fst] in Hrun. subst r.
    exact (generate_pki_files_listed _ _ _ _ _ _ _ Hname Hgen).
Qed.

(** The theorem at the accepted TOTP server on an empty system: the
    daemon configuration is not among the files it touches. *)
Lemma generate_pki_files_stays_within_credential_files_witness :
  dict_get "ifname" totp_server = Some (VStr "vtun0") /\
  fs (snd (generate_pki_files demo_externals totp_server empty_world)) !! cfg_file "vtun0"
  = fs empty_world !! cfg_file "vtun0".
Proof.
  split; [reflexivity |].
  destruct (generate_pki_files_stays_within_credential_files demo_externals totp_server
              empty_world "vtun0" eq_refl) as (_ & _ & Hfs & _).
  apply Hfs. cbn. intros H.
  repeat (destruct H as [H | H]; [discriminate H |]). exact H.
Defined.
